(** * MTK tool: the safety-gated operation pipeline

    A shallow embedding of [mtk_safety.py], [mtk_device_manager.py],
    [mtk_reports.py], the orchestrator of [mtk_tool_main.py],
    [mtk_restore.py] and [mtk_update_manager.py].

    Python values are embedded as follows.
    - [str] is [string]; the texts the program handles (tool output,
      partition names, paths) are ASCII.
    - [int] is [Z]; [float] is an IEEE 754 binary64 value, given by
      [spec_float] with [prec = 53] and [emax = 1024].
    - a [dict] built by a literal or filled in a loop is an association
      list in insertion order.
    - the local file system is a finite map from paths to nodes.
    - an exception is a value of [exn]; code that can raise lives in
      [outcome] (pure code) or in the monad [M] (code that talks to the
      device, the clock or the file system). *)

From Stdlib Require Import ZArith String Ascii List Lia SpecFloat.
From stdpp Require Import base strings gmap list.
Import ListNotations.
Open Scope string_scope.
Open Scope Z_scope.

(** ** Exceptions and outcomes *)

(** A raised exception: its class name and [str(e)]. *)
Record exn := Exception { exn_class : string; exn_msg : string }.

Inductive outcome (A : Type) : Type :=
| Val (a : A)
| Exc (e : exn).
Arguments Val {A} a.
Arguments Exc {A} e.

Definition obind {A B} (x : outcome A) (k : A -> outcome B) : outcome B :=
  match x with
  | Val a => k a
  | Exc e => Exc e
  end.

(** [try: body except Exception as e: handler] for pure code. *)
Definition otry {A} (body : outcome A) (handler : exn -> outcome A) : outcome A :=
  match body with
  | Val a => Val a
  | Exc e => handler e
  end.

Declare Scope outcome_scope.
Delimit Scope outcome_scope with out.
Notation "x <- e ;; k" := (obind e (fun x => k))
  (at level 100, e at next level, right associativity) : outcome_scope.

Definition ValueError (msg : string) : exn := Exception "ValueError" msg.
Definition TypeError (msg : string) : exn := Exception "TypeError" msg.
Definition IndexError (msg : string) : exn := Exception "IndexError" msg.
Definition KeyError (msg : string) : exn := Exception "KeyError" msg.
Definition OverflowError (msg : string) : exn := Exception "OverflowError" msg.

(** ** Python strings *)

Module PyStr.

Definition code (c : ascii) : Z := Z.of_nat (nat_of_ascii c).

(** [str.isspace] on ASCII: tab, newline, vertical tab, form feed,
    carriage return, the four separators 0x1c-0x1f and the space. *)
Definition is_space (c : ascii) : bool :=
  let n := code c in
  ((9 <=? n) && (n <=? 13)) || ((28 <=? n) && (n <=? 31)) || (n =? 32).

Definition is_digit (c : ascii) : bool :=
  let n := code c in (48 <=? n) && (n <=? 57).

Definition digit_value (c : ascii) : Z := code c - 48.

Definition lower_char (c : ascii) : ascii :=
  let n := code c in
  if (65 <=? n) && (n <=? 90) then ascii_of_nat (Z.to_nat (n + 32)) else c.

Definition upper_char (c : ascii) : ascii :=
  let n := code c in
  if (97 <=? n) && (n <=? 122) then ascii_of_nat (Z.to_nat (n - 32)) else c.

Fixpoint lower (s : string) : string :=
  match s with
  | EmptyString => EmptyString
  | String c s' => String (lower_char c) (lower s')
  end.

Fixpoint upper (s : string) : string :=
  match s with
  | EmptyString => EmptyString
  | String c s' => String (upper_char c) (upper s')
  end.

Definition is_empty (s : string) : bool :=
  match s with
  | EmptyString => true
  | String _ _ => false
  end.

Fixpoint lstrip (s : string) : string :=
  match s with
  | EmptyString => EmptyString
  | String c s' => if is_space c then lstrip s' else s
  end.

Fixpoint rstrip (s : string) : string :=
  match s with
  | EmptyString => EmptyString
  | String c s' =>
      let r := rstrip s' in
      if is_empty r && is_space c then EmptyString else String c r
  end.

(** [s.strip()] *)
Definition strip (s : string) : string := rstrip (lstrip s).

(** [sub in s] *)
Fixpoint contains (sub s : string) : bool :=
  String.prefix sub s ||
  match s with
  | EmptyString => false
  | String _ s' => contains sub s'
  end.

(** The token being read and the tokens after it. *)
Fixpoint split_go (s : string) : string * list string :=
  match s with
  | EmptyString => (EmptyString, [])
  | String c s' =>
      let '(t, ts) := split_go s' in
      if is_space c
      then (EmptyString, if is_empty t then ts else t :: ts)
      else (String c t, ts)
  end.

(** [s.split()]: the maximal runs of non-blank characters. *)
Definition split (s : string) : list string :=
  let '(t, ts) := split_go s in
  if is_empty t then ts else t :: ts.

(** [s.split(sep)] for a one-character separator: the first piece
    and the later ones (there is always a first piece). *)
Fixpoint split_on_go (sep : ascii) (s : string) : string * list string :=
  match s with
  | EmptyString => (EmptyString, [])
  | String c s' =>
      let '(t, ts) := split_on_go sep s' in
      if Ascii.eqb c sep then (EmptyString, t :: ts) else (String c t, ts)
  end.

Definition split_on (sep : ascii) (s : string) : list string :=
  let '(t, ts) := split_on_go sep s in t :: ts.

(** [s[:-1]] *)
Fixpoint drop_last (s : string) : string :=
  match s with
  | EmptyString => EmptyString
  | String c EmptyString => EmptyString
  | String c s' => String c (drop_last s')
  end.

(** [s[-1]], which raises [IndexError] on the empty string. *)
Fixpoint last_char (s : string) : option ascii :=
  match s with
  | EmptyString => None
  | String c EmptyString => Some c
  | String _ s' => last_char s'
  end.

Definition index_last (s : string) : outcome string :=
  match last_char s with
  | Some c => Val (String c EmptyString)
  | None => Exc (IndexError "string index out of range")
  end.

Definition ends_with_slash (s : string) : bool :=
  match last_char s with
  | Some c => Ascii.eqb c "/"
  | None => false
  end.

(** [os.path.join(a, b)] on POSIX: an absolute [b] replaces [a]; no
    separator is added after an empty [a] or one ending in a slash. *)
Definition path_join (a b : string) : string :=
  match b with
  | String "/" _ => b
  | _ => if is_empty a || ends_with_slash a then a ++ b else a ++ "/" ++ b
  end.

(** Decimal digits of a non-negative number, by repeated division;
    the fuel is the binary size of the number, which is enough. *)
Fixpoint digits_fuel (fuel : nat) (n : Z) (acc : string) : string :=
  match fuel with
  | O => acc
  | S fuel' =>
      let acc' := String (ascii_of_nat (Z.to_nat (48 + n mod 10))) acc in
      if n <? 10 then acc' else digits_fuel fuel' (n / 10) acc'
  end.

(** [str(n)] for an [int]. *)
Definition of_Z (n : Z) : string :=
  let body := digits_fuel (S (Z.to_nat (Z.log2 (Z.abs n)))) (Z.abs n) "" in
  if n <? 0 then String "-" body else body.

(** A run [digit (["_"] digit)*] read to the end of the string:
    its value, or [None] when the string is not such a run. *)
Fixpoint digit_run (acc : Z) (after_digit : bool) (s : string) : option Z :=
  match s with
  | EmptyString => if after_digit then Some acc else None
  | String c s' =>
      if is_digit c then digit_run (10 * acc + digit_value c) true s'
      else if Ascii.eqb c "_" && after_digit then
        match s' with
        | String d _ => if is_digit d then digit_run acc false s' else None
        | EmptyString => None
        end
      else None
  end.

(** [int(s)] for a string argument, base ten. The limit that recent
    interpreters put on the number of digits is not modelled. *)
Definition to_int (s : string) : outcome Z :=
  let t := strip s in
  let bad := Exc (ValueError ("invalid literal for int() with base 10: " ++ s)) in
  match t with
  | String "-" r =>
      match digit_run 0 false r with Some n => Val (- n) | None => bad end
  | String "+" r =>
      match digit_run 0 false r with Some n => Val n | None => bad end
  | _ =>
      match digit_run 0 false t with Some n => Val n | None => bad end
  end.

End PyStr.

Arguments PyStr.path_join : simpl never.
Arguments PyStr.to_int : simpl never.
Arguments PyStr.of_Z : simpl never.


(** ** Python floats *)

Module PyFloat.

Definition float : Type := spec_float.

Definition mul : float -> float -> float := SFmul 53 1024.
Definition div : float -> float -> float := SFdiv 53 1024.

(** [float(n)] for an [int], as done implicitly by [n * 1.2]. *)
Definition of_Z (n : Z) : float := binary_normalize 53 1024 n 0 false.

(** The binary64 value nearest to [m * 10 ^ e10] (ties to even):
    one correctly rounded product or quotient of two integers. *)
Definition of_decimal (neg : bool) (m e10 : Z) : float :=
  match m with
  | Zpos p =>
      if 0 <=? e10
      then mul (S754_finite neg p 0) (S754_finite false (Z.to_pos (10 ^ e10)) 0)
      else div (S754_finite neg p 0) (S754_finite false (Z.to_pos (10 ^ (- e10))) 0)
  | _ => S754_zero neg
  end.

(** Underscores may only stand between two digits; they are removed
    before the number is read. *)
Fixpoint drop_underscores (prev : ascii) (s : string) : option string :=
  match s with
  | EmptyString => if Ascii.eqb prev "_" then None else Some EmptyString
  | String c s' =>
      if Ascii.eqb c "_" then
        if PyStr.is_digit prev then drop_underscores c s' else None
      else if Ascii.eqb prev "_" && negb (PyStr.is_digit c) then None
      else String c <$> drop_underscores c s'
  end.

(** The leading digits of [s]: their value on top of [acc], how many
    there are, and what follows them. *)
Fixpoint read_digits (acc : Z) (count : Z) (s : string) : Z * Z * string :=
  match s with
  | EmptyString => (acc, count, EmptyString)
  | String c s' =>
      if PyStr.is_digit c
      then read_digits (10 * acc + PyStr.digit_value c) (count + 1) s'
      else (acc, count, s)
  end.

Definition read_sign (s : string) : bool * string :=
  match s with
  | String "-" r => (true, r)
  | String "+" r => (false, r)
  | _ => (false, s)
  end.

(** The exponent part, read to the end of the string. *)
Definition read_exponent (s : string) : option Z :=
  match s with
  | EmptyString => Some 0
  | String c r =>
      if Ascii.eqb c "e" || Ascii.eqb c "E" then
        let '(neg, r') := read_sign r in
        match read_digits 0 0 r' with
        | (v, n, EmptyString) =>
            if 0 <? n then Some (if neg then - v else v) else None
        | _ => None
        end
      else None
  end.

(** [digits [. digits] [exponent]] or [. digits [exponent]]. *)
Definition read_number (neg : bool) (s : string) : option float :=
  let '(ip, ni, r1) := read_digits 0 0 s in
  let '(m, nf, r2) :=
    match r1 with
    | String "." r => read_digits ip 0 r
    | _ => (ip, 0, r1)
    end in
  if 0 <? ni + nf then
    match read_exponent r2 with
    | Some e => Some (of_decimal neg m (e - nf))
    | None => None
    end
  else None.

Definition read_inf_nan (neg : bool) (s : string) : option float :=
  let t := PyStr.lower s in
  if String.eqb t "inf" || String.eqb t "infinity" then Some (S754_infinity neg)
  else if String.eqb t "nan" then Some S754_nan
  else None.

(** [float(s)] for a string argument. *)
Definition of_string (s : string) : outcome float :=
  let bad := Exc (ValueError ("could not convert string to float: " ++ s)) in
  match drop_underscores "000" (PyStr.strip s) with
  | None => bad
  | Some t =>
      let '(neg, r) := read_sign t in
      match read_number neg r with
      | Some x => Val x
      | None =>
          match read_inf_nan neg r with
          | Some x => Val x
          | None => bad
          end
      end
  end.

(** [int(x)]: truncation towards zero. *)
Definition to_int (x : float) : outcome Z :=
  match x with
  | S754_zero _ => Val 0
  | S754_infinity _ => Exc (OverflowError "cannot convert float infinity to integer")
  | S754_nan => Exc (ValueError "cannot convert float NaN to integer")
  | S754_finite s m e =>
      Val (cond_Zopp s (if 0 <=? e then Zpos m * 2 ^ e else Zpos m / 2 ^ (- e)))
  end.

(** A float literal of the source text. *)
Definition literal (s : string) : float :=
  match of_string s with
  | Val x => x
  | Exc _ => S754_nan
  end.

End PyFloat.


(** ** Python values and dictionaries *)

#[local] Set Warnings "-register-all".

Inductive pyval : Type :=
| VNone
| VBool (b : bool)
| VInt (n : Z)
| VStr (s : string)
| VList (l : list pyval)
| VDict (d : list (string * pyval)).

(** A [dict] with string keys, in insertion order. *)
Definition dict : Type := list (string * pyval).

(** [DeviceInfo]: a dict of string fields (chipset, serial, model,
    expected_state), any of which may be absent. *)
Definition device_info : Type := list (string * string).

Module Dict.

Fixpoint get {V} (d : list (string * V)) (k : string) : option V :=
  match d with
  | [] => None
  | (k', v) :: d' => if String.eqb k' k then Some v else get d' k
  end.

(** [d.get(k, default)] *)
Definition get_default {V} (d : list (string * V)) (k : string) (default : V) : V :=
  match get d k with
  | Some v => v
  | None => default
  end.

(** [d[k]] *)
Definition index (d : dict) (k : string) : outcome pyval :=
  match get d k with
  | Some v => Val v
  | None => Exc (KeyError k)
  end.

(** [d[k] = v]: an existing key keeps its place. *)
Fixpoint set (d : dict) (k : string) (v : pyval) : dict :=
  match d with
  | [] => [(k, v)]
  | (k', v') :: d' =>
      if String.eqb k' k then (k', v) :: d' else (k', v') :: set d' k v
  end.

Definition values (d : dict) : list pyval := map snd d.

Definition of_info (d : device_info) : pyval :=
  VDict (map (fun kv => (fst kv, VStr (snd kv))) d).

End Dict.

(** Truth value of an object, as tested by [not x] and [if x]. *)
Definition truthy (v : pyval) : bool :=
  match v with
  | VNone => false
  | VBool b => b
  | VInt n => negb (n =? 0)
  | VStr s => negb (PyStr.is_empty s)
  | VList l => match l with [] => false | _ => true end
  | VDict d => match d with [] => false | _ => true end
  end.

(** [v[k]] for a string key [k]. *)
Definition subscript (v : pyval) (k : string) : outcome pyval :=
  match v with
  | VDict d => Dict.index d k
  | _ => Exc (TypeError "indices must be integers or object is not subscriptable")
  end.

(** [x in l] for a list of strings. *)
Definition str_in (x : string) (l : list string) : bool :=
  existsb (String.eqb x) l.

(** [for x in v]: the items a value yields when iterated. *)
Definition py_iter (v : pyval) : outcome (list pyval) :=
  match v with
  | VList l => Val l
  | VStr s => Val (map (fun c => VStr (String c EmptyString)) (list_ascii_of_string s))
  | VDict d => Val (map (fun kv => VStr (fst kv)) d)
  | _ => Exc (TypeError "object is not iterable")
  end.

(** [f"{x}"] for a string or another scalar. The text of a nested
    list or dict is not modelled: it counts as a fault. *)
Definition py_format (v : pyval) : outcome string :=
  match v with
  | VStr s => Val s
  | VInt n => Val (PyStr.of_Z n)
  | VBool b => Val (if b then "True" else "False")
  | VNone => Val "None"
  | _ => Exc (TypeError "text of a container")
  end.

(** [v.get(k, default)] *)
Definition py_get (v : pyval) (k : string) (default : pyval) : outcome pyval :=
  match v with
  | VDict d => Val (Dict.get_default d k default)
  | _ => Exc (Exception "AttributeError" "object has no attribute get")
  end.

(** An optional string as an object: [None] or the string. *)
Definition of_option (o : option string) : pyval :=
  match o with
  | Some s => VStr s
  | None => VNone
  end.

(** ** The outside world *)

(** What [subprocess.run] hands back. *)
Record completed := Completed { returncode : Z; stdout : string; stderr : string }.

Inductive response : Type :=
| Completes (r : completed)
| Raises (e : exn).

(** One reading of the clock, in the two formats the program prints:
    [strftime("%Y%m%d_%H%M%S")] and [isoformat()]. *)
Record instant := Instant { stamp : string; isoformat : string }.

(** A node of the local file system. A JSON file holds a document;
    images, PDF files and anything that [json.load] rejects are data
    files. Directories are not required to list their entries: a path
    is looked up as a whole. *)
Inductive node : Type :=
| Directory
| JsonFile (doc : pyval)
| DataFile.

(** The parts of the world the program cannot change: how the bridge
    tools answer a history of commands (the last one is the command
    being run), the clock, [shutil.which] and whether [fpdf] imports. *)
Record environment := Environment {
  device : list (list string) -> response;
  clock : nat -> instant;
  which : string -> bool;
  fpdf_importable : bool
}.

(** The state the program reads and writes: the local files, the
    commands run so far (oldest first), the number of clock readings,
    and the two mutable attributes [report_manager.current_report] and
    [device_manager.current_device]. *)
Record world := World {
  env : environment;
  fs : gmap string node;
  log : list (list string);
  ticks : nat;
  current_report : option dict;
  current_device : option device_info
}.

Definition set_fs (f : gmap string node) (w : world) : world :=
  World (env w) f (log w) (ticks w) (current_report w) (current_device w).
Definition set_log (l : list (list string)) (w : world) : world :=
  World (env w) (fs w) l (ticks w) (current_report w) (current_device w).
Definition set_ticks (n : nat) (w : world) : world :=
  World (env w) (fs w) (log w) n (current_report w) (current_device w).
Definition set_current_report (r : option dict) (w : world) : world :=
  World (env w) (fs w) (log w) (ticks w) r (current_device w).
Definition set_current_device (d : option device_info) (w : world) : world :=
  World (env w) (fs w) (log w) (ticks w) (current_report w) d.

(** ** The monad of effectful code *)

(** A computation reads and changes the world and returns or raises;
    what it changed before raising stays changed. *)
Definition M (A : Type) : Type := world -> outcome A * world.

Definition ret {A} (a : A) : M A := fun w => (Val a, w).
Definition raise {A} (e : exn) : M A := fun w => (Exc e, w).

Definition bind {A B} (m : M A) (k : A -> M B) : M B :=
  fun w =>
    match m w with
    | (Val a, w') => k a w'
    | (Exc e, w') => (Exc e, w')
    end.

(** [try: body except Exception as e: handler e] *)
Definition try_except {A} (body : M A) (handler : exn -> M A) : M A :=
  fun w =>
    match body w with
    | (Val a, w') => (Val a, w')
    | (Exc e, w') => handler e w'
    end.

(** [try: body finally: final] *)
Definition try_finally {A} (body : M A) (final : M unit) : M A :=
  fun w =>
    match body w with
    | (r, w') =>
        match final w' with
        | (Val _, w'') => (r, w'')
        | (Exc e, w'') => (Exc e, w'')
        end
    end.

Definition lift {A} (o : outcome A) : M A := fun w => (o, w).

Declare Scope M_scope.
Delimit Scope M_scope with M.
Notation "x <- e ;; k" := (bind e (fun x => k))
  (at level 100, e at next level, right associativity) : M_scope.
Notation "e ;; k" := (bind e (fun _ => k))
  (at level 100, right associativity) : M_scope.

(** A loop body either goes on with the loop variables or executes a
    [return]. *)
Inductive flow (R A : Type) : Type :=
| Return (r : R)
| Next (a : A).
Arguments Return {R A} r.
Arguments Next {R A} a.

Module Sys.

(** [subprocess.run(argv, capture_output=True, text=True)]: the
    command is recorded, the device answers the history. A pull that
    succeeds leaves the pulled file on the local file system. *)
Definition pulled (argv : list string) (r : completed) (f : gmap string node)
  : gmap string node :=
  match argv with
  | ["adb"; "pull"; _; dst] => if returncode r =? 0 then <[dst := DataFile]> f else f
  | _ => f
  end.

Definition subprocess_run (argv : list string) : M completed :=
  fun w =>
    let w1 := set_log (log w ++ [argv]) w in
    match device (env w) (log w1) with
    | Completes r => (Val r, set_fs (pulled argv r (fs w1)) w1)
    | Raises e => (Exc e, w1)
    end.

(** [datetime.now()] *)
Definition now : M instant :=
  fun w => (Val (clock (env w) (ticks w)), set_ticks (S (ticks w)) w).

(** [os.path.exists(path)] *)
Definition path_exists (path : string) : M bool :=
  fun w => (Val (bool_decide (is_Some (fs w !! path))), w).

(** [os.makedirs(path, exist_ok=True)] *)
Definition makedirs (path : string) : M unit :=
  fun w =>
    match fs w !! path with
    | Some Directory => (Val tt, w)
    | Some _ => (Exc (Exception "FileExistsError" path), w)
    | None => (Val tt, set_fs (<[path := Directory]> (fs w)) w)
    end.

(** [with open(path, "w") as f: json.dump(doc, f, indent=4)] *)
Definition write_json (path : string) (doc : pyval) : M unit :=
  fun w =>
    match fs w !! path with
    | Some Directory => (Exc (Exception "IsADirectoryError" path), w)
    | _ => (Val tt, set_fs (<[path := JsonFile doc]> (fs w)) w)
    end.

(** [with open(path, "r") as f: json.load(f)] *)
Definition read_json (path : string) : M pyval :=
  fun w =>
    match fs w !! path with
    | Some (JsonFile doc) => (Val doc, w)
    | Some Directory => (Exc (Exception "IsADirectoryError" path), w)
    | Some DataFile => (Exc (Exception "JSONDecodeError" path), w)
    | None => (Exc (Exception "FileNotFoundError" path), w)
    end.

(** [shutil.which(name) is not None] *)
Definition on_path (name : string) : M bool :=
  fun w => (Val (which (env w) name), w).

(** [logging.error(...)]: the log file is not part of the model. *)
Definition logging_error (msg : string) : M unit := ret tt.

End Sys.

(** ** [mtk_safety.py]: class [MTKSafetySystem] *)

Module MTKSafetySystem.

Open Scope M_scope.

(** The attributes set by [__init__]. *)
Record t := Self {
  critical_partitions : list string;
  safety_checks : list (string * list string);
  backup_root : string
}.

Definition initial : t :=
  {| critical_partitions :=
       ["nvram"; "boot"; "persist"; "security"; "userdata"; "system"];
     safety_checks :=
       [("pre_operation",
          ["check_battery"; "check_connection"; "verify_device_state"]);
        ("during_operation",
          ["monitor_connection"; "monitor_progress"; "check_device_response"]);
        ("post_operation",
          ["verify_result"; "check_device_state"; "verify_functionality"])];
     backup_root := "./MTK_TOOL/BACKUPS" |}.

Definition __init__ : M t :=
  Sys.makedirs (backup_root initial) ;;
  ret initial.

Definition safe_true : dict := [("safe", VBool true)].
Definition unsafe (message : string) : dict :=
  [("safe", VBool false); ("message", VStr message)].

Definition _check_battery (self : t) (d : device_info) : M dict :=
  try_except
    (result <- Sys.subprocess_run
       ["adb"; "shell"; "cat"; "/sys/class/power_supply/battery/capacity"] ;;
     battery_level <- lift (PyStr.to_int (PyStr.strip (stdout result))) ;;
     if battery_level <? 20 then
       ret [("safe", VBool false);
            ("message", VStr "Battery level too low");
            ("required", VStr "20%");
            ("current", VStr (PyStr.of_Z battery_level ++ "%"))]
     else ret safe_true)
    (fun _ => ret (unsafe "Could not check battery")).

Definition _check_connection (self : t) (d : device_info) : M dict :=
  try_except
    (result <- Sys.subprocess_run ["adb"; "devices"] ;;
     match Dict.get d "serial" with
     | None => raise (TypeError "'in <string>' requires string as left operand, not NoneType")
     | Some serial =>
         if negb (PyStr.contains serial (stdout result))
         then ret (unsafe "Device not connected")
         else ret safe_true
     end)
    (fun _ => ret (unsafe "Connection check failed")).

Definition _verify_device_state (self : t) (d : device_info) : M dict :=
  try_except
    (result <- Sys.subprocess_run ["adb"; "get-state"] ;;
     let state := PyStr.strip (stdout result) in
     let expected_state := Dict.get_default d "expected_state" "device" in
     if negb (String.eqb state expected_state)
     then ret (unsafe ("Device in wrong state: " ++ state ++
                       ", expected: " ++ expected_state))
     else ret safe_true)
    (fun _ => ret (unsafe "Could not verify device state")).

Definition _backup_partition (self : t) (d : device_info)
    (partition backup_path : string) : M dict :=
  try_except
    (let output_file := PyStr.path_join backup_path (partition ++ ".img") in
     result <- Sys.subprocess_run
       ["adb"; "shell"; "dd"; "if=/dev/block/by-name/" ++ partition;
        "of=/data/local/tmp/temp.img"] ;;
     if negb (returncode result =? 0)
     then ret [("success", VBool false); ("error", VStr (stderr result))]
     else
       result <- Sys.subprocess_run
         ["adb"; "pull"; "/data/local/tmp/temp.img"; output_file] ;;
       if negb (returncode result =? 0)
       then ret [("success", VBool false); ("error", VStr (stderr result))]
       else
         Sys.subprocess_run ["adb"; "shell"; "rm"; "/data/local/tmp/temp.img"] ;;
         ret [("success", VBool true); ("path", VStr output_file)])
    (fun e => ret [("success", VBool false); ("error", VStr (exn_msg e))]).

Definition _restore_partition (self : t) (d : device_info)
    (partition backup_path : string) : M dict :=
  try_except
    (let input_file := PyStr.path_join backup_path (partition ++ ".img") in
     present <- Sys.path_exists input_file ;;
     if negb present
     then ret [("success", VBool false);
               ("error", VStr ("Backup file not found: " ++ input_file))]
     else
       result <- Sys.subprocess_run
         ["adb"; "push"; input_file; "/data/local/tmp/temp.img"] ;;
       if negb (returncode result =? 0)
       then ret [("success", VBool false); ("error", VStr (stderr result))]
       else
         result <- Sys.subprocess_run
           ["adb"; "shell"; "dd"; "if=/data/local/tmp/temp.img";
            "of=/dev/block/by-name/" ++ partition] ;;
         Sys.subprocess_run ["adb"; "shell"; "rm"; "/data/local/tmp/temp.img"] ;;
         if negb (returncode result =? 0)
         then ret [("success", VBool false); ("error", VStr (stderr result))]
         else ret [("success", VBool true)])
    (fun e => ret [("success", VBool false); ("error", VStr (exn_msg e))]).

Definition _get_backup_path (self : t) (d : device_info) : M string :=
  t <- Sys.now ;;
  let timestamp := stamp t in
  let device_model := Dict.get_default d "model" "unknown" in
  ret (PyStr.path_join (backup_root self) (device_model ++ "_" ++ timestamp)).

(** The first critical partition that is not in the listing. *)
Fixpoint first_missing (partitions available : list string) : option string :=
  match partitions with
  | [] => None
  | partition :: rest =>
      if negb (str_in partition available) then Some partition
      else first_missing rest available
  end.

Definition _check_critical_partitions (self : t) (d : device_info) : M dict :=
  try_except
    (result <- Sys.subprocess_run ["adb"; "shell"; "ls"; "/dev/block/by-name/"] ;;
     if negb (returncode result =? 0)
     then ret (unsafe "Could not access partitions")
     else
       let available_partitions := PyStr.split (stdout result) in
       match first_missing (critical_partitions self) available_partitions with
       | Some partition =>
           ret (unsafe ("Critical partition not found: " ++ partition))
       | None => ret safe_true
       end)
    (fun _ => ret (unsafe "Critical partition check failed")).

Definition _convert_to_mb (self : t) (size_str : string) : outcome Z :=
  otry
    (size <- PyFloat.of_string (PyStr.drop_last size_str) ;;
     unit <- PyStr.index_last size_str ;;
     let unit := PyStr.upper unit in
     if String.eqb unit "G" then PyFloat.to_int (PyFloat.mul size (PyFloat.of_Z 1024))
     else if String.eqb unit "M" then PyFloat.to_int size
     else if String.eqb unit "K" then PyFloat.to_int (PyFloat.div size (PyFloat.of_Z 1024))
     else Val 0)%out
    (fun _ => Val 0).

Definition _calculate_required_space (self : t) (d : device_info) : outcome Z :=
  let base_space := 500 in
  let partition_space := Z.of_nat (length (critical_partitions self)) * 100 in
  let extra_space := 0 in
  let extra_space :=
    if str_in "userdata" (critical_partitions self)
    then extra_space + 1000 else extra_space in
  let total_required := base_space + partition_space + extra_space in
  PyFloat.to_int (PyFloat.mul (PyFloat.of_Z total_required) (PyFloat.literal "1.2")).

Definition _check_backup_availability (self : t) (d : device_info) : M dict :=
  try_except
    (result <- Sys.subprocess_run ["adb"; "shell"; "df"; "-h"; "/data"] ;;
     if negb (returncode result =? 0)
     then ret (unsafe "Could not check storage space")
     else
       let lines := PyStr.split_on "010" (PyStr.strip (stdout result)) in
       match lines with
       | _ :: line1 :: _ =>
           let parts := PyStr.split line1 in
           match parts with
           | _ :: _ :: _ :: part3 :: _ =>
               available_space <- lift (_convert_to_mb self part3) ;;
               required_space <- lift (_calculate_required_space self d) ;;
               if available_space <? required_space
               then ret (unsafe ("Insufficient storage space. Need " ++
                                 PyStr.of_Z required_space ++ "MB, have " ++
                                 PyStr.of_Z available_space ++ "MB"))
               else ret safe_true
           | _ => ret (unsafe "Invalid storage info format")
           end
       | _ => ret (unsafe "Invalid storage info format")
       end)
    (fun e =>
       Sys.logging_error ("Storage check error: " ++ exn_msg e) ;;
       ret (unsafe "Backup availability check failed")).

Definition _create_backup_info (self : t) (backup_path : string)
    (d : device_info) : M unit :=
  t <- Sys.now ;;
  let info :=
    VDict [("timestamp", VStr (isoformat t));
           ("device_info", Dict.of_info d);
           ("partitions", VList (map VStr (critical_partitions self)))] in
  Sys.write_json (PyStr.path_join backup_path "backup_info.json") info.

(** [all(r["success"] for r in values)] *)
Fixpoint all_success (values : list pyval) : outcome bool :=
  match values with
  | [] => Val true
  | r :: rest =>
      (s <- subscript r "success" ;;
       if truthy s then all_success rest else Val false)%out
  end.

Definition _create_verification_file (self : t) (backup_path : string)
    (results : dict) : M unit :=
  t <- Sys.now ;;
  verified <- lift (all_success (Dict.values results)) ;;
  let verification :=
    VDict [("timestamp", VStr (isoformat t));
           ("results", VDict results);
           ("verified", VBool verified)] in
  Sys.write_json (PyStr.path_join backup_path "verification.json") verification.

Fixpoint integrity_loop (backup_path : string) (partitions : list pyval) : M bool :=
  match partitions with
  | [] => ret true
  | partition :: rest =>
      name <- lift (py_format partition) ;;
      present <- Sys.path_exists (PyStr.path_join backup_path (name ++ ".img")) ;;
      if negb present then ret false else integrity_loop backup_path rest
  end.

Definition _verify_backup_integrity (self : t) (backup_path : string) : M bool :=
  try_except
    (let info_path := PyStr.path_join backup_path "backup_info.json" in
     present <- Sys.path_exists info_path ;;
     if negb present then ret false
     else
       let verification_path := PyStr.path_join backup_path "verification.json" in
       present <- Sys.path_exists verification_path ;;
       if negb present then ret false
       else
         info <- Sys.read_json info_path ;;
         listed <- lift (subscript info "partitions") ;;
         partitions <- lift (py_iter listed) ;;
         integrity_loop backup_path partitions)
    (fun _ => ret false).

Definition _check_recovery_possible (self : t) : M bool :=
  try_except
    (result <- Sys.subprocess_run ["adb"; "devices"] ;;
     if negb (PyStr.contains "device" (stdout result)) then ret false
     else
       result <- Sys.subprocess_run ["adb"; "reboot"; "recovery"] ;;
       ret (returncode result =? 0))
    (fun _ => ret false).

Definition _handle_safety_error (self : t) (error : exn) : M dict :=
  Sys.logging_error ("Safety check error: " ++ exn_msg error) ;;
  ret [("safe", VBool false);
       ("message", VStr "Safety check failed");
       ("error", VStr (exn_msg error))].

Definition _handle_backup_error (self : t) (error : exn) : M dict :=
  Sys.logging_error ("Backup error: " ++ exn_msg error) ;;
  can_recover <- _check_recovery_possible self ;;
  t <- Sys.now ;;
  ret [("status", VStr "error");
       ("message", VStr "Backup operation failed");
       ("error", VStr (exn_msg error));
       ("recoverable", VBool can_recover);
       ("timestamp", VStr (isoformat t))].

Definition handle_error (self : t) (error : exn) : M dict :=
  Sys.logging_error ("Operation error: " ++ exn_msg error) ;;
  recovery_possible <- _check_recovery_possible self ;;
  ret [("status", VStr "error");
       ("message", VStr (exn_msg error));
       ("recovery_possible", VBool recovery_possible);
       ("safe_to_continue", VBool false)].

(** [getattr(self, name)] for the checks that take a device info. *)
Definition getattr (self : t) (name : string) : outcome (device_info -> M dict) :=
  if String.eqb name "_check_battery" then Val (_check_battery self)
  else if String.eqb name "_check_connection" then Val (_check_connection self)
  else if String.eqb name "_verify_device_state" then Val (_verify_device_state self)
  else if String.eqb name "_check_critical_partitions"
    then Val (_check_critical_partitions self)
  else if String.eqb name "_check_backup_availability"
    then Val (_check_backup_availability self)
  else Exc (Exception "AttributeError" name).

Fixpoint pre_operation_loop (self : t) (d : device_info) (checks : list string)
  : M (flow dict unit) :=
  match checks with
  | [] => ret (Next tt)
  | check :: rest =>
      method <- lift (getattr self ("_" ++ check)) ;;
      result <- method d ;;
      safe <- lift (Dict.index result "safe") ;;
      if negb (truthy safe) then ret (Return result)
      else pre_operation_loop self d rest
  end.

Definition check_safety (self : t) (d : device_info) : M dict :=
  try_except
    (checks <- match Dict.get (safety_checks self) "pre_operation" with
               | Some checks => ret checks
               | None => raise (KeyError "pre_operation")
               end ;;
     pre <- pre_operation_loop self d checks ;;
     match pre with
     | Return result => ret result
     | Next _ =>
         partition_check <- _check_critical_partitions self d ;;
         safe <- lift (Dict.index partition_check "safe") ;;
         if negb (truthy safe) then ret partition_check
         else
           backup_check <- _check_backup_availability self d ;;
           safe <- lift (Dict.index backup_check "safe") ;;
           if negb (truthy safe) then ret backup_check
           else ret [("safe", VBool true);
                     ("message", VStr "All safety checks passed")]
     end)
    (fun e => _handle_safety_error self e).

Fixpoint backup_loop (self : t) (d : device_info) (backup_path : string)
    (partitions : list string) (backup_results : dict) : M (flow dict dict) :=
  match partitions with
  | [] => ret (Next backup_results)
  | partition :: rest =>
      result <- _backup_partition self d partition backup_path ;;
      let backup_results := Dict.set backup_results partition (VDict result) in
      success <- lift (Dict.index result "success") ;;
      if negb (truthy success)
      then ret (Return [("status", VStr "error");
                        ("message", VStr ("Backup failed for " ++ partition));
                        ("details", VDict result)])
      else backup_loop self d backup_path rest backup_results
  end.

Definition create_backup (self : t) (d : device_info) : M dict :=
  try_except
    (let backup_results := [] in
     backup_path <- _get_backup_path self d ;;
     Sys.makedirs backup_path ;;
     _create_backup_info self backup_path d ;;
     looped <- backup_loop self d backup_path (critical_partitions self)
                 backup_results ;;
     match looped with
     | Return r => ret r
     | Next backup_results =>
         _create_verification_file self backup_path backup_results ;;
         ret [("status", VStr "success");
              ("backup_path", VStr backup_path);
              ("results", VDict backup_results)]
     end)
    (fun e => _handle_backup_error self e).

Fixpoint restore_loop (self : t) (d : device_info) (backup_path : string)
    (partitions : list string) (restore_results : dict) : M (flow dict dict) :=
  match partitions with
  | [] => ret (Next restore_results)
  | partition :: rest =>
      result <- _restore_partition self d partition backup_path ;;
      let restore_results := Dict.set restore_results partition (VDict result) in
      success <- lift (Dict.index result "success") ;;
      if negb (truthy success)
      then ret (Return [("status", VStr "error");
                        ("message", VStr ("Restore failed for " ++ partition));
                        ("details", VDict result)])
      else restore_loop self d backup_path rest restore_results
  end.

Definition restore_backup (self : t) (backup_path : string) (d : device_info)
  : M dict :=
  try_except
    (intact <- _verify_backup_integrity self backup_path ;;
     if negb intact
     then ret [("status", VStr "error");
               ("message", VStr "Backup integrity check failed")]
     else
       let restore_results := [] in
       looped <- restore_loop self d backup_path (critical_partitions self)
                   restore_results ;;
       match looped with
       | Return r => ret r
       | Next restore_results =>
           ret [("status", VStr "success");
                ("message", VStr "Backup restored successfully");
                ("results", VDict restore_results)]
       end)
    (fun e => ret [("status", VStr "error");
                   ("message", VStr ("Restore failed: " ++ exn_msg e))]).

End MTKSafetySystem.

Arguments MTKSafetySystem._convert_to_mb : simpl never.
Arguments MTKSafetySystem._calculate_required_space : simpl never.

(** ** [mtk_device_manager.py]: class [MTKDeviceManager] *)

Inductive DeviceState : Type := UNKNOWN | NORMAL | META | FASTBOOT | RECOVERY.

Definition DeviceState_eqb (a b : DeviceState) : bool :=
  match a, b with
  | UNKNOWN, UNKNOWN | NORMAL, NORMAL | META, META
  | FASTBOOT, FASTBOOT | RECOVERY, RECOVERY => true
  | _, _ => false
  end.

Module MTKDeviceManager.

Open Scope M_scope.

(** The attributes set by [__init__] and [_load_device_commands];
    [current_device] is mutable and lives in the world. *)
Record t := Self {
  supported_chipsets : list string;
  meta_commands : list (string * list string);
  frp_commands : list (string * list string)
}.

Definition meta_sequence : list string := ["adb reboot meta"; "meta_mode --force"].
Definition frp_sequence_config : list string :=
  ["fastboot erase frp"; "fastboot erase config"; "fastboot reboot"].
Definition frp_sequence_persist : list string :=
  ["fastboot erase frp"; "fastboot erase persist"; "fastboot reboot"].
Definition frp_sequence_full : list string :=
  ["fastboot erase frp"; "fastboot erase config"; "fastboot erase persist";
   "fastboot reboot"].

Definition initial : t :=
  {| supported_chipsets :=
       ["MT6789"; "MT6833"; "MT6853"; "MT6873";
        "MT6885"; "MT6889"; "MT6893"; "MT6895"];
     meta_commands :=
       [("MT6789", meta_sequence); ("MT6833", meta_sequence);
        ("MT6853", meta_sequence); ("MT6873", meta_sequence);
        ("MT6885", meta_sequence); ("MT6889", meta_sequence);
        ("MT6893", meta_sequence); ("MT6895", meta_sequence)];
     frp_commands :=
       [("MT6789", frp_sequence_config); ("MT6833", frp_sequence_persist);
        ("MT6853", frp_sequence_full); ("MT6873", frp_sequence_full);
        ("MT6885", frp_sequence_full); ("MT6889", frp_sequence_full);
        ("MT6893", frp_sequence_full); ("MT6895", frp_sequence_full)] |}.

Definition _adb_exists (self : t) : M bool := Sys.on_path "adb".
Definition _fastboot_exists (self : t) : M bool := Sys.on_path "fastboot".

Definition _verify_chipset (self : t) (chipset : option string) : bool :=
  match chipset with
  | Some c => str_in c (supported_chipsets self)
  | None => false
  end.

(** The two handlers of [_verify_connection] and [_execute_command]:
    [except subprocess.TimeoutExpired] first, then [except Exception]. *)
Definition is_timeout (e : exn) : bool := String.eqb (exn_class e) "TimeoutExpired".

Definition _verify_connection (self : t) (d : device_info) : M dict :=
  try_except
    (adb <- _adb_exists self ;;
     if negb adb
     then ret [("connected", VBool false); ("error", VStr "ADB not found.")]
     else
       result <- Sys.subprocess_run ["adb"; "devices"] ;;
       if negb (returncode result =? 0)
       then ret [("connected", VBool false);
                 ("error", VStr "ADB devices command failed.")]
       else
         match Dict.get d "serial" with
         | None => raise (TypeError "'in <string>' requires string as left operand, not NoneType")
         | Some serial =>
             if negb (PyStr.contains serial (stdout result))
             then ret [("connected", VBool false);
                       ("error", VStr "Device serial not found.")]
             else ret [("connected", VBool true)]
         end)
    (fun e =>
       if is_timeout e
       then ret [("connected", VBool false);
                 ("error", VStr "Connection check timed out.")]
       else ret [("connected", VBool false); ("error", VStr (exn_msg e))]).

Definition verify_device (self : t) (d : device_info) : M dict :=
  try_except
    (if negb (_verify_chipset self (Dict.get d "chipset"))
     then ret [("verified", VBool false);
               ("message", VStr "Unsupported chipset");
               ("details", of_option (Dict.get d "chipset"))]
     else
       connection_status <- _verify_connection self d ;;
       connected <- lift (Dict.index connection_status "connected") ;;
       if negb (truthy connected)
       then
         error <- lift (Dict.index connection_status "error") ;;
         ret [("verified", VBool false);
              ("message", VStr "Device connection failed");
              ("details", error)]
       else
         (fun w => (Val tt, set_current_device (Some d) w)) ;;
         ret [("verified", VBool true);
              ("message", VStr "Device verified successfully");
              ("device_info", Dict.of_info d)])
    (fun e =>
       Sys.logging_error ("Device verification error: " ++ exn_msg e) ;;
       ret [("verified", VBool false);
            ("message", VStr "Verification failed");
            ("error", VStr (exn_msg e))]).

Definition state_map : list (string * DeviceState) :=
  [("device", NORMAL); ("recovery", RECOVERY);
   ("fastboot", FASTBOOT); ("sideload", UNKNOWN)].

Definition _get_device_state (self : t) : M DeviceState :=
  try_except
    (result <- Sys.subprocess_run ["adb"; "get-state"] ;;
     ret (Dict.get_default state_map (PyStr.strip (stdout result)) UNKNOWN))
    (fun _ => ret UNKNOWN).

Definition _execute_command (self : t) (cmd : string) : M dict :=
  try_except
    (adb <- (if PyStr.contains "adb" cmd then _adb_exists self else ret true) ;;
     if negb adb
     then ret [("success", VBool false);
               ("message", VStr "ADB not found. Please install ADB and add it to PATH.")]
     else
       fastboot <- (if PyStr.contains "fastboot" cmd
                    then _fastboot_exists self else ret true) ;;
       if negb fastboot
       then ret [("success", VBool false);
                 ("message", VStr "Fastboot not found. Please install Fastboot and add it to PATH.")]
       else
         result <- Sys.subprocess_run (PyStr.split cmd) ;;
         if negb (returncode result =? 0)
         then ret [("success", VBool false);
                   ("message", VStr ("Command failed: " ++ cmd));
                   ("stderr", VStr (PyStr.strip (stderr result)));
                   ("stdout", VStr (PyStr.strip (stdout result)))]
         else ret [("success", VBool true);
                   ("stdout", VStr (PyStr.strip (stdout result)))])
    (fun e =>
       if is_timeout e
       then ret [("success", VBool false);
                 ("message", VStr ("Command timed out: " ++ cmd))]
       else ret [("success", VBool false);
                 ("message", VStr ("Command error: " ++ exn_msg e))]).

Definition _get_battery_level (self : t) : M Z :=
  try_except
    (result <- Sys.subprocess_run
       ["adb"; "shell"; "cat"; "/sys/class/power_supply/battery/capacity"] ;;
     lift (PyStr.to_int (PyStr.strip (stdout result))))
    (fun _ => ret 0).

Definition _verify_frp_safety (self : t) (d : device_info) : M bool :=
  try_except
    (state <- _get_device_state self ;;
     if negb (DeviceState_eqb state FASTBOOT) then ret false
     else
       battery_level <- _get_battery_level self ;;
       if battery_level <? 20 then ret false else ret true)
    (fun _ => ret false).

Definition _verify_frp_removal (self : t) : M bool :=
  try_except
    (result <- _execute_command self "fastboot getvar frp" ;;
     match Dict.get_default result "stdout" (VStr "") with
     | VStr out => ret (PyStr.contains "empty" (PyStr.lower out))
     | _ => raise (Exception "AttributeError" "object has no attribute lower")
     end)
    (fun _ => ret false).

(** [for cmd in commands]: run each, return the first failing result. *)
Fixpoint command_loop (self : t) (commands : list string) : M (flow dict unit) :=
  match commands with
  | [] => ret (Next tt)
  | cmd :: rest =>
      result <- _execute_command self cmd ;;
      success <- lift (Dict.index result "success") ;;
      if negb (truthy success) then ret (Return result)
      else command_loop self rest
  end.

(** [not chipset or chipset not in table], then [table[chipset]]. *)
Definition commands_for (table : list (string * list string))
    (chipset : option string) : option (list string) :=
  match chipset with
  | None => None
  | Some c => if PyStr.is_empty c then None else Dict.get table c
  end.

Definition handle_meta_mode (self : t) (d : device_info) : M dict :=
  try_except
    (current_state <- _get_device_state self ;;
     if DeviceState_eqb current_state META
     then ret [("status", VStr "success");
               ("message", VStr "Device already in Meta mode")]
     else
       let chipset := Dict.get d "chipset" in
       match commands_for (meta_commands self) chipset with
       | None => ret [("status", VStr "error");
                      ("message", VStr "Unsupported chipset for Meta mode")]
       | Some commands =>
           looped <- command_loop self commands ;;
           match looped with
           | Return result => ret result
           | Next _ =>
               state <- _get_device_state self ;;
               if negb (DeviceState_eqb state META)
               then ret [("status", VStr "error");
                         ("message", VStr "Failed to enter Meta mode")]
               else ret [("status", VStr "success");
                         ("message", VStr "Successfully entered Meta mode");
                         ("device_state", VStr "meta")]
           end
       end)
    (fun e => ret [("status", VStr "error");
                   ("message", VStr "Meta mode operation failed");
                   ("error", VStr (exn_msg e))]).

Definition handle_frp (self : t) (d : device_info) : M dict :=
  try_except
    (safe <- _verify_frp_safety self d ;;
     if negb safe
     then ret [("status", VStr "error");
               ("message", VStr "FRP operation safety check failed")]
     else
       let chipset := Dict.get d "chipset" in
       match commands_for (frp_commands self) chipset with
       | None => ret [("status", VStr "error");
                      ("message", VStr "Unsupported chipset for FRP removal")]
       | Some commands =>
           looped <- command_loop self commands ;;
           match looped with
           | Return result => ret result
           | Next _ =>
               removed <- _verify_frp_removal self ;;
               if negb removed
               then ret [("status", VStr "error");
                         ("message", VStr "FRP removal verification failed")]
               else ret [("status", VStr "success");
                         ("message", VStr "FRP removed successfully")]
           end
       end)
    (fun e => ret [("status", VStr "error");
                   ("message", VStr "FRP removal failed");
                   ("error", VStr (exn_msg e))]).

(** [v is True or (isinstance(v, dict) and v.get("connected", True))],
    as [all] tests it. *)
Definition check_passes (v : pyval) : bool :=
  match v with
  | VBool true => true
  | VDict c => truthy (Dict.get_default c "connected" (VBool true))
  | _ => false
  end.

Definition self_test (self : t) (d : device_info) : M dict :=
  adb <- _adb_exists self ;;
  fastboot <- _fastboot_exists self ;;
  let chipset_supported := _verify_chipset self (Dict.get d "chipset") in
  connection_check <- _verify_connection self d ;;
  let results :=
    [("adb_exists", VBool adb);
     ("fastboot_exists", VBool fastboot);
     ("chipset_supported", VBool chipset_supported);
     ("connection_check", VDict connection_check)] in
  let all_ok :=
    forallb (fun kv => check_passes (snd kv))
      (List.filter
         (fun kv => negb (str_in (fst kv) ["adb_exists"; "fastboot_exists"]))
         results) in
  ret (Dict.set results "all_ok" (VBool all_ok)).

End MTKDeviceManager.

(** ** [mtk_reports.py]: class [MTKReportManager] *)

Module MTKReportManager.

Open Scope M_scope.

Definition reports_dir : string := "./MTK_TOOL/REPORTS".

Definition get_current_report : M (option dict) :=
  fun w => (Val (current_report w), w).
Definition put_current_report (r : option dict) : M unit :=
  fun w => (Val tt, set_current_report r w).

(** [self.report_data] is assigned here too; nothing on the path of an
    operation reads it, so it is left out of the world. *)
Definition start_operation_report (operation_type : string) (d : device_info)
  : M unit :=
  t <- Sys.now ;;
  put_current_report
    (Some [("timestamp", VStr (isoformat t));
           ("operation_type", VStr operation_type);
           ("device_info", Dict.of_info d);
           ("steps", VList []);
           ("status", VStr "in_progress")]).

Definition _get_report_path (current : dict) : M string :=
  t <- Sys.now ;;
  let timestamp := stamp t in
  operation <- lift (Dict.index current "operation_type") ;;
  info <- lift (Dict.index current "device_info") ;;
  device <- lift (py_get info "model" (VStr "unknown")) ;;
  device <- lift (py_format device) ;;
  operation <- lift (py_format operation) ;;
  ret (PyStr.path_join reports_dir (device ++ "_" ++ operation ++ "_" ++ timestamp)).

Definition _save_json_report (current : dict) (base_path : string) : M unit :=
  Sys.write_json (base_path ++ ".json") (VDict current).

(** The PDF is a data file; what the model keeps of its production is
    the import of [fpdf], which may fail, and the file it leaves. *)
Definition _generate_pdf_report (current : dict) (base_path : string) : M string :=
  fun w =>
    if negb (fpdf_importable (env w))
    then (Exc (Exception "RuntimeError"
                 "FPDF library is not installed. Please install it with 'pip install fpdf'."), w)
    else
      let pdf_path := base_path ++ ".pdf" in
      match fs w !! pdf_path with
      | Some Directory => (Exc (Exception "IsADirectoryError" pdf_path), w)
      | _ => (Val pdf_path, set_fs (<[pdf_path := DataFile]> (fs w)) w)
      end.

Definition finalize_report (operation_result : dict) : M dict :=
  current <- get_current_report ;;
  match current with
  | None | Some [] =>
      ret [("status", VStr "error"); ("message", VStr "No active report")]
  | Some current =>
      try_finally
        (try_except
           (let current :=
              Dict.set current "status"
                (Dict.get_default operation_result "status" (VStr "unknown")) in
            let current := Dict.set current "result" (VDict operation_result) in
            put_current_report (Some current) ;;
            report_path <- _get_report_path current ;;
            _save_json_report current report_path ;;
            pdf_path <- _generate_pdf_report current report_path ;;
            ret [("status", VStr "success");
                 ("json_report", VStr (report_path ++ ".json"));
                 ("pdf_report", VStr pdf_path)])
           (fun e =>
              Sys.logging_error ("Report generation failed: " ++ exn_msg e) ;;
              ret [("status", VStr "error"); ("message", VStr (exn_msg e))]))
        (put_current_report None)
  end.

Definition _fpdf_available : M bool :=
  fun w => (Val (fpdf_importable (env w)), w).

(** [v is True] *)
Definition is_True (v : pyval) : bool :=
  match v with
  | VBool true => true
  | _ => false
  end.

Definition self_test_device : device_info :=
  [("model", "test"); ("serial", "0000"); ("chipset", "test")].

Definition self_test : M dict :=
  reports_dir_exists <- Sys.path_exists reports_dir ;;
  fpdf_installed <- _fpdf_available ;;
  let results := [("reports_dir_exists", VBool reports_dir_exists);
                  ("fpdf_installed", VBool fpdf_installed)] in
  results <-
    try_except
      (t <- Sys.now ;;
       let dummy_report :=
         [("timestamp", VStr (isoformat t));
          ("operation_type", VStr "self_test");
          ("device_info", Dict.of_info self_test_device);
          ("steps", VList []);
          ("status", VStr "success");
          ("result", VDict [("status", VStr "success");
                            ("message", VStr "Self test")])] in
       put_current_report (Some dummy_report) ;;
       path <- _get_report_path dummy_report ;;
       _save_json_report dummy_report path ;;
       (if fpdf_installed
        then _generate_pdf_report dummy_report path ;; ret tt
        else ret tt) ;;
       ret (Dict.set results "dummy_report_created" (VBool true)))
      (fun e =>
         ret (Dict.set (Dict.set results "dummy_report_created" (VBool false))
                "error" (VStr (exn_msg e)))) ;;
  let all_ok :=
    forallb (fun kv => is_True (snd kv))
      (List.filter (fun kv => negb (String.eqb (fst kv) "error")) results) in
  ret (Dict.set results "all_ok" (VBool all_ok)).

End MTKReportManager.

(** ** [mtk_tool_main.py]: class [MTKTool]

    The file as given opens with a stray triple quote and escapes the
    quotes of its docstrings; the class is embedded as its text reads
    without them. *)

Module MTKTool.

Open Scope M_scope.

Record t := Self {
  safety_system : MTKSafetySystem.t;
  device_manager : MTKDeviceManager.t
}.

Definition initial : t :=
  {| safety_system := MTKSafetySystem.initial;
     device_manager := MTKDeviceManager.initial |}.

(** A bound method stored in the dispatch table: one that takes the
    device info alone, or one that takes two positional arguments. *)
Inductive bound_method : Type :=
| Unary (f : device_info -> M dict)
| Binary (qualname second : string) (f : string -> device_info -> M dict).

(** [method(device_info)]: a call with one positional argument. A
    method with two parameters raises before its body runs. *)
Definition call1 (m : bound_method) (d : device_info) : M dict :=
  match m with
  | Unary f => f d
  | Binary qualname second _ =>
      raise (TypeError (qualname ++ "() missing 1 required positional argument: '"
                        ++ second ++ "'"))
  end.

Definition operations (self : t) : list (string * bound_method) :=
  [("meta_mode", Unary (MTKDeviceManager.handle_meta_mode (device_manager self)));
   ("frp_remove", Unary (MTKDeviceManager.handle_frp (device_manager self)));
   ("backup", Unary (MTKSafetySystem.create_backup (safety_system self)));
   ("restore", Binary "MTKSafetySystem.restore_backup" "device_info"
                 (MTKSafetySystem.restore_backup (safety_system self)))].

Definition _execute_operation (self : t) (operation_type : string)
    (d : device_info) : M dict :=
  match Dict.get (operations self) operation_type with
  | None => ret [("status", VStr "error"); ("message", VStr "Unsupported operation")]
  | Some method => call1 method d
  end.

Definition start_operation (self : t) (operation_type : string)
    (d : device_info) : M dict :=
  try_except
    (safety_check <- MTKSafetySystem.check_safety (safety_system self) d ;;
     safe <- lift (Dict.index safety_check "safe") ;;
     if negb (truthy safe) then ret safety_check
     else
       device_check <- MTKDeviceManager.verify_device (device_manager self) d ;;
       verified <- lift (Dict.index device_check "verified") ;;
       if negb (truthy verified) then ret device_check
       else
         MTKReportManager.start_operation_report operation_type d ;;
         result <- _execute_operation self operation_type d ;;
         MTKReportManager.finalize_report result ;;
         ret result)
    (fun e => MTKSafetySystem.handle_error (safety_system self) e).

End MTKTool.

(** ** [mtk_restore.py]: class [MTKRestoreManager] *)

Module MTKRestoreManager.

Open Scope M_scope.

(** The tool manager is used for its [paths] alone. *)
Record tool := Tool { paths : list (string * string) }.

Record t := Self { tool_manager : tool }.

Definition __init__ (tool_manager : tool) : t := Self tool_manager.

Definition options : list (string * string) :=
  [("1", "Restore network files only");
   ("2", "Restore partition only");
   ("3", "Full restore");
   ("4", "Check before restore")].

(** [self.tool_manager.paths['backups']] *)
Definition backups_root (self : t) : outcome string :=
  match Dict.get (paths (tool_manager self)) "backups" with
  | Some root => Val root
  | None => Exc (KeyError "backups")
  end.

(** [all(os.path.exists(f"{backup_path}/{d}") for d in names)] *)
Fixpoint all_exist (backup_path : string) (names : list string) : M bool :=
  match names with
  | [] => ret true
  | d :: rest =>
      present <- Sys.path_exists (backup_path ++ "/" ++ d) ;;
      if present then all_exist backup_path rest else ret false
  end.

Definition _check_available_restores (self : t) (backup_path : string)
  : M (list string) :=
  let available := [] in
  network <- Sys.path_exists (backup_path ++ "/network") ;;
  let available := if network then (available ++ ["1"])%list else available in
  partition <- Sys.path_exists (backup_path ++ "/partition") ;;
  let available := if partition then (available ++ ["2"])%list else available in
  both <- all_exist backup_path ["network"; "partition"] ;;
  let available := if both then (available ++ ["3"])%list else available in
  ret (available ++ ["4"])%list.

Definition show_restore_options (self : t) (backup_id : string)
  : M (list (string * string)) :=
  root <- lift (backups_root self) ;;
  let backup_path := root ++ "/" ++ backup_id in
  available_options <- _check_available_restores self backup_path ;;
  ret (List.filter (fun kv => str_in (fst kv) available_options) options).

Definition _restore_network_files (self : t) (backup_path : string)
    (d : device_info) : M dict :=
  try_except
    (t <- Sys.now ;;
     ret [("status", VStr "success");
          ("message", VStr "Network files restored successfully");
          ("timestamp", VStr (isoformat t))])
    (fun e => ret [("status", VStr "error");
                   ("message", VStr ("Network restore failed: " ++ exn_msg e))]).

Definition _restore_partition (self : t) (backup_path : string)
    (d : device_info) : M dict :=
  try_except
    (t <- Sys.now ;;
     ret [("status", VStr "success");
          ("message", VStr "Partitions restored successfully");
          ("timestamp", VStr (isoformat t))])
    (fun e => ret [("status", VStr "error");
                   ("message", VStr ("Partition restore failed: " ++ exn_msg e))]).

Definition _restore_full (self : t) (backup_path : string)
    (d : device_info) : M dict :=
  try_except
    (t <- Sys.now ;;
     ret [("status", VStr "success");
          ("message", VStr "Full device restore completed successfully");
          ("timestamp", VStr (isoformat t))])
    (fun e => ret [("status", VStr "error");
                   ("message", VStr ("Full restore failed: " ++ exn_msg e))]).

Definition _check_backup (self : t) (backup_path : string) : M dict :=
  try_except
    (t <- Sys.now ;;
     ret [("status", VStr "success");
          ("message", VStr "Backup integrity verified");
          ("timestamp", VStr (isoformat t))])
    (fun e => ret [("status", VStr "error");
                   ("message", VStr ("Backup check failed: " ++ exn_msg e))]).

Definition execute_restore (self : t) (backup_id option : string)
    (d : device_info) : M dict :=
  root <- lift (backups_root self) ;;
  let backup_path := root ++ "/" ++ backup_id in
  present <- Sys.path_exists backup_path ;;
  if negb present
  then ret [("status", VStr "error");
            ("message", VStr ("Backup " ++ backup_id ++ " not found"))]
  else if String.eqb option "1" then _restore_network_files self backup_path d
  else if String.eqb option "2" then _restore_partition self backup_path d
  else if String.eqb option "3" then _restore_full self backup_path d
  else if String.eqb option "4" then _check_backup self backup_path
  else ret [("status", VStr "error"); ("message", VStr "Invalid restore option")].

End MTKRestoreManager.

(** ** [mtk_update_manager.py]: class [MTKUpdateManager]

    The network is not part of the world: the outcome of the
    connection attempt of [_internet_available] is the argument
    [online] of the functions that make it. *)

Module MTKUpdateManager.

Open Scope M_scope.

Record t := Self {
  database_path : string;
  protection_db_file : string;
  last_update_file : string
}.

Definition initial : t :=
  {| database_path := "./MTK_TOOL/DATABASE";
     protection_db_file := "./MTK_TOOL/DATABASE" ++ "/protection_db.json";
     last_update_file := "./MTK_TOOL/DATABASE" ++ "/last_update.json" |}.

Definition _create_default_db (self : t) : M unit :=
  t <- Sys.now ;;
  let default_db :=
    VDict [("database_version", VStr "1.0.0");
           ("last_updated", VStr (isoformat t));
           ("devices", VDict [])] in
  Sys.write_json (protection_db_file self) default_db.

Definition _create_update_info (self : t) : M unit :=
  t1 <- Sys.now ;;
  t2 <- Sys.now ;;
  let update_info :=
    VDict [("last_check", VStr (isoformat t1));
           ("last_update", VStr (isoformat t2));
           ("current_version", VStr "1.0.0")] in
  Sys.write_json (last_update_file self) update_info.

Definition _initialize_database (self : t) : M unit :=
  Sys.makedirs (database_path self) ;;
  present <- Sys.path_exists (protection_db_file self) ;;
  (if negb present then _create_default_db self else ret tt) ;;
  present <- Sys.path_exists (last_update_file self) ;;
  (if negb present then _create_update_info self else ret tt).

Definition __init__ : M t :=
  _initialize_database initial ;;
  ret initial.

Definition _internet_available (self : t) (online : bool) : M bool := ret online.

Definition _get_current_version (self : t) : M pyval :=
  info <- Sys.read_json (last_update_file self) ;;
  lift (py_get info "current_version" (VStr "1.0.0")).

Definition _fetch_latest_version (self : t) : M string := ret "1.0.0".

Definition _fetch_protection_data (self : t) : M (option dict) := ret None.

(** [a < b] on strings: the order of the code points. *)
Fixpoint str_lt (a b : string) : bool :=
  match a, b with
  | _, EmptyString => false
  | EmptyString, String _ _ => true
  | String x a', String y b' =>
      if PyStr.code x <? PyStr.code y then true
      else if PyStr.code x =? PyStr.code y then str_lt a' b'
      else false
  end.

(** [type(v).__name__] *)
Definition type_name (v : pyval) : string :=
  match v with
  | VNone => "NoneType"
  | VBool _ => "bool"
  | VInt _ => "int"
  | VStr _ => "str"
  | VList _ => "list"
  | VDict _ => "dict"
  end.

(** [a > b] for a string [a] and an object [b]. *)
Definition str_gt (a : string) (b : pyval) : outcome bool :=
  match b with
  | VStr s => Val (str_lt s a)
  | _ => Exc (TypeError ("'>' not supported between instances of 'str' and '"
                         ++ type_name b ++ "'"))
  end.

Definition check_for_updates (self : t) (online : bool) : M dict :=
  try_except
    (available <- _internet_available self online ;;
     if negb available
     then ret [("update_available", VBool false);
               ("error", VStr "No internet connection")]
     else
       current_version <- _get_current_version self ;;
       latest_version <- _fetch_latest_version self ;;
       newer <- lift (str_gt latest_version current_version) ;;
       if newer
       then ret [("update_available", VBool true);
                 ("current_version", current_version);
                 ("latest_version", VStr latest_version)]
       else ret [("update_available", VBool false);
                 ("current_version", current_version)])
    (fun e =>
       Sys.logging_error ("Update check failed: " ++ exn_msg e) ;;
       ret [("update_available", VBool false); ("error", VStr (exn_msg e))]).

(** [with open(src, 'r') as src, open(dst, 'w') as dst:
    json.dump(json.load(src), dst)]: both files are opened, the second
    one created empty, before the first is read. *)
Definition _backup_current_db (self : t) : M unit :=
  present <- Sys.path_exists (protection_db_file self) ;;
  if negb present then ret tt
  else
    t <- Sys.now ;;
    let backup_file :=
      database_path self ++ "/protection_db_backup_" ++ stamp t ++ ".json" in
    fun w =>
      match fs w !! protection_db_file self with
      | None => (Exc (Exception "FileNotFoundError" (protection_db_file self)), w)
      | Some Directory =>
          (Exc (Exception "IsADirectoryError" (protection_db_file self)), w)
      | Some source =>
          match fs w !! backup_file with
          | Some Directory => (Exc (Exception "IsADirectoryError" backup_file), w)
          | _ =>
              match source with
              | JsonFile doc =>
                  (Val tt, set_fs (<[backup_file := JsonFile doc]> (fs w)) w)
              | _ =>
                  (Exc (Exception "JSONDecodeError" (protection_db_file self)),
                   set_fs (<[backup_file := DataFile]> (fs w)) w)
              end
          end
      end.

(** [info[k] = v] for a string key [k] *)
Definition py_setitem (info : pyval) (k : string) (v : pyval) : outcome pyval :=
  match info with
  | VDict d => Val (VDict (Dict.set d k v))
  | VList _ => Exc (TypeError "list indices must be integers or slices, not str")
  | _ => Exc (TypeError ("'" ++ type_name info
                         ++ "' object does not support item assignment"))
  end.

Definition _update_timestamp (self : t) : M unit :=
  info <- Sys.read_json (last_update_file self) ;;
  t <- Sys.now ;;
  info <- lift (py_setitem info "last_update" (VStr (isoformat t))) ;;
  Sys.write_json (last_update_file self) info.

Definition update_protection_db (self : t) (online : bool) : M dict :=
  try_except
    (available <- _internet_available self online ;;
     if negb available
     then ret [("status", VStr "error"); ("message", VStr "No internet connection")]
     else
       new_data <- _fetch_protection_data self ;;
       match new_data with
       | None => ret [("status", VStr "error");
                      ("message", VStr "Failed to fetch protection data")]
       | Some data =>
           if negb (truthy (VDict data))
           then ret [("status", VStr "error");
                     ("message", VStr "Failed to fetch protection data")]
           else
             _backup_current_db self ;;
             Sys.write_json (protection_db_file self) (VDict data) ;;
             _update_timestamp self ;;
             ret [("status", VStr "success");
                  ("message", VStr "Protection database updated successfully")]
       end)
    (fun e => ret [("status", VStr "error");
                   ("message", VStr ("Database update failed: " ++ exn_msg e))]).

Definition get_protection_info (self : t) (device_model : string) : M dict :=
  try_except
    (db <- Sys.read_json (protection_db_file self) ;;
     device_info <- lift (py_get db device_model (VDict [])) ;;
     if negb (truthy device_info)
     then ret [("status", VStr "error");
               ("message", VStr "Device not found in database")]
     else ret [("status", VStr "success"); ("protection_info", device_info)])
    (fun e => ret [("status", VStr "error");
                   ("message", VStr ("Failed to get protection info: " ++ exn_msg e))]).

End MTKUpdateManager.

(** * Vocabulary of the properties *)

Module Spec.

Import MTKSafetySystem.

(** The result of [int(x)] when it returns, and the [0] of the
    handler when it raises (infinity, NaN). *)
Definition int_or_zero (x : PyFloat.float) : Z :=
  match PyFloat.to_int x with
  | Val n => n
  | Exc _ => 0
  end.

(** What the suffix [c] does to the parsed size [x]. *)
Definition scaled (c : ascii) (x : PyFloat.float) : Z :=
  if Ascii.eqb c "G" || Ascii.eqb c "g"
  then int_or_zero (PyFloat.mul x (PyFloat.of_Z 1024))
  else if Ascii.eqb c "M" || Ascii.eqb c "m" then int_or_zero x
  else if Ascii.eqb c "K" || Ascii.eqb c "k"
  then int_or_zero (PyFloat.div x (PyFloat.of_Z 1024))
  else 0.

Definition info_path (backup_path : string) : string :=
  PyStr.path_join backup_path "backup_info.json".
Definition verification_path (backup_path : string) : string :=
  PyStr.path_join backup_path "verification.json".
Definition image_path (backup_path partition : string) : string :=
  PyStr.path_join backup_path (partition ++ ".img").

Definition present (w : world) (path : string) : bool :=
  bool_decide (is_Some (fs w !! path)).

(** The items of the manifest's partition list. *)
Definition manifest_items (w : world) (backup_path : string) : outcome (list pyval) :=
  match fs w !! info_path backup_path with
  | Some (JsonFile doc) => obind (subscript doc "partitions") py_iter
  | _ => Exc (Exception "OSError" (info_path backup_path))
  end.

Definition image_present (w : world) (backup_path : string) (item : pyval) : bool :=
  match py_format item with
  | Val name => present w (image_path backup_path name)
  | Exc _ => false
  end.

(** A backup is restorable when the manifest and the verification
    record exist and every partition the manifest names has its
    image file. *)
Definition restorable (w : world) (backup_path : string) : bool :=
  present w (info_path backup_path) &&
  present w (verification_path backup_path) &&
  match manifest_items w backup_path with
  | Val items => forallb (image_present w backup_path) items
  | Exc _ => false
  end.

(** The manifest names [name]: it is the text of an item of its
    partition list. *)
Definition manifest_names (w : world) (backup_path name : string) : Prop :=
  exists items item,
    manifest_items w backup_path = Val items /\
    In item items /\ py_format item = Val name.

Definition integrity_error : dict :=
  [("status", VStr "error"); ("message", VStr "Backup integrity check failed")].


(** The error [restore_backup] returns when [partition] fails. *)
Definition restore_failed (partition : string) (details : dict) : dict :=
  [("status", VStr "error");
   ("message", VStr ("Restore failed for " ++ partition));
   ("details", VDict details)].


(** The result of a partition step that failed with message [err]. *)
Definition step_failed (err : string) : dict :=
  [("success", VBool false); ("error", VStr err)].

(** The safety gate in the words of its description: the stages are
    evaluated in a fixed order, and the first result that is not
    safe is returned as it is. *)
Definition gate_stages (self : t) : list (device_info -> M dict) :=
  [_check_battery self; _check_connection self; _verify_device_state self;
   _check_critical_partitions self; _check_backup_availability self].

Definition all_passed : dict :=
  [("safe", VBool true); ("message", VStr "All safety checks passed")].

Definition stage_fails (result : dict) : bool :=
  match Dict.get result "safe" with
  | Some (VBool false) => true
  | _ => false
  end.

Fixpoint first_failure (stages : list (device_info -> M dict)) (d : device_info)
  : M dict :=
  match stages with
  | [] => ret all_passed
  | stage :: rest =>
      (result <- stage d ;;
       if stage_fails result then ret result else first_failure rest d)%M
  end.

(** One round of the loop over the pre-operation checks. *)
Definition checked (stage : device_info -> M dict) (d : device_info)
    (rest : M (flow dict unit)) : M (flow dict unit) :=
  (result <- stage d ;;
   safe <- lift (Dict.index result "safe") ;;
   if negb (truthy safe) then ret (Return result) else rest)%M.

(** The one command each stage runs, in the order of the stages. *)
Definition battery_command : list string :=
  ["adb"; "shell"; "cat"; "/sys/class/power_supply/battery/capacity"].
Definition storage_command : list string := ["adb"; "shell"; "df"; "-h"; "/data"].
Definition gate_commands : list (list string) :=
  [battery_command;
   ["adb"; "devices"];
   ["adb"; "get-state"];
   ["adb"; "shell"; "ls"; "/dev/block/by-name/"];
   storage_command].


(** What a stage is known to do: it returns, its result has a
    boolean "safe" entry and is not the gate-level error, and it runs
    the one command [command]. *)
Definition stage_runs (stage : device_info -> M dict) (command : list string) : Prop :=
  forall d w, exists r w' b,
    stage d w = (Val r, w') /\
    Dict.get r "safe" = Some (VBool b) /\
    Dict.get r "message" <> Some (VStr "Safety check failed") /\
    log w' = (log w ++ [command])%list.

(** The error [create_backup] returns when [partition] fails. *)
Definition backup_failed (partition : string) (details : dict) : dict :=
  [("status", VStr "error");
   ("message", VStr ("Backup failed for " ++ partition));
   ("details", VDict details)].

(** The result of a partition dumped and pulled to [path]. *)
Definition step_done (path : string) : dict :=
  [("success", VBool true); ("path", VStr path)].

(** The entries recorded for partitions that were all backed up. *)
Definition recorded (backup_path : string) (partitions : list string) : dict :=
  map (fun q => (q, VDict (step_done (image_path backup_path q)))) partitions.

(** The first statements of [create_backup], up to the loop: the
    backup path is chosen, the directory made, the manifest written. *)
Definition backup_preamble (self : t) (d : device_info) : M string :=
  (backup_path <- _get_backup_path self d ;;
   Sys.makedirs backup_path ;;
   _create_backup_info self backup_path d ;;
   ret backup_path)%M.

(** The backup path a run started in [w] chooses. *)
Definition backup_path_of (self : t) (d : device_info) (w : world) : string :=
  PyStr.path_join (backup_root self)
    (Dict.get_default d "model" "unknown" ++ "_" ++ stamp (clock (env w) (ticks w))).

(** [s] without the prefix [prefix], when it starts with it. *)
Fixpoint strip_prefix (prefix s : string) : option string :=
  match prefix, s with
  | EmptyString, _ => Some s
  | String a prefix', String b s' =>
      if Ascii.eqb a b then strip_prefix prefix' s' else None
  | String _ _, EmptyString => None
  end.

(** The partition a command dumps, when it is the dd of a backup. *)
Definition dumped_partition (argv : list string) : option string :=
  match argv with
  | ["adb"; "shell"; "dd"; src; "of=/data/local/tmp/temp.img"] =>
      strip_prefix "if=/dev/block/by-name/" src
  | _ => None
  end.

(** The partitions whose dump was attempted, in order. *)
Definition dumped (commands : list (list string)) : list string :=
  omap dumped_partition commands.

(** The verification record written over [results]. *)
Definition verification_record (timestamp : string) (results : dict) (verified : bool)
  : node :=
  JsonFile (VDict [("timestamp", VStr timestamp);
                   ("results", VDict results);
                   ("verified", VBool verified)]).

(** The result of [_execute_operation] for an unknown operation. *)
Definition unsupported_operation : dict :=
  [("status", VStr "error"); ("message", VStr "Unsupported operation")].

(** The fault of calling [restore_backup] with one argument. *)
Definition restore_arity_error : exn :=
  TypeError "MTKSafetySystem.restore_backup() missing 1 required positional argument: 'device_info'".

(** What [handle_error] returns for the fault [e]. *)
Definition error_result (e : exn) (recovery_possible : bool) : dict :=
  [("status", VStr "error");
   ("message", VStr (exn_msg e));
   ("recovery_possible", VBool recovery_possible);
   ("safe_to_continue", VBool false)].

(** The commands of [_check_recovery_possible]: the device list,
    and the reboot to recovery when a device is listed. *)
Definition recovery_probe (commands : list (list string)) : Prop :=
  commands = [["adb"; "devices"]] \/
  commands = [["adb"; "devices"]; ["adb"; "reboot"; "recovery"]].

Definition supported_operations : list string :=
  ["meta_mode"; "frp_remove"; "backup"; "restore"].

(** A computation that runs no command. *)
Definition quiet {A} (m : M A) : Prop := forall w, log (snd (m w)) = log w.

(** A computation that always returns, never raises. *)
Definition returns {A} (m : M A) : Prop := forall w, exists a, fst (m w) = Val a.

Definition meta_entry_failed : dict :=
  [("status", VStr "error"); ("message", VStr "Failed to enter Meta mode")].
Definition frp_removed : dict :=
  [("status", VStr "success"); ("message", VStr "FRP removed successfully")].
Definition frp_verification_failed : dict :=
  [("status", VStr "error"); ("message", VStr "FRP removal verification failed")].
Definition frp_unsafe : dict :=
  [("status", VStr "error"); ("message", VStr "FRP operation safety check failed")].

Definition state_query : list string := ["adb"; "get-state"].
Definition frp_query : list string := ["fastboot"; "getvar"; "frp"].

(** The commands run between the worlds [w] and [w']. *)
Definition new_commands (w w' : world) : list (list string) :=
  drop (length (log w)) (log w').

(** At the pre-check made in [w] the device state reads Fastboot
    and the battery level is at least 20. *)
Definition frp_precheck_passes (w : world) : Prop :=
  exists r1 r2 level,
    device (env w) (log w ++ [state_query]) = Completes r1 /\
    PyStr.strip (stdout r1) = "fastboot" /\
    device (env w) (log w ++ [state_query; battery_command]) = Completes r2 /\
    PyStr.to_int (PyStr.strip (stdout r2)) = Val level /\
    20 <= level.

(** The answer [r] to the FRP query reports empty. *)
Definition reports_empty (r : completed) : bool :=
  PyStr.contains "empty" (PyStr.lower (PyStr.strip (stdout r))).

(** The three commands that restore one partition. *)
Definition restore_commands (backup_path partition : string) : list (list string) :=
  [["adb"; "push"; image_path backup_path partition; "/data/local/tmp/temp.img"];
   ["adb"; "shell"; "dd"; "if=/data/local/tmp/temp.img";
    "of=/dev/block/by-name/" ++ partition];
   ["adb"; "shell"; "rm"; "/data/local/tmp/temp.img"]].

(** The manifest [_create_backup_info] writes. *)
Definition manifest_of (self : t) (timestamp : string) (d : device_info) : node :=
  JsonFile (VDict [("timestamp", VStr timestamp);
                   ("device_info", Dict.of_info d);
                   ("partitions", VList (map VStr (critical_partitions self)))]).


(** What each stage of the gate needs of the answer to its command. *)
Definition battery_condition (answer : response) : Prop :=
  exists r level,
    answer = Completes r /\
    PyStr.to_int (PyStr.strip (stdout r)) = Val level /\ 20 <= level.

Definition connection_condition (d : device_info) (answer : response) : Prop :=
  exists r serial,
    answer = Completes r /\
    Dict.get d "serial" = Some serial /\
    PyStr.contains serial (stdout r) = true.

Definition state_condition (d : device_info) (answer : response) : Prop :=
  exists r,
    answer = Completes r /\
    PyStr.strip (stdout r) = Dict.get_default d "expected_state" "device".

Definition partitions_condition (self : t) (answer : response) : Prop :=
  exists r,
    answer = Completes r /\ returncode r = 0 /\
    forall q, In q (critical_partitions self) -> In q (PyStr.split (stdout r)).

Definition storage_condition (self : t) (answer : response) : Prop :=
  exists r header row rows f0 f1 f2 available rest mb,
    answer = Completes r /\ returncode r = 0 /\
    PyStr.split_on "010" (PyStr.strip (stdout r)) = header :: row :: rows /\
    PyStr.split row = f0 :: f1 :: f2 :: available :: rest /\
    _convert_to_mb self available = Val mb /\ 2520 <= mb.

(** The answer to the [k]-th probe of a gate started in [w]. *)
Definition gate_answer (w : world) (k : nat) : response :=
  device (env w) (log w ++ firstn (S k) gate_commands).

(** All five conditions of the gate hold of the device's answers. *)
Definition gate_holds (d : device_info) (w : world) : Prop :=
  battery_condition (gate_answer w 0) /\
  connection_condition d (gate_answer w 1) /\
  state_condition d (gate_answer w 2) /\
  partitions_condition initial (gate_answer w 3) /\
  storage_condition initial (gate_answer w 4).

(** A stage that decides its condition: it returns, keeps the
    environment, runs the one command, and passes exactly when the
    condition holds of the answer. *)
Definition stage_decides (stage : device_info -> M dict) (command : list string)
    (condition : device_info -> response -> Prop) : Prop :=
  forall d w, exists r w',
    stage d w = (Val r, w') /\
    env w' = env w /\ log w' = (log w ++ [command])%list /\
    ((stage_fails r = false /\ condition d (device (env w) (log w ++ [command]))) \/
     (stage_fails r = true /\ ~ condition d (device (env w) (log w ++ [command])))).

Definition listing_command : list string := ["adb"; "shell"; "ls"; "/dev/block/by-name/"].
Definition devices_command : list string := ["adb"; "devices"].
Definition reboot_recovery : list string := ["adb"; "reboot"; "recovery"].

(** The device list answered in [w] mentions the word "device". *)
Definition device_listed (w : world) : Prop :=
  exists r,
    device (env w) (log w ++ [devices_command]) = Completes r /\
    PyStr.contains "device" (stdout r) = true.

(** The reboot to recovery, issued after the device list in [w],
    exits with code 0. *)
Definition reboot_accepted (w : world) : Prop :=
  exists r,
    device (env w) (log w ++ [devices_command; reboot_recovery]) = Completes r /\
    returncode r = 0.

(** The device described by [d] can be verified in [w]: its chipset is
    supported, adb is on the path, and the device list, obtained with
    exit code 0, contains its serial. *)
Definition device_verifiable (self : MTKDeviceManager.t) (d : device_info) (w : world)
  : Prop :=
  (exists c, Dict.get d "chipset" = Some c /\
             In c (MTKDeviceManager.supported_chipsets self)) /\
  which (env w) "adb" = true /\
  exists r serial,
    device (env w) (log w ++ [devices_command]) = Completes r /\
    returncode r = 0 /\
    Dict.get d "serial" = Some serial /\
    PyStr.contains serial (stdout r) = true.

(** A tool that the text of [cmd] mentions is not on the path. *)
Definition tool_missing (cmd : string) (w : world) : Prop :=
  (PyStr.contains "adb" cmd = true /\ which (env w) "adb" = false) \/
  (PyStr.contains "fastboot" cmd = true /\ which (env w) "fastboot" = false).

(** The command [cmd], run after the history of [w], exits with code 0
    and prints [out]. *)
Definition command_succeeds (cmd : string) (w : world) (out : string) : Prop :=
  exists c,
    device (env w) (log w ++ [PyStr.split cmd]) = Completes c /\
    returncode c = 0 /\ out = stdout c.

Definition meta_unsupported : dict :=
  [("status", VStr "error"); ("message", VStr "Unsupported chipset for Meta mode")].

(** The result of a command of a sequence that did not succeed: it
    says success false and has no status. *)
Definition command_failure (r : dict) : Prop :=
  Dict.get r "success" = Some (VBool false) /\ Dict.get r "status" = None.

(** The commands are run one after the other up to [cmd], which is
    run last or, its tool missing, not at all; none after it is. *)
Definition stopped_at (commands : list string) (run : list (list string)) : Prop :=
  exists pre cmd post tr,
    commands = (pre ++ cmd :: post)%list /\
    run = (map PyStr.split pre ++ tr)%list /\
    (tr = [] \/ tr = [PyStr.split cmd]).

Definition no_active_report : dict :=
  [("status", VStr "error"); ("message", VStr "No active report")].

(** The base path of the report of the operation [op] on the device
    [d], closed at the instant [t]. *)
Definition report_base (op : string) (d : device_info) (t : instant) : string :=
  PyStr.path_join MTKReportManager.reports_dir
    (Dict.get_default d "model" "unknown" ++ "_" ++ op ++ "_" ++ stamp t).

(** The report opened at [t] for [op] on [d] and closed with [result]. *)
Definition closed_report (op : string) (d : device_info) (t : instant) (result : dict)
  : dict :=
  [("timestamp", VStr (isoformat t));
   ("operation_type", VStr op);
   ("device_info", Dict.of_info d);
   ("steps", VList []);
   ("status", Dict.get_default result "status" (VStr "unknown"));
   ("result", VDict result)].


(** The instants at which a report started in [w] is opened and
    closed: the next two readings of the clock. *)
Definition opened_at (w : world) : instant := clock (env w) (ticks w).
Definition closed_at (w : world) : instant := clock (env w) (S (ticks w)).


(** The world [w'] differs from [w] at most in the commands run. *)
Definition same_state (w w' : world) : Prop :=
  env w' = env w /\ fs w' = fs w /\ ticks w' = ticks w /\
  current_report w' = current_report w /\ current_device w' = current_device w.

(** A computation that only runs commands. *)
Definition keeps {A} (m : M A) : Prop := forall w, same_state w (snd (m w)).

(** Both checks made before an operation pass: the gate's conditions
    hold and, after the gate, the device can be verified. *)
Definition checks_pass (d : device_info) (w : world) : Prop :=
  gate_holds d w /\
  device_verifiable MTKDeviceManager.initial d
    (snd (check_safety MTKSafetySystem.initial d w)).

(** The result of a check that refused: the gate's, with safe false,
    or the device check's, with verified false. *)
Definition refusal (r : dict) : Prop :=
  stage_fails r = true \/ Dict.get r "verified" = Some (VBool false).

(** The directory of the backup [backup_id] under [root]. *)
Definition backup_dir (root backup_id : string) : string := root ++ "/" ++ backup_id.

(** The menu [menu] offers the option [k]. *)
Definition offered (menu : list (string * string)) (k : string) : Prop :=
  is_Some (Dict.get menu k).

Definition restore_choices : list string := ["1"; "2"; "3"; "4"].

Definition backup_not_found (backup_id : string) : dict :=
  [("status", VStr "error"); ("message", VStr ("Backup " ++ backup_id ++ " not found"))].

Definition invalid_option : dict :=
  [("status", VStr "error"); ("message", VStr "Invalid restore option")].

Definition update_error (message : string) : dict :=
  [("status", VStr "error"); ("message", VStr message)].

Definition device_not_found : dict := update_error "Device not found in database".

(** The database [_create_default_db] writes at the instant [t]. *)
Definition default_db (t : instant) : pyval :=
  VDict [("database_version", VStr "1.0.0");
         ("last_updated", VStr (isoformat t));
         ("devices", VDict [])].

(** The update record holds a version string below "1.0.0". *)
Definition outdated (self : MTKUpdateManager.t) (w : world) : Prop :=
  exists info version,
    fs w !! MTKUpdateManager.last_update_file self = Some (JsonFile (VDict info)) /\
    Dict.get_default info "current_version" (VStr "1.0.0") = VStr version /\
    MTKUpdateManager.str_lt version "1.0.0" = true.

(** The database holds, under the top-level key [key], the object
    [v], and [v] counts as true. *)
Definition db_entry (self : MTKUpdateManager.t) (w : world) (key : string) (v : pyval)
  : Prop :=
  exists db,
    fs w !! MTKUpdateManager.protection_db_file self = Some (JsonFile (VDict db)) /\
    Dict.get db key = Some v /\ truthy v = true.

End Spec.

(** ** Concrete worlds *)

Module Scenario.

(** A device that answers each command by itself, whatever came
    before it. *)
Definition answers (f : list string -> response) : list (list string) -> response :=
  fun history => f (List.last history []).

Definition ok (out : string) : response := Completes (Completed 0 out "").
Definition fails (err : string) : response := Completes (Completed 1 "" err).

Definition noon : instant := Instant "20240101_120000" "2024-01-01T12:00:00".

Definition environment_of (dev : list string -> response) : environment :=
  {| device := answers dev;
     clock := fun _ => noon;
     which := fun _ => true;
     fpdf_importable := true |}.

Definition world_of (dev : list string -> response) (files : gmap string node) : world :=
  {| env := environment_of dev;
     fs := files;
     log := [];
     ticks := 0;
     current_report := None;
     current_device := None |}.






(** No backup at all. *)
Definition bare : world := world_of (fun _ => ok "") ∅.

(** The dump of persist, the third partition, fails. *)
Definition persist_unreadable (argv : list string) : response :=
  match argv with
  | ["adb"; "shell"; "dd"; "if=/dev/block/by-name/persist"; _] =>
      fails "dd: /dev/block/by-name/persist: I/O error"
  | _ => ok ""
  end.

Definition device_x : device_info :=
  [("chipset", "MT6789"); ("serial", "S1"); ("model", "X")].

Definition third_fails : world := world_of persist_unreadable ∅.


(** The battery reads 5%. *)
Definition flat_battery (argv : list string) : response :=
  match argv with
  | ["adb"; "shell"; "cat"; _] => ok "5"
  | _ => ok ""
  end.
Definition low_battery : world := world_of flat_battery ∅.

(** The backup directory that a run for [device_x] chooses at [noon]. *)
Definition backup_x : string := "./MTK_TOOL/BACKUPS/X_20240101_120000".

Definition io_error : string := "dd: /dev/block/by-name/persist: I/O error".

(** A healthy device: battery 80%, serial S1 listed, state "device",
    all critical partitions present, 10G free. *)
Definition healthy (argv : list string) : response :=
  match argv with
  | ["adb"; "shell"; "cat"; _] => ok "80"
  | ["adb"; "devices"] => ok "List of devices attached S1 device"
  | ["adb"; "get-state"] => ok "device"
  | ["adb"; "shell"; "ls"; _] => ok "boot nvram persist security system userdata"
  | ["adb"; "shell"; "df"; _; _] =>
      ok (String.concat (String "010" "")
            ["Filesystem Size Used Avail Use% Mounted on";
             "/dev/block/dm-0 64G 54G 10G 85% /data"])
  | _ => ok ""
  end.

Definition ready : world := world_of healthy ∅.


(** A device in fastboot mode with battery 80% whose FRP variable
    reads empty after the erase. *)
Definition fastboot_device (argv : list string) : response :=
  match argv with
  | ["adb"; "get-state"] => ok "fastboot"
  | ["adb"; "shell"; "cat"; _] => ok "80"
  | ["fastboot"; "getvar"; "frp"] => ok "frp: Empty"
  | _ => ok ""
  end.
Definition in_fastboot : world := world_of fastboot_device ∅.


(** The partition listing lacks persist and everything after it. *)
Definition short_listing (argv : list string) : response :=
  match argv with
  | ["adb"; "shell"; "ls"; _] => ok "nvram boot"
  | _ => ok ""
  end.
Definition few_partitions : world := world_of short_listing ∅.

(** No device is attached: the list of devices is its header only. *)
Definition header_only (argv : list string) : response :=
  match argv with
  | ["adb"; "devices"] => ok ("List of devices attached" ++ String "010" "")
  | _ => fails "error: no devices/emulators found"
  end.
Definition nothing_attached : world := world_of header_only ∅.


(** A device with a chipset outside the supported list. *)
Definition device_y : device_info :=
  [("chipset", "MT6580"); ("serial", "S1"); ("model", "Y")].

(** A restore manager whose tool manager keeps the backups under the
    usual root, and a world that holds the backup [X] and nothing in it. *)
Definition restorer : MTKRestoreManager.t :=
  MTKRestoreManager.Self (MTKRestoreManager.Tool [("backups", "./MTK_TOOL/BACKUPS")]).
Definition empty_backup : world :=
  world_of (fun _ => ok "") (<["./MTK_TOOL/BACKUPS/X" := Directory]> ∅).

End Scenario.

Import Spec.

(** * Properties *)

(** ** Storage arithmetic *)

Section ConvertToMb.

Import MTKSafetySystem.

Lemma drop_last_snoc (body : string) (c : ascii) :
  PyStr.drop_last (body ++ String c "") = body.
Proof.
  induction body as [|a body IH]; simpl; [reflexivity|].
  rewrite IH. destruct body; reflexivity.
Qed.

Lemma last_char_snoc (body : string) (c : ascii) :
  PyStr.last_char (body ++ String c "") = Some c.
Proof.
  induction body as [|a body IH]; simpl; [reflexivity|].
  rewrite IH. destruct body; reflexivity.
Qed.

Lemma snoc_of_nonempty (s : string) :
  s <> "" -> exists body c, s = body ++ String c "".
Proof.
  induction s as [|a s IH]; intros Hs; [congruence|].
  destruct s as [|b s].
  - exists "", a. reflexivity.
  - destruct IH as (body & c & ->); [congruence|].
    exists (String a body), c. reflexivity.
Qed.

Lemma upper_unit (c : ascii) :
  (String.eqb (PyStr.upper (String c "")) "G" = (Ascii.eqb c "G" || Ascii.eqb c "g")) /\
  (String.eqb (PyStr.upper (String c "")) "M" = (Ascii.eqb c "M" || Ascii.eqb c "m")) /\
  (String.eqb (PyStr.upper (String c "")) "K" = (Ascii.eqb c "K" || Ascii.eqb c "k")).
Proof.
  destruct c as [[] [] [] [] [] [] [] []]; vm_compute; repeat split.
Qed.

Lemma convert_snoc (self : t) (body : string) (c : ascii) :
  _convert_to_mb self (body ++ String c "") =
  Val match PyFloat.of_string body with
      | Val x => scaled c x
      | Exc _ => 0
      end.
Proof.
  unfold _convert_to_mb, PyStr.index_last.
  rewrite drop_last_snoc, last_char_snoc.
  destruct (PyFloat.of_string body) as [x|e]; [|reflexivity].
  cbv beta iota delta [obind].
  destruct (upper_unit c) as (HG & HM & HK).
  unfold scaled, int_or_zero. rewrite HG, HM, HK.
  destruct (Ascii.eqb c "G" || Ascii.eqb c "g").
  { destruct (PyFloat.to_int _); reflexivity. }
  destruct (Ascii.eqb c "M" || Ascii.eqb c "m").
  { destruct (PyFloat.to_int _); reflexivity. }
  destruct (Ascii.eqb c "K" || Ascii.eqb c "k").
  { destruct (PyFloat.to_int _); reflexivity. }
  reflexivity.
Qed.

(** C10. [_convert_to_mb] returns on every input and never raises;
    "1.5G" gives 1536, "800M" gives 800 and "bogus" gives 0; a size
    [body] followed by a suffix character gives the parsed number
    times 1024 for G or g, the number itself for M or m, the number
    divided by 1024 for K or k, each truncated to an integer, and 0
    for any other suffix or when [body] is not a number. *)
Theorem convert_to_mb_total (self : t) :
  (forall size_str, exists mb, _convert_to_mb self size_str = Val mb) /\
  _convert_to_mb self "1.5G" = Val 1536 /\
  _convert_to_mb self "800M" = Val 800 /\
  _convert_to_mb self "bogus" = Val 0 /\
  (forall body c,
      _convert_to_mb self (body ++ String c "") =
      Val match PyFloat.of_string body with
          | Val x =>
              if Ascii.eqb c "G" || Ascii.eqb c "g"
              then int_or_zero (PyFloat.mul x (PyFloat.of_Z 1024))
              else if Ascii.eqb c "M" || Ascii.eqb c "m" then int_or_zero x
              else if Ascii.eqb c "K" || Ascii.eqb c "k"
              then int_or_zero (PyFloat.div x (PyFloat.of_Z 1024))
              else 0
          | Exc _ => 0
          end).
Proof.
  split; [|split; [|split; [|split]]].
  - intros s. destruct (string_dec s "") as [->|Hs].
    + exists 0. reflexivity.
    + destruct (snoc_of_nonempty s Hs) as (body & c & ->).
      rewrite convert_snoc. eauto.
  - vm_compute. reflexivity.
  - vm_compute. reflexivity.
  - vm_compute. reflexivity.
  - apply convert_snoc.
Qed.

(** More sizes, among them the ones the handler turns into 0. *)
Example convert_more (self : t) :
  _convert_to_mb self "2.5g" = Val 2560 /\
  _convert_to_mb self "2048K" = Val 2 /\
  _convert_to_mb self "512k" = Val 0 /\
  _convert_to_mb self "0.9999999999999999999M" = Val 1 /\
  _convert_to_mb self "infG" = Val 0 /\
  _convert_to_mb self "nanM" = Val 0 /\
  _convert_to_mb self "12T" = Val 0 /\
  _convert_to_mb self "" = Val 0.
Proof. repeat split; vm_compute; reflexivity. Qed.

(** C9. For the six critical partitions, userdata among them, the
    required space is exactly 2520 MB: 500 + 100 * 6 + 1000 = 2100,
    the binary64 product 2100 * 1.2 is the number 2520, and so is
    its truncation. *)
Theorem required_space_default (d : device_info) :
  _calculate_required_space initial d = Val 2520 /\
  length (critical_partitions initial) = 6%nat /\
  str_in "userdata" (critical_partitions initial) = true /\
  PyFloat.mul (PyFloat.of_Z (500 + 100 * 6 + 1000)) (PyFloat.literal "1.2")
    = PyFloat.of_Z 2520.
Proof. repeat split; vm_compute; reflexivity. Qed.

End ConvertToMb.

(** ** Backup integrity and restore *)

Section Integrity.

Import MTKSafetySystem.

Lemma integrity_loop_spec (backup_path : string) (items : list pyval) (w : world) :
  match integrity_loop backup_path items w with
  | (Val b, w') => b = forallb (image_present w backup_path) items /\ w' = w
  | (Exc _, w') => forallb (image_present w backup_path) items = false /\ w' = w
  end.
Proof.
  induction items as [|item items IH]; simpl; [auto|].
  unfold bind, lift, Sys.path_exists, image_present at 1 3, present, image_path.
  destruct (py_format item) as [name|e]; [|auto].
  destruct (bool_decide _); simpl; [|unfold ret; auto].
  apply IH.
Qed.

Lemma verify_backup_integrity_spec (self : t) (backup_path : string) (w : world) :
  _verify_backup_integrity self backup_path w = (Val (restorable w backup_path), w).
Proof.
  unfold _verify_backup_integrity, restorable, manifest_items, present, try_except,
    bind, Sys.path_exists, Sys.read_json, lift, ret, info_path, verification_path.
  cbv zeta.
  destruct (bool_decide (is_Some (fs w !! PyStr.path_join backup_path "backup_info.json")));
    simpl; [|reflexivity].
  destruct (bool_decide (is_Some (fs w !! PyStr.path_join backup_path "verification.json")));
    simpl; [|reflexivity].
  destruct (fs w !! PyStr.path_join backup_path "backup_info.json") as [[|doc|]|];
    try reflexivity.
  destruct (subscript doc "partitions") as [listed|e]; simpl; [|reflexivity].
  destruct (py_iter listed) as [items|e]; simpl; [|reflexivity].
  pose proof (integrity_loop_spec backup_path items w) as H.
  destruct (integrity_loop backup_path items w) as [[b|e] w'].
  - destruct H as [-> ->]. reflexivity.
  - destruct H as [-> ->]. reflexivity.
Qed.

(** C1. When the backup directory lacks [backup_info.json], or lacks
    [verification.json], or lacks the image of a partition that the
    manifest names, [restore_backup] returns the integrity error and
    leaves the world as it was: no command is run (no push, no dd),
    no file is touched. *)
Theorem restore_backup_integrity_failure
    (self : t) (backup_path : string) (d : device_info) (w : world) :
  fs w !! info_path backup_path = None \/
  fs w !! verification_path backup_path = None \/
  (exists partition,
      manifest_names w backup_path partition /\
      fs w !! image_path backup_path partition = None) ->
  restore_backup self backup_path d w = (Val integrity_error, w) /\
  log (snd (restore_backup self backup_path d w)) = log w.
Proof.
  intros H.
  assert (restorable w backup_path = false) as Hr.
  { unfold restorable, present.
    destruct H as [H|[H|(p & (items & item & Hitems & Hin & Hfmt) & Hnone)]].
    - rewrite H. reflexivity.
    - rewrite H. apply andb_false_intro1, andb_false_intro2. reflexivity.
    - apply andb_false_intro2. rewrite Hitems.
      apply not_true_iff_false. intros Hall.
      rewrite forallb_forall in Hall. specialize (Hall item Hin).
      unfold image_present, present in Hall. rewrite Hfmt, Hnone in Hall.
      discriminate. }
  assert (restore_backup self backup_path d w = (Val integrity_error, w)) as E.
  { unfold restore_backup, try_except, bind.
    rewrite verify_backup_integrity_spec, Hr. reflexivity. }
  rewrite E. auto.
Qed.

Lemma restore_backup_integrity_failure_witness :
  restore_backup initial "b" [] Scenario.bare = (Val integrity_error, Scenario.bare) /\
  log (snd (restore_backup initial "b" [] Scenario.bare)) = log Scenario.bare.
Proof.
  apply (restore_backup_integrity_failure initial "b" [] Scenario.bare).
  left. reflexivity.
Defined.

End Integrity.

Section RestoreLoop.

Import MTKSafetySystem.

Lemma restore_partition_cases (self : t) (d : device_info)
    (partition backup_path : string) (w : world) :
  exists w',
    fs w' = fs w /\ env w' = env w /\
    (_restore_partition self d partition backup_path w = (Val [("success", VBool true)], w') \/
     exists err,
       _restore_partition self d partition backup_path w = (Val (step_failed err), w')).
Proof.
  unfold _restore_partition, try_except, bind, Sys.path_exists, Sys.subprocess_run,
    ret, Sys.pulled, step_failed.
  cbv zeta.
  repeat (case_match; simplify_eq/=);
    (eexists; split;
     [|split; [|first [left; reflexivity | right; eexists; reflexivity]]];
     reflexivity).
Qed.



Lemma restore_loop_cases (self : t) (d : device_info) (backup_path : string)
    (partitions : list string) (acc : dict) (w : world) :
  exists w',
    fs w' = fs w /\ env w' = env w /\
    ((exists acc', restore_loop self d backup_path partitions acc w = (Val (Next acc'), w')) \/
     (exists q err,
         In q partitions /\
         restore_loop self d backup_path partitions acc w
           = (Val (Return (restore_failed q (step_failed err))), w'))).
Proof.
  revert acc w. induction partitions as [|q rest IH]; intros acc w; simpl.
  { exists w. unfold ret. eauto. }
  unfold bind.
  destruct (restore_partition_cases self d q backup_path w)
    as (w1 & Hfs & Henv & [E|[err E]]); rewrite E; simpl.
  - destruct (IH (Dict.set acc q (VDict [("success", VBool true)])) w1)
      as (w' & Hfs' & Henv' & [[acc' E']|(q' & err & Hin & E')]);
      exists w'; rewrite E'; (split; [congruence|]); (split; [congruence|]);
      [left|right]; eauto 10.
  - exists w1. unfold ret, restore_failed. eauto 10.
Qed.

Lemma restore_backup_intact (self : t) (backup_path : string) (d : device_info)
    (w : world) :
  restorable w backup_path = true ->
  restore_backup self backup_path d w =
  match restore_loop self d backup_path (critical_partitions self) [] w with
  | (Val (Return r), w') => (Val r, w')
  | (Val (Next restore_results), w') =>
      (Val [("status", VStr "success");
            ("message", VStr "Backup restored successfully");
            ("results", VDict restore_results)], w')
  | (Exc e, w') =>
      (Val [("status", VStr "error");
            ("message", VStr ("Restore failed: " ++ exn_msg e))], w')
  end.
Proof.
  intros Hr. unfold restore_backup, try_except, bind.
  rewrite verify_backup_integrity_spec, Hr. cbn [negb]. cbv beta iota.
  destruct (restore_loop _ _ _ _ _ _) as [[[r|res]|e] w']; reflexivity.
Qed.




End RestoreLoop.


(** ** Backup creation *)

Section BackupLoop.

Import MTKSafetySystem.

Lemma last_char_append (a b : string) :
  b <> "" -> PyStr.last_char (a ++ b) = PyStr.last_char b.
Proof.
  intros Hb. induction a as [|c a IH]; [reflexivity|].
  simpl. rewrite IH. destruct (a ++ b) eqn:E; [|reflexivity].
  destruct a; [change (b = "") in E; congruence|discriminate].
Qed.

Lemma last_char_path_join (a b : string) :
  b <> "" -> PyStr.last_char (PyStr.path_join a b) = PyStr.last_char b.
Proof.
  intros Hb. unfold PyStr.path_join.
  assert (PyStr.last_char
            (if PyStr.is_empty a || PyStr.ends_with_slash a
             then a ++ b else a ++ "/" ++ b) = PyStr.last_char b) as H.
  { destruct (_ || _).
    - apply last_char_append, Hb.
    - rewrite last_char_append.
      + apply (last_char_append "/" b Hb).
      + discriminate. }
  destruct b as [|c b]; [congruence|].
  destruct c as [[] [] [] [] [] [] [] []]; try exact H; reflexivity.
Qed.

Lemma append_cancel (a x y : string) : a ++ x = a ++ y -> x = y.
Proof.
  induction a as [|c a IH]; [exact (fun H => H)|]. intros H.
  change (String c (a ++ x) = String c (a ++ y)) in H.
  injection H as H. auto.
Qed.

Lemma append_longer (a x : string) : x <> "" -> a ++ x <> a.
Proof.
  intros Hx H. induction a as [|c a IH]; [exact (Hx H)|].
  change (String c (a ++ x) = String c a) in H.
  injection H as H. auto.
Qed.

Lemma verification_not_image (backup_path partition : string) :
  verification_path backup_path <> image_path backup_path partition.
Proof.
  intros H. apply (f_equal PyStr.last_char) in H.
  unfold verification_path, image_path in H.
  rewrite !last_char_path_join in H.
  - rewrite last_char_append in H by discriminate. discriminate.
  - destruct partition; discriminate.
  - discriminate.
Qed.

Lemma verification_not_info (backup_path : string) :
  verification_path backup_path <> info_path backup_path.
Proof.
  unfold verification_path, info_path, PyStr.path_join. simpl.
  destruct (_ || _); intros H; apply append_cancel in H; discriminate.
Qed.

Lemma verification_not_directory (backup_path : string) :
  verification_path backup_path <> backup_path.
Proof.
  unfold verification_path, PyStr.path_join. simpl.
  destruct (_ || _); apply append_longer; discriminate.
Qed.

Lemma dumped_snoc_dd (l : list (list string)) (partition : string) :
  dumped (l ++ [["adb"; "shell"; "dd"; "if=/dev/block/by-name/" ++ partition;
                 "of=/data/local/tmp/temp.img"]])
  = (dumped l ++ [partition])%list.
Proof. unfold dumped. rewrite omap_app. reflexivity. Qed.

Lemma dumped_snoc_pull (l : list (list string)) (src dst : string) :
  dumped (l ++ [["adb"; "pull"; src; dst]]) = dumped l.
Proof. unfold dumped. rewrite omap_app. simpl. apply app_nil_r. Qed.

Lemma dumped_snoc_rm (l : list (list string)) (target : string) :
  dumped (l ++ [["adb"; "shell"; "rm"; target]]) = dumped l.
Proof. unfold dumped. rewrite omap_app. simpl. apply app_nil_r. Qed.

Lemma backup_partition_cases (self : t) (d : device_info)
    (partition backup_path : string) (w : world) :
  exists w',
    env w' = env w /\ ticks w' = ticks w /\
    (forall path, path <> image_path backup_path partition ->
                  fs w' !! path = fs w !! path) /\
    dumped (log w') = (dumped (log w) ++ [partition])%list /\
    (_backup_partition self d partition backup_path w
       = (Val (step_done (image_path backup_path partition)), w') \/
     exists err,
       _backup_partition self d partition backup_path w = (Val (step_failed err), w')).
Proof.
  unfold _backup_partition, try_except, bind, Sys.subprocess_run, ret, step_failed,
    step_done.
  cbv zeta. fold (image_path backup_path partition).
  repeat (case_match; simplify_eq/=);
    (eexists; split;
     [|split;
       [|split;
         [|split; [|first [left; reflexivity | right; eexists; reflexivity]]]]];
     [reflexivity | reflexivity | ..]);
    try (intros path Hpath; simpl; rewrite ?lookup_insert_ne by congruence;
         reflexivity);
    simpl; rewrite ?dumped_snoc_rm, ?dumped_snoc_pull, ?dumped_snoc_dd; reflexivity.
Qed.

Lemma dict_set_fresh (acc : dict) (k : string) (v : pyval) :
  ~ In k (map fst acc) -> Dict.set acc k v = (acc ++ [(k, v)])%list.
Proof.
  induction acc as [|[k' v'] acc IH]; intros Hk; simpl; [reflexivity|].
  simpl in Hk. destruct (String.eqb_spec k' k) as [->|Hne]; [tauto|].
  rewrite IH by tauto. reflexivity.
Qed.

Lemma backup_loop_app (self : t) (d : device_info) (backup_path : string)
    (pre post : list string) (acc : dict) (w : world) :
  backup_loop self d backup_path (pre ++ post) acc w =
  match backup_loop self d backup_path pre acc w with
  | (Val (Next acc'), w1) => backup_loop self d backup_path post acc' w1
  | other => other
  end.
Proof.
  revert acc w. induction pre as [|q pre IH]; intros acc w; simpl; [reflexivity|].
  unfold bind.
  destruct (_backup_partition self d q backup_path w) as [[r|e] w1]; [|reflexivity].
  unfold lift. destruct (Dict.index r "success") as [v|e]; [|reflexivity].
  destruct (negb (truthy v)); [reflexivity|]. apply IH.
Qed.

Lemma backup_loop_cases (self : t) (d : device_info) (backup_path : string)
    (partitions : list string) (acc : dict) (w : world) :
  NoDup partitions ->
  (forall q, In q partitions -> ~ In q (map fst acc)) ->
  exists w',
    env w' = env w /\ ticks w' = ticks w /\
    (forall path, (forall q, In q partitions -> path <> image_path backup_path q) ->
                  fs w' !! path = fs w !! path) /\
    ((backup_loop self d backup_path partitions acc w
        = (Val (Next (acc ++ recorded backup_path partitions)%list), w') /\
      dumped (log w') = (dumped (log w) ++ partitions)%list) \/
     (exists pre q post err,
         partitions = (pre ++ q :: post)%list /\
         backup_loop self d backup_path partitions acc w
           = (Val (Return (backup_failed q (step_failed err))), w') /\
         dumped (log w') = (dumped (log w) ++ pre ++ [q])%list)).
Proof.
  revert acc w. induction partitions as [|q rest IH]; intros acc w Hnd Hfresh.
  { exists w. split; [reflexivity|]. split; [reflexivity|]. split; [reflexivity|].
    left. simpl. unfold ret. rewrite !app_nil_r. split; reflexivity. }
  apply NoDup_cons in Hnd as [Hq Hnd].
  destruct (backup_partition_cases self d q backup_path w)
    as (w1 & Henv & Hticks & Hfs & Hlog & [E|[err E]]).
  - destruct (IH (Dict.set acc q (VDict (step_done (image_path backup_path q)))) w1 Hnd)
      as (w' & Henv' & Hticks' & Hfs' & Hcases).
    { intros q' Hq'. rewrite dict_set_fresh by (apply Hfresh; left; reflexivity).
      rewrite map_app, in_app_iff. simpl.
      intros [Hin|[Heq|[]]].
      - apply (Hfresh q'); [right; exact Hq'|exact Hin].
      - subst q'. apply Hq, list_elem_of_In. exact Hq'. }
    exists w'. split; [congruence|]. split; [congruence|]. split.
    { intros path Hpath. rewrite Hfs', Hfs; [reflexivity| |].
      - apply Hpath. left. reflexivity.
      - intros q' Hq'. apply Hpath. right. exact Hq'. }
    simpl. unfold bind. rewrite E. simpl.
    destruct Hcases as [[E' Hlog']|(pre & q' & post & err & -> & E' & Hlog')].
    + left. rewrite E'. split.
      * rewrite dict_set_fresh by (apply Hfresh; left; reflexivity).
        rewrite <- app_assoc. reflexivity.
      * rewrite Hlog', Hlog, <- app_assoc. reflexivity.
    + right. exists (q :: pre), q', post, err. rewrite E'.
      split; [reflexivity|]. split; [reflexivity|].
      rewrite Hlog', Hlog, <- !app_assoc. reflexivity.
  - exists w1. split; [exact Henv|]. split; [exact Hticks|]. split.
    { intros path Hpath. apply Hfs, Hpath. left. reflexivity. }
    right. exists [], q, rest, err. simpl. unfold bind. rewrite E. simpl.
    split; [reflexivity|]. split; [reflexivity|]. exact Hlog.
Qed.

Lemma check_recovery_possible_total (self : t) (w : world) :
  exists b w',
    _check_recovery_possible self w = (Val b, w') /\
    fs w' = fs w /\ env w' = env w.
Proof.
  unfold _check_recovery_possible, try_except, bind, Sys.subprocess_run, ret.
  repeat (case_match; simplify_eq/=); eauto.
Qed.

Lemma handle_backup_error_total (self : t) (e : exn) (w : world) :
  exists r w',
    _handle_backup_error self e w = (Val r, w') /\
    fs w' = fs w /\ env w' = env w /\
    Dict.get r "status" = Some (VStr "error").
Proof.
  unfold _handle_backup_error, bind, Sys.logging_error, ret, Sys.now.
  destruct (check_recovery_possible_total self w) as (b & w' & E & Hfs & Henv).
  rewrite E. eexists _, _. split; [reflexivity|]. auto.
Qed.

Lemma backup_preamble_cases (self : t) (d : device_info) (w : world) :
  exists w1,
    env w1 = env w /\ log w1 = log w /\
    fs w1 !! verification_path (backup_path_of self d w)
      = fs w !! verification_path (backup_path_of self d w) /\
    (backup_preamble self d w = (Val (backup_path_of self d w), w1) \/
     exists e, backup_preamble self d w = (Exc e, w1)).
Proof.
  unfold backup_preamble, _get_backup_path, _create_backup_info, bind, Sys.now,
    Sys.makedirs, Sys.write_json, ret.
  cbv zeta. fold (backup_path_of self d w).
  fold (info_path (backup_path_of self d w)).
  pose proof (verification_not_info (backup_path_of self d w)) as Hinfo.
  pose proof (verification_not_directory (backup_path_of self d w)) as Hdir.
  repeat (case_match; simplify_eq/=);
    (eexists; split; [|split; [|split; [|first [left; reflexivity
                                             | right; eexists; reflexivity]]]];
     [reflexivity | reflexivity | ]);
    simpl; rewrite ?lookup_insert_ne by congruence; reflexivity.
Qed.

Lemma create_backup_unfold (self : t) (d : device_info) (w : world) :
  create_backup self d w =
  match backup_preamble self d w with
  | (Val backup_path, w1) =>
      match backup_loop self d backup_path (critical_partitions self) [] w1 with
      | (Val (Return r), w2) => (Val r, w2)
      | (Val (Next results), w2) =>
          match _create_verification_file self backup_path results w2 with
          | (Val _, w3) =>
              (Val [("status", VStr "success");
                    ("backup_path", VStr backup_path);
                    ("results", VDict results)], w3)
          | (Exc e, w3) => _handle_backup_error self e w3
          end
      | (Exc e, w2) => _handle_backup_error self e w2
      end
  | (Exc e, w1) => _handle_backup_error self e w1
  end.
Proof.
  unfold create_backup, backup_preamble, try_except, bind. cbv zeta.
  destruct (_get_backup_path self d w) as [[bp|e] w0]; [|reflexivity].
  destruct (Sys.makedirs bp w0) as [[[]|e] w0']; [|reflexivity].
  destruct (_create_backup_info self bp d w0') as [[[]|e] w1]; [|reflexivity].
  unfold ret. cbv beta iota.
  destruct (backup_loop _ _ _ _ _ _) as [[[r|results]|e] w2]; try reflexivity.
  destruct (_create_verification_file _ _ _ _) as [[[]|e] w3]; reflexivity.
Qed.

Lemma create_verification_file_cases (self : t) (backup_path : string)
    (results : dict) (verified : bool) (w : world) :
  all_success (Dict.values results) = Val verified ->
  exists w',
    log w' = log w /\
    ((exists e, _create_verification_file self backup_path results w = (Exc e, w') /\
                fs w' = fs w) \/
     (_create_verification_file self backup_path results w = (Val tt, w') /\
      fs w' !! verification_path backup_path
        = Some (verification_record (isoformat (clock (env w) (ticks w)))
                  results verified))).
Proof.
  intros Hall.
  unfold _create_verification_file, bind, Sys.now, lift, Sys.write_json, ret.
  rewrite Hall. cbv zeta. fold (verification_path backup_path). simpl.
  destruct (fs w !! verification_path backup_path) as [[| |]|];
    eexists; (split; [|first [left; eexists; split; reflexivity
                             | right; split; [reflexivity|]]]);
    try reflexivity; simpl; apply lookup_insert_eq.
Qed.

Lemma recorded_all_success (backup_path : string) (partitions : list string) :
  all_success (Dict.values (recorded backup_path partitions)) = Val true.
Proof. induction partitions as [|q rest IH]; [reflexivity|]. simpl. exact IH. Qed.

Lemma critical_partitions_nodup : NoDup (critical_partitions initial).
Proof. apply (bool_decide_unpack _). vm_compute. exact I. Qed.

Lemma nodup_prefix {A} (pre post : list A) : NoDup (pre ++ post) -> NoDup pre.
Proof. intros H. apply NoDup_app in H as (H & _). exact H. Qed.

(** C2, as the code has it. (1) When the first [k-1] critical
    partitions are backed up and the step of partition [k] fails,
    [create_backup] returns status "error" with the message naming
    partition [k]; its details field is the failing step's result
    alone; the loop had recorded the [k-1] successes; the partitions
    whose dump was attempted are exactly the first [k]; and the
    verification file is as it was before the run. (2) In every run
    the verification file is either left as it was or written after
    all six partitions succeeded, with [verified] the conjunction of
    their successes, which is true. *)
Theorem create_backup_fail_fast (d : device_info) (w : world) :
  (forall backup_path w1 pre partition post results w2 err w3,
      backup_preamble initial d w = (Val backup_path, w1) ->
      critical_partitions initial = (pre ++ partition :: post)%list ->
      backup_loop initial d backup_path pre [] w1 = (Val (Next results), w2) ->
      _backup_partition initial d partition backup_path w2
        = (Val (step_failed err), w3) ->
      create_backup initial d w
        = (Val (backup_failed partition (step_failed err)), w3) /\
      results = recorded backup_path pre /\
      dumped (log w3) = (dumped (log w) ++ pre ++ [partition])%list /\
      fs w3 !! verification_path backup_path = fs w !! verification_path backup_path) /\
  (fs (snd (create_backup initial d w)) !! verification_path (backup_path_of initial d w)
     = fs w !! verification_path (backup_path_of initial d w) \/
   exists timestamp,
     fst (create_backup initial d w)
       = Val [("status", VStr "success");
              ("backup_path", VStr (backup_path_of initial d w));
              ("results",
                VDict (recorded (backup_path_of initial d w)
                         (critical_partitions initial)))] /\
     all_success (Dict.values (recorded (backup_path_of initial d w)
                                 (critical_partitions initial))) = Val true /\
     fs (snd (create_backup initial d w)) !! verification_path (backup_path_of initial d w)
       = Some (verification_record timestamp
                 (recorded (backup_path_of initial d w) (critical_partitions initial))
                 true) /\
     dumped (log (snd (create_backup initial d w)))
       = (dumped (log w) ++ critical_partitions initial)%list).
Proof.
  pose proof critical_partitions_nodup as Hnd.
  destruct (backup_preamble_cases initial d w) as (w1' & Henv1 & Hlog1 & Hfs1 & Hpre).
  split.
  - intros bp w1 pre p post results w2 err w3 Hp Hcrit Hloop Hstep.
    destruct Hpre as [Hpre|[e Hpre]]; rewrite Hpre in Hp; [|discriminate].
    injection Hp as <- <-.
    rewrite Hcrit in Hnd.
    destruct (backup_loop_cases initial d (backup_path_of initial d w) pre [] w1'
                (nodup_prefix _ _ Hnd) (fun _ _ H => H))
      as (w2' & Henv2 & _ & Hfs2 & [[E Hlog2]|(a & q & b & err' & _ & E & _)]);
      rewrite E in Hloop; [|discriminate].
    injection Hloop as <- <-.
    destruct (backup_partition_cases initial d p (backup_path_of initial d w) w2')
      as (w3' & _ & _ & Hfs3 & Hlog3 & [E3|[err' E3]]);
      rewrite E3 in Hstep; [discriminate|].
    injection Hstep as <- <-.
    split.
    { rewrite create_backup_unfold, Hpre, Hcrit, backup_loop_app, E.
      simpl. unfold bind. rewrite E3. reflexivity. }
    split; [reflexivity|]. split.
    { rewrite Hlog3, Hlog2, Hlog1, <- app_assoc. reflexivity. }
    rewrite Hfs3, Hfs2, Hfs1; [reflexivity| |].
    + intros q _. apply verification_not_image.
    + apply verification_not_image.
  - rewrite create_backup_unfold.
    destruct Hpre as [Hpre|[e Hpre]]; rewrite Hpre.
    2:{ left. destruct (handle_backup_error_total initial e w1')
          as (r & w' & E & Hfs & _). rewrite E. simpl. congruence. }
    destruct (backup_loop_cases initial d (backup_path_of initial d w)
                (critical_partitions initial) [] w1' Hnd (fun _ _ H => H))
      as (w2 & Henv2 & _ & Hfs2 & [[E Hlog2]|(a & q & b & err & _ & E & _)]);
      rewrite E.
    2:{ left. simpl. rewrite Hfs2, Hfs1; [reflexivity|].
        intros q' _. apply verification_not_image. }
    change ([] ++ recorded (backup_path_of initial d w) (critical_partitions initial))%list
      with (recorded (backup_path_of initial d w) (critical_partitions initial)).
    cbv beta iota.
    destruct (create_verification_file_cases initial (backup_path_of initial d w)
                (recorded (backup_path_of initial d w) (critical_partitions initial))
                true w2 (recorded_all_success _ _))
      as (w3 & Hlog3 & [(e & E3 & Hfs3)|[E3 Hfs3]]); rewrite E3.
    + left. destruct (handle_backup_error_total initial e w3)
        as (r & w' & E' & Hfs & _). rewrite E'. simpl.
      rewrite Hfs, Hfs3, Hfs2, Hfs1; [reflexivity|].
      intros q' _. apply verification_not_image.
    + right. eexists. simpl fst. simpl snd.
      split; [reflexivity|]. split; [apply recorded_all_success|].
      split; [exact Hfs3|].
      rewrite Hlog3, Hlog2, Hlog1. reflexivity.
Qed.

Lemma create_backup_fail_fast_witness :
  create_backup initial Scenario.device_x Scenario.third_fails
    = (Val (backup_failed "persist" (step_failed Scenario.io_error)),
       snd (create_backup initial Scenario.device_x Scenario.third_fails)) /\
  recorded Scenario.backup_x ["nvram"; "boot"]
    = recorded Scenario.backup_x ["nvram"; "boot"] /\
  dumped (log (snd (create_backup initial Scenario.device_x Scenario.third_fails)))
    = (dumped (log Scenario.third_fails) ++ ["nvram"; "boot"] ++ ["persist"])%list /\
  fs (snd (create_backup initial Scenario.device_x Scenario.third_fails))
    !! verification_path Scenario.backup_x
    = fs Scenario.third_fails !! verification_path Scenario.backup_x.
Proof.
  apply (proj1 (create_backup_fail_fast Scenario.device_x Scenario.third_fails)
           Scenario.backup_x
           (snd (backup_preamble initial Scenario.device_x Scenario.third_fails))
           ["nvram"; "boot"] "persist" ["security"; "userdata"; "system"]
           (recorded Scenario.backup_x ["nvram"; "boot"])
           (snd (backup_loop initial Scenario.device_x Scenario.backup_x
                   ["nvram"; "boot"] []
                   (snd (backup_preamble initial Scenario.device_x
                           Scenario.third_fails))))
           Scenario.io_error
           (snd (create_backup initial Scenario.device_x Scenario.third_fails))).
  - vm_compute. reflexivity.
  - reflexivity.
  - vm_compute. reflexivity.
  - vm_compute. reflexivity.
Defined.

(** C2 as stated fails. Persist, the third partition, is the first
    whose dump fails; nvram and boot were dumped and pulled. The
    returned details field is the failing step's result, with the two
    keys "success" and "error"; it has no entry for nvram or boot, so
    it does not hold the partial results. *)
Lemma create_backup_details_single_result :
  dumped (log (snd (create_backup initial Scenario.device_x Scenario.third_fails)))
    = ["nvram"; "boot"; "persist"] /\
  is_Some (fs (snd (create_backup initial Scenario.device_x Scenario.third_fails))
             !! image_path Scenario.backup_x "boot") /\
  exists r details,
    fst (create_backup initial Scenario.device_x Scenario.third_fails) = Val r /\
    Dict.get r "details" = Some (VDict details) /\
    details = [("success", VBool false); ("error", VStr Scenario.io_error)] /\
    Dict.get details "nvram" = None /\
    Dict.get details "boot" = None /\
    Dict.get details "persist" = None.
Proof.
  split; [vm_compute; reflexivity|].
  split; [eexists; vm_compute; reflexivity|].
  eexists _, _. split; [vm_compute; reflexivity|].
  split; [reflexivity|]. repeat split.
Qed.

End BackupLoop.

(** ** The safety gate *)

Section SafetyGate.

Import MTKSafetySystem.

Ltac stage_done :=
  eexists _, _, _; split; [reflexivity|]; split; [reflexivity|];
  split; [let Hm := fresh "Hm" in intros Hm; cbv in Hm; discriminate | reflexivity].

Lemma check_battery_runs : stage_runs (_check_battery initial) battery_command.
Proof.
  intros d w. unfold _check_battery, try_except, bind, Sys.subprocess_run, lift, ret.
  repeat (case_match; simplify_eq/=); stage_done.
Qed.

Lemma check_connection_runs : stage_runs (_check_connection initial) ["adb"; "devices"].
Proof.
  intros d w. unfold _check_connection, try_except, bind, Sys.subprocess_run, raise, ret.
  repeat (case_match; simplify_eq/=); stage_done.
Qed.

Lemma verify_device_state_runs :
  stage_runs (_verify_device_state initial) ["adb"; "get-state"].
Proof.
  intros d w. unfold _verify_device_state, try_except, bind, Sys.subprocess_run, ret.
  cbv zeta.
  repeat (case_match; simplify_eq/=); stage_done.
Qed.

Lemma check_critical_partitions_runs :
  stage_runs (_check_critical_partitions initial)
    ["adb"; "shell"; "ls"; "/dev/block/by-name/"].
Proof.
  intros d w.
  unfold _check_critical_partitions, try_except, bind, Sys.subprocess_run, ret.
  cbv zeta.
  destruct (device _ _) as [[rc out err]|e]; [|stage_done].
  cbn [returncode stdout]. destruct (negb (rc =? 0)); [stage_done|].
  destruct (first_missing _ _); stage_done.
Qed.

Lemma check_backup_availability_runs :
  stage_runs (_check_backup_availability initial) storage_command.
Proof.
  intros d w.
  unfold _check_backup_availability, try_except, bind, Sys.subprocess_run, lift, ret,
    Sys.logging_error.
  cbv zeta.
  destruct (device _ _) as [[rc out err]|e]; [|stage_done].
  cbn [returncode stdout]. destruct (negb (rc =? 0)); [stage_done|].
  destruct (PyStr.split_on _ _) as [|line0 [|line1 lines]]; try stage_done.
  destruct (PyStr.split line1) as [|p0 [|p1 [|p2 [|p3 parts]]]]; try stage_done.
  destruct (_convert_to_mb initial p3) as [available|e]; [|stage_done].
  destruct (_calculate_required_space initial d) as [required|e]; [|stage_done].
  destruct (available <? required); stage_done.
Qed.

Lemma pre_operation_loop_initial (d : device_info) (w : world) :
  pre_operation_loop initial d
    ["check_battery"; "check_connection"; "verify_device_state"] w
  = checked (_check_battery initial) d
      (checked (_check_connection initial) d
         (checked (_verify_device_state initial) d (ret (Next tt)))) w.
Proof. reflexivity. Qed.

(** A stage that runs, followed by the test of its result. *)
Lemma stage_then (stage : device_info -> M dict) (command : list string)
    (d : device_info) (w : world) :
  stage_runs stage command ->
  exists r w',
    stage d w = (Val r, w') /\
    Dict.get r "message" <> Some (VStr "Safety check failed") /\
    log w' = (log w ++ [command])%list /\
    ((Dict.index r "safe" = Val (VBool false) /\ stage_fails r = true) \/
     (Dict.index r "safe" = Val (VBool true) /\ stage_fails r = false)).
Proof.
  intros H. destruct (H d w) as (r & w' & b & E & Hs & Hm & Hl).
  exists r, w'. unfold Dict.index, stage_fails. rewrite Hs.
  destruct b; auto 10.
Qed.

Lemma check_safety_refines (d : device_info) (w : world) :
  check_safety initial d w = first_failure (gate_stages initial) d w.
Proof.
  unfold check_safety, try_except, gate_stages.
  change (Dict.get (safety_checks initial) "pre_operation")
    with (Some ["check_battery"; "check_connection"; "verify_device_state"]).
  unfold bind at 1. unfold ret at 1. unfold bind at 1.
  rewrite pre_operation_loop_initial.
  cbn [first_failure]. unfold checked, bind, lift, ret.
  destruct (stage_then _ _ d w check_battery_runs)
    as (r1 & w1 & E1 & _ & _ & [[S1 F1]|[S1 F1]]); rewrite E1, S1, F1;
    [reflexivity|]. cbn [truthy negb].
  destruct (stage_then _ _ d w1 check_connection_runs)
    as (r2 & w2 & E2 & _ & _ & [[S2 F2]|[S2 F2]]); rewrite E2, S2, F2;
    [reflexivity|]. cbn [truthy negb].
  destruct (stage_then _ _ d w2 verify_device_state_runs)
    as (r3 & w3 & E3 & _ & _ & [[S3 F3]|[S3 F3]]); rewrite E3, S3, F3;
    [reflexivity|]. cbn [truthy negb].
  destruct (stage_then _ _ d w3 check_critical_partitions_runs)
    as (r4 & w4 & E4 & _ & _ & [[S4 F4]|[S4 F4]]); rewrite E4, S4, F4;
    [reflexivity|]. cbn [truthy negb].
  destruct (stage_then _ _ d w4 check_backup_availability_runs)
    as (r5 & w5 & E5 & _ & _ & [[S5 F5]|[S5 F5]]); rewrite E5, S5, F5;
    reflexivity.
Qed.

Lemma first_failure_runs (stages : list (device_info -> M dict))
    (commands : list (list string)) :
  Forall2 stage_runs stages commands ->
  forall d w, exists r w' n,
    first_failure stages d w = (Val r, w') /\
    (n <= length commands)%nat /\
    log w' = (log w ++ firstn n commands)%list /\
    Dict.get r "message" <> Some (VStr "Safety check failed") /\
    ((stage_fails r = true /\ (1 <= n)%nat) \/
     (r = all_passed /\ n = length commands)).
Proof.
  induction 1 as [|stage command stages commands Hstage _ IH]; intros d w.
  - exists all_passed, w, 0%nat. simpl. unfold ret. rewrite app_nil_r.
    split; [reflexivity|]. split; [lia|]. split; [reflexivity|].
    split; [discriminate|]. right. auto.
  - destruct (stage_then stage command d w Hstage)
      as (r & w1 & E & Hm & Hl & [[_ F]|[_ F]]);
      cbn [first_failure]; unfold bind; rewrite E, F.
    + exists r, w1, 1%nat. unfold ret. simpl.
      split; [reflexivity|]. split; [lia|]. split; [exact Hl|].
      split; [exact Hm|]. left. split; [exact F|lia].
    + destruct (IH d w1) as (r' & w' & n & E' & Hn & Hl' & Hm' & Hcases).
      exists r', w', (S n). simpl.
      split; [exact E'|]. split; [lia|]. split.
      { rewrite Hl', Hl, <- app_assoc. reflexivity. }
      split; [exact Hm'|].
      destruct Hcases as [[F' Hn']|[-> ->]]; [left|right]; split; auto; lia.
Qed.

Lemma gate_stages_run : Forall2 stage_runs (gate_stages initial) gate_commands.
Proof.
  repeat constructor.
  - exact check_battery_runs.
  - exact check_connection_runs.
  - exact verify_device_state_runs.
  - exact check_critical_partitions_runs.
  - exact check_backup_availability_runs.
Qed.



End SafetyGate.


(** ** The orchestrator *)

Section Orchestrator.

Import MTKSafetySystem MTKDeviceManager MTKReportManager MTKTool.

Lemma handle_error_total (self : MTKSafetySystem.t) (e : exn) (w : world) :
  exists b w' tr,
    handle_error self e w = (Val (error_result e b), w') /\
    log w' = (log w ++ tr)%list /\ recovery_probe tr /\ fs w' = fs w.
Proof.
  unfold handle_error, _check_recovery_possible, try_except, bind, Sys.logging_error,
    Sys.subprocess_run, ret, error_result, recovery_probe.
  repeat (case_match; simplify_eq/=);
    eexists _, _, _; (split; [reflexivity|]); rewrite <- ?app_assoc;
    (split; [reflexivity|]); auto.
Qed.

Lemma verify_device_total (self : MTKDeviceManager.t) (d : device_info) (w : world) :
  exists r w' b tr,
    verify_device self d w = (Val r, w') /\
    Dict.get r "verified" = Some (VBool b) /\
    log w' = (log w ++ tr)%list.
Proof.
  unfold verify_device, _verify_connection, _adb_exists, Sys.on_path, try_except, bind,
    Sys.subprocess_run, Sys.logging_error, lift, raise, ret.
  repeat (case_match; simplify_eq/=);
    eexists _, _, _, _; (split; [reflexivity|]); (split; [reflexivity|]);
    first [ instantiate (1 := []); simpl; rewrite app_nil_r; reflexivity
          | reflexivity ].
Qed.

Lemma start_operation_report_total (operation_type : string) (d : device_info)
    (w : world) :
  exists w',
    start_operation_report operation_type d w = (Val tt, w') /\
    log w' = log w /\ fs w' = fs w /\ env w' = env w.
Proof.
  unfold start_operation_report, bind, Sys.now, put_current_report.
  eexists. split; [reflexivity|]. auto.
Qed.

Lemma quiet_ret {A} (a : A) : quiet (ret a).
Proof. intros w. reflexivity. Qed.

Lemma quiet_lift {A} (o : outcome A) : quiet (lift o).
Proof. intros w. reflexivity. Qed.

Lemma quiet_bind {A B} (m : M A) (k : A -> M B) :
  quiet m -> (forall a, quiet (k a)) -> quiet (bind m k).
Proof.
  intros Hm Hk w. unfold bind. specialize (Hm w).
  destruct (m w) as [[a|e] w1]; simpl in *; [|exact Hm].
  rewrite Hk. exact Hm.
Qed.

Lemma quiet_try_except {A} (m : M A) (h : exn -> M A) :
  quiet m -> (forall e, quiet (h e)) -> quiet (try_except m h).
Proof.
  intros Hm Hh w. unfold try_except. specialize (Hm w).
  destruct (m w) as [[a|e] w1]; simpl in *; [exact Hm|].
  rewrite Hh. exact Hm.
Qed.

Lemma quiet_try_finally {A} (m : M A) (final : M unit) :
  quiet m -> quiet final -> quiet (try_finally m final).
Proof.
  intros Hm Hf w. unfold try_finally. specialize (Hm w).
  destruct (m w) as [r w1]. specialize (Hf w1).
  destruct (final w1) as [[[]|e] w2]; simpl in *; congruence.
Qed.

Lemma returns_try_except {A} (m : M A) (h : exn -> M A) :
  (forall e, returns (h e)) -> returns (try_except m h).
Proof.
  intros Hh w. unfold try_except.
  destruct (m w) as [[a|e] w1]; [eexists; reflexivity|]. apply Hh.
Qed.

Lemma quiet_put_current_report (r : option dict) : quiet (put_current_report r).
Proof. intros w. reflexivity. Qed.

Lemma quiet_get_report_path (current : dict) : quiet (_get_report_path current).
Proof.
  unfold _get_report_path.
  repeat first [ apply quiet_bind; [|intros ?] | apply quiet_lift | apply quiet_ret ].
  intros w. reflexivity.
Qed.

Lemma quiet_write_json (path : string) (doc : pyval) : quiet (Sys.write_json path doc).
Proof. intros w. unfold Sys.write_json. repeat case_match; reflexivity. Qed.

Lemma quiet_generate_pdf_report (current : dict) (base_path : string) :
  quiet (_generate_pdf_report current base_path).
Proof. intros w. unfold _generate_pdf_report. repeat case_match; reflexivity. Qed.

Lemma quiet_finalize_report (operation_result : dict) :
  quiet (finalize_report operation_result).
Proof.
  unfold finalize_report. apply quiet_bind; [intros w; reflexivity|].
  intros [[|entry current]|]; try apply quiet_ret.
  apply quiet_try_finally; [|apply quiet_put_current_report].
  apply quiet_try_except.
  - cbv zeta.
    apply quiet_bind; [apply quiet_put_current_report|]. intros _.
    apply quiet_bind; [apply quiet_get_report_path|]. intros report_path.
    apply quiet_bind; [apply quiet_write_json|]. intros _.
    apply quiet_bind; [apply quiet_generate_pdf_report|]. intros pdf_path.
    apply quiet_ret.
  - intros e. apply quiet_bind; [intros w; reflexivity|]. intros _. apply quiet_ret.
Qed.

Lemma returns_finalize_report (operation_result : dict) :
  returns (finalize_report operation_result).
Proof.
  intros w. unfold finalize_report, bind, get_current_report.
  destruct (current_report w) as [[|entry current]|]; try (eexists; reflexivity).
  unfold try_finally.
  match goal with
  | |- context [try_except ?m ?h w] =>
      destruct (returns_try_except m h) with (w := w) as [a Ha]
  end.
  { intros e w'. eexists. reflexivity. }
  destruct (try_except _ _ w) as [r w1]. simpl in Ha. subst r.
  eexists. reflexivity.
Qed.

Lemma finalize_report_total (operation_result : dict) (w : world) :
  exists r w', finalize_report operation_result w = (Val r, w') /\ log w' = log w.
Proof.
  destruct (returns_finalize_report operation_result w) as [r Hr].
  pose proof (quiet_finalize_report operation_result w) as Hq.
  destruct (finalize_report operation_result w) as [o w']. simpl in *. subst o.
  eauto.
Qed.

Lemma execute_restore (d : device_info) (w : world) :
  _execute_operation MTKTool.initial "restore" d w = (Exc restore_arity_error, w).
Proof. reflexivity. Qed.

Lemma execute_unsupported (operation_type : string) (d : device_info) (w : world) :
  ~ In operation_type supported_operations ->
  _execute_operation MTKTool.initial operation_type d w
    = (Val unsupported_operation, w).
Proof.
  intros H. unfold _execute_operation, operations. cbn [Dict.get].
  repeat match goal with
         | |- context [String.eqb ?k operation_type] =>
             destruct (String.eqb_spec k operation_type) as [<-|_];
             [exfalso; apply H; simpl; tauto|]
         end.
  reflexivity.
Qed.

Lemma start_operation_unfold (self : MTKTool.t) (operation_type : string)
    (d : device_info) (w : world) :
  start_operation self operation_type d w =
  match check_safety (safety_system self) d w with
  | (Val safety_check, w1) =>
      match Dict.index safety_check "safe" with
      | Val safe =>
          if negb (truthy safe) then (Val safety_check, w1)
          else
            match verify_device (device_manager self) d w1 with
            | (Val device_check, w2) =>
                match Dict.index device_check "verified" with
                | Val verified =>
                    if negb (truthy verified) then (Val device_check, w2)
                    else
                      match start_operation_report operation_type d w2 with
                      | (Val _, w3) =>
                          match _execute_operation self operation_type d w3 with
                          | (Val result, w4) =>
                              match finalize_report result w4 with
                              | (Val _, w5) => (Val result, w5)
                              | (Exc e, w5) => handle_error (safety_system self) e w5
                              end
                          | (Exc e, w4) => handle_error (safety_system self) e w4
                          end
                      | (Exc e, w3) => handle_error (safety_system self) e w3
                      end
                | Exc e => handle_error (safety_system self) e w2
                end
            | (Exc e, w2) => handle_error (safety_system self) e w2
            end
      | Exc e => handle_error (safety_system self) e w1
      end
  | (Exc e, w1) => handle_error (safety_system self) e w1
  end.
Proof.
  unfold start_operation, try_except, bind, lift, ret.
  destruct (check_safety _ d w) as [[sc|e] w1]; [|reflexivity].
  destruct (Dict.index sc "safe") as [safe|e]; [|reflexivity].
  destruct (negb (truthy safe)); [reflexivity|].
  destruct (verify_device _ d w1) as [[dc|e] w2]; [|reflexivity].
  destruct (Dict.index dc "verified") as [verified|e]; [|reflexivity].
  destruct (negb (truthy verified)); [reflexivity|].
  destruct (start_operation_report operation_type d w2) as [[[]|e] w3]; [|reflexivity].
  destruct (_execute_operation self operation_type d w3) as [[result|e] w4];
    [|reflexivity].
  destruct (finalize_report result w4) as [[r|e] w5]; reflexivity.
Qed.

(** C4. When the safety check and the device verification pass,
    [start_operation("restore", device_info)] never reaches the
    restore loop: the dispatch table calls [restore_backup] with one
    argument, the call raises before the body runs, and the result is
    that of the error handler, with status "error", the message of
    the fault, [recovery_possible] and [safe_to_continue] false. After
    the verification the only commands run are the handler's recovery
    probe, no push and no dd, and no file changes. *)
Theorem start_restore_never_restores
    (d : device_info) (w : world)
    (safety_check : dict) (w1 : world) (device_check : dict) (w2 : world) :
  check_safety (safety_system MTKTool.initial) d w = (Val safety_check, w1) ->
  Dict.get safety_check "safe" = Some (VBool true) ->
  verify_device (device_manager MTKTool.initial) d w1 = (Val device_check, w2) ->
  Dict.get device_check "verified" = Some (VBool true) ->
  exists recovery_possible w' commands,
    start_operation MTKTool.initial "restore" d w
      = (Val (error_result restore_arity_error recovery_possible), w') /\
    log w' = (log w2 ++ commands)%list /\
    recovery_probe commands /\
    fs w' = fs w2.
Proof.
  intros E1 S E2 V.
  rewrite start_operation_unfold, E1. unfold Dict.index. rewrite S. cbn [truthy negb].
  rewrite E2, V. cbn [truthy negb].
  destruct (start_operation_report_total "restore" d w2) as (w3 & E3 & Hl & Hf & _).
  rewrite E3, execute_restore.
  destruct (handle_error_total (safety_system MTKTool.initial) restore_arity_error w3)
    as (b & w' & tr & E & Hl' & Hp & Hf').
  exists b, w', tr. rewrite E. split; [reflexivity|].
  split; [congruence|]. split; [exact Hp|congruence].
Qed.

Lemma start_restore_never_restores_witness :
  exists recovery_possible w' commands,
    start_operation MTKTool.initial "restore" Scenario.device_x Scenario.ready
      = (Val (error_result restore_arity_error recovery_possible), w') /\
    log w' =
      (log (snd (verify_device (device_manager MTKTool.initial) Scenario.device_x
                   (snd (check_safety (safety_system MTKTool.initial)
                           Scenario.device_x Scenario.ready))))
       ++ commands)%list /\
    recovery_probe commands /\
    fs w' =
      fs (snd (verify_device (device_manager MTKTool.initial) Scenario.device_x
                 (snd (check_safety (safety_system MTKTool.initial)
                         Scenario.device_x Scenario.ready)))).
Proof.
  apply (start_restore_never_restores Scenario.device_x Scenario.ready
           all_passed
           (snd (check_safety (safety_system MTKTool.initial)
                   Scenario.device_x Scenario.ready))
           [("verified", VBool true);
            ("message", VStr "Device verified successfully");
            ("device_info", Dict.of_info Scenario.device_x)]).
  - vm_compute. reflexivity.
  - reflexivity.
  - vm_compute. reflexivity.
  - reflexivity.
Defined.

Lemma stage_fails_safe (r : dict) :
  stage_fails r = true -> Dict.index r "safe" = Val (VBool false).
Proof.
  unfold stage_fails, Dict.index.
  destruct (Dict.get r "safe") as [[|[]| | | |]|]; try discriminate. reflexivity.
Qed.

(** C5, as the code has it. For an operation type outside the
    dispatch table, [_execute_operation] returns "Unsupported
    operation" and changes nothing. [start_operation] engages the
    safety gate first all the same: it always returns, and the first
    command it runs is the battery probe. It returns the gate's
    result when the gate fails, the device check's result when that
    fails, and "Unsupported operation" only when both pass, in which
    case nothing runs after the device check. *)
Theorem start_unsupported_operation
    (operation_type : string) (d : device_info) (w : world) :
  ~ In operation_type supported_operations ->
  _execute_operation MTKTool.initial operation_type d w
    = (Val unsupported_operation, w) /\
  (exists r w' commands,
      start_operation MTKTool.initial operation_type d w = (Val r, w') /\
      log w' = (log w ++ battery_command :: commands)%list) /\
  match check_safety (safety_system MTKTool.initial) d w with
  | (Val safety_check, w1) =>
      if stage_fails safety_check
      then start_operation MTKTool.initial operation_type d w = (Val safety_check, w1)
      else
        match verify_device (device_manager MTKTool.initial) d w1 with
        | (Val device_check, w2) =>
            match Dict.get device_check "verified" with
            | Some (VBool true) =>
                exists w',
                  start_operation MTKTool.initial operation_type d w
                    = (Val unsupported_operation, w') /\
                  log w' = log w2
            | _ =>
                start_operation MTKTool.initial operation_type d w
                  = (Val device_check, w2)
            end
        | (Exc _, _) => False
        end
  | (Exc _, _) => False
  end.
Proof.
  intros Hop. split; [apply execute_unsupported, Hop|].
  destruct (first_failure_runs _ _ gate_stages_run d w)
    as (r & w1 & n & E1 & Hn & Hl1 & _ & Hcases).
  rewrite <- check_safety_refines in E1.
  change (safety_system MTKTool.initial) with MTKSafetySystem.initial.
  rewrite start_operation_unfold.
  change (safety_system MTKTool.initial) with MTKSafetySystem.initial.
  rewrite E1.
  assert (exists rest, firstn n gate_commands = battery_command :: rest) as [rest Hrest].
  { destruct n as [|n]; [|eexists; reflexivity].
    destruct Hcases as [[_ H]|[_ H]]; [lia|discriminate]. }
  rewrite Hrest in Hl1.
  destruct Hcases as [[F _]|[-> _]].
  { rewrite F, (stage_fails_safe r F). cbn [truthy negb].
    split; [|reflexivity]. eauto. }
  change (stage_fails all_passed) with false. cbv iota.
  change (Dict.index all_passed "safe") with (@Val pyval (VBool true)).
  cbn [truthy negb].
  destruct (verify_device_total (device_manager MTKTool.initial) d w1)
    as (dc & w2 & b & tr & E2 & V & Hl2).
  rewrite E2. unfold Dict.index. rewrite V.
  destruct b; cbn [truthy negb].
  - destruct (start_operation_report_total operation_type d w2)
      as (w3 & E3 & Hl3 & _).
    rewrite E3, (execute_unsupported _ _ _ Hop).
    destruct (finalize_report_total unsupported_operation w3) as (fr & w5 & E5 & Hl5).
    rewrite E5. split.
    + eexists _, _, _. split; [reflexivity|].
      rewrite Hl5, Hl3, Hl2, Hl1, <- app_assoc. reflexivity.
    + eexists. split; [reflexivity|]. congruence.
  - split; [|reflexivity].
    eexists _, _, _. split; [reflexivity|].
    rewrite Hl2, Hl1, <- app_assoc. reflexivity.
Qed.

Lemma start_unsupported_operation_witness :
  _execute_operation MTKTool.initial "flash" Scenario.device_x Scenario.low_battery
    = (Val unsupported_operation, Scenario.low_battery) /\
  (exists r w' commands,
      start_operation MTKTool.initial "flash" Scenario.device_x Scenario.low_battery
        = (Val r, w') /\
      log w' = (log Scenario.low_battery ++ battery_command :: commands)%list) /\
  match check_safety (safety_system MTKTool.initial) Scenario.device_x
          Scenario.low_battery with
  | (Val safety_check, w1) =>
      if stage_fails safety_check
      then start_operation MTKTool.initial "flash" Scenario.device_x
             Scenario.low_battery = (Val safety_check, w1)
      else
        match verify_device (device_manager MTKTool.initial) Scenario.device_x w1 with
        | (Val device_check, w2) =>
            match Dict.get device_check "verified" with
            | Some (VBool true) =>
                exists w',
                  start_operation MTKTool.initial "flash" Scenario.device_x
                    Scenario.low_battery = (Val unsupported_operation, w') /\
                  log w' = log w2
            | _ =>
                start_operation MTKTool.initial "flash" Scenario.device_x
                  Scenario.low_battery = (Val device_check, w2)
            end
        | (Exc _, _) => False
        end
  | (Exc _, _) => False
  end.
Proof.
  apply (start_unsupported_operation "flash" Scenario.device_x Scenario.low_battery).
  simpl. intros H. repeat destruct H as [H|H]; try discriminate H. exact H.
Defined.

(** C5 as stated fails. The operation type "flash" is not supported
    and the battery reads 5%. [start_operation] runs the battery
    probe of the safety gate and returns the gate's "Battery level
    too low" result, not "Unsupported operation". *)
Lemma start_unsupported_engages_gate :
  ~ In "flash" supported_operations /\
  fst (start_operation MTKTool.initial "flash" Scenario.device_x Scenario.low_battery)
    = Val [("safe", VBool false);
           ("message", VStr "Battery level too low");
           ("required", VStr "20%");
           ("current", VStr "5%")] /\
  fst (start_operation MTKTool.initial "flash" Scenario.device_x Scenario.low_battery)
    <> Val unsupported_operation /\
  log (snd (start_operation MTKTool.initial "flash" Scenario.device_x
              Scenario.low_battery))
    = [battery_command].
Proof.
  split.
  { simpl. intros H. repeat destruct H as [H|H]; try discriminate H. exact H. }
  split; [vm_compute; reflexivity|].
  split; [vm_compute; discriminate|].
  vm_compute. reflexivity.
Qed.

End Orchestrator.


(** ** The device manager *)

Section DeviceManager.

Import MTKDeviceManager.

Lemma state_map_never_meta (token : string) :
  Dict.get_default state_map token UNKNOWN <> META.
Proof.
  unfold Dict.get_default, state_map. cbn [Dict.get].
  repeat match goal with
         | |- context [String.eqb ?k token] => destruct (String.eqb k token)
         end; discriminate.
Qed.

Lemma state_map_fastboot (token : string) :
  Dict.get_default state_map token UNKNOWN = FASTBOOT -> token = "fastboot".
Proof.
  unfold Dict.get_default, state_map. cbn [Dict.get].
  destruct (String.eqb "device" token); [discriminate|].
  destruct (String.eqb "recovery" token); [discriminate|].
  destruct (String.eqb_spec "fastboot" token) as [<-|_]; [reflexivity|].
  destruct (String.eqb "sideload" token); discriminate.
Qed.

Lemma get_device_state_cases (self : t) (w : world) :
  exists state w',
    _get_device_state self w = (Val state, w') /\
    state <> META /\
    env w' = env w /\ log w' = (log w ++ [state_query])%list /\
    (state = FASTBOOT ->
     exists r, device (env w) (log w ++ [state_query]) = Completes r /\
               PyStr.strip (stdout r) = "fastboot").
Proof.
  unfold _get_device_state, try_except, bind, Sys.subprocess_run, ret.
  fold state_query. cbn [log set_log env].
  destruct (device (env w) (log w ++ [state_query])) as [r|e].
  - eexists _, _. split; [reflexivity|]. split; [apply state_map_never_meta|].
    split; [reflexivity|]. split; [reflexivity|].
    intros H. apply state_map_fastboot in H. eauto.
  - eexists _, _. split; [reflexivity|]. split; [discriminate|].
    split; [reflexivity|]. split; [reflexivity|]. discriminate.
Qed.

Lemma execute_command_cases (self : t) (cmd : string) (w : world) :
  exists b rest w',
    _execute_command self cmd w = (Val (("success", VBool b) :: rest), w') /\
    env w' = env w /\
    (log w' = log w \/ log w' = (log w ++ [PyStr.split cmd])%list) /\
    (forall out, Dict.get rest "stdout" = Some out ->
       exists r, device (env w) (log w ++ [PyStr.split cmd]) = Completes r /\
                 out = VStr (PyStr.strip (stdout r))).
Proof.
  unfold _execute_command, _adb_exists, _fastboot_exists, Sys.on_path, try_except,
    bind, Sys.subprocess_run, ret.
  cbn [log set_log env].
  repeat (case_match; simplify_eq/=);
    eexists _, _, _; (split; [reflexivity|]); (split; [reflexivity|]);
    (split; [first [left; reflexivity | right; reflexivity]|]);
    intros out Hout; simplify_eq/=; eauto.
Qed.

Lemma command_loop_cases (self : t) (commands : list string) (w : world) :
  exists w',
    env w' = env w /\
    (exists tr, log w' = (log w ++ tr)%list) /\
    (command_loop self commands w = (Val (Next tt), w') \/
     exists rest,
       command_loop self commands w = (Val (Return (("success", VBool false) :: rest)), w')).
Proof.
  revert w. induction commands as [|cmd rest IH]; intros w.
  { exists w. split; [reflexivity|]. split; [exists []; symmetry; apply app_nil_r|].
    left. reflexivity. }
  destruct (execute_command_cases self cmd w) as (b & fields & w1 & E & Henv & Hl & _).
  cbn [command_loop]. unfold bind, lift. rewrite E.
  change (Dict.index (("success", VBool b) :: fields) "success")
    with (@Val pyval (VBool b)).
  destruct b; cbn [truthy negb].
  - destruct (IH w1) as (w' & Henv' & [tr Hl'] & Hcases).
    exists w'. split; [congruence|]. split; [|exact Hcases].
    destruct Hl as [Hl|Hl]; rewrite Hl', Hl, <- ?app_assoc; eauto.
  - exists w1. split; [exact Henv|]. split.
    { destruct Hl as [Hl|Hl]; rewrite Hl; [exists []; symmetry; apply app_nil_r|eauto]. }
    right. eexists. reflexivity.
Qed.


Lemma get_battery_level_cases (self : t) (w : world) :
  exists level w',
    _get_battery_level self w = (Val level, w') /\
    env w' = env w /\ log w' = (log w ++ [battery_command])%list /\
    (20 <= level ->
     exists r, device (env w) (log w ++ [battery_command]) = Completes r /\
               PyStr.to_int (PyStr.strip (stdout r)) = Val level).
Proof.
  unfold _get_battery_level, try_except, bind, Sys.subprocess_run, lift, ret.
  fold battery_command. cbn [log set_log env].
  destruct (device (env w) (log w ++ [battery_command])) as [r|e].
  - cbn [stdout]. destruct (PyStr.to_int (PyStr.strip (stdout r))) as [level|e] eqn:Hl;
      eexists _, _; (split; [reflexivity|]); (split; [reflexivity|]);
      (split; [reflexivity|]); intros H; [eauto|lia].
  - eexists _, _. split; [reflexivity|]. split; [reflexivity|].
    split; [reflexivity|]. intros H. lia.
Qed.

Lemma verify_frp_safety_cases (self : t) (d : device_info) (w : world) :
  exists safe w1 tr,
    _verify_frp_safety self d w = (Val safe, w1) /\
    env w1 = env w /\ log w1 = (log w ++ tr)%list /\
    Forall (fun c => head c = Some "adb") tr /\
    (safe = true -> frp_precheck_passes w).
Proof.
  unfold _verify_frp_safety, try_except, bind, ret.
  destruct (get_device_state_cases self w) as (s & w1 & E & _ & Henv & Hl & Hfb).
  rewrite E.
  destruct (DeviceState_eqb s FASTBOOT) eqn:Hs; cbn [negb].
  2:{ exists false, w1, [state_query]. split; [reflexivity|]. split; [exact Henv|].
      split; [exact Hl|]. split; [repeat constructor|discriminate]. }
  assert (s = FASTBOOT) as -> by (destruct s; simpl in Hs; congruence).
  destruct (Hfb eq_refl) as (r1 & Hr1 & Hstate).
  destruct (get_battery_level_cases self w1) as (level & w2 & E2 & Henv2 & Hl2 & Hb).
  rewrite E2.
  assert (log w2 = (log w ++ [state_query; battery_command])%list) as Hlog.
  { rewrite Hl2, Hl, <- app_assoc. reflexivity. }
  destruct (Z.ltb_spec level 20).
  - exists false, w2, [state_query; battery_command].
    split; [reflexivity|]. split; [congruence|]. split; [exact Hlog|].
    split; [repeat constructor|discriminate].
  - exists true, w2, [state_query; battery_command].
    split; [reflexivity|]. split; [congruence|]. split; [exact Hlog|].
    split; [repeat constructor|]. intros _.
    destruct (Hb H) as (r2 & Hr2 & Hlevel).
    exists r1, r2, level. rewrite Henv, Hl, <- app_assoc in Hr2. auto.
Qed.

Lemma verify_frp_removal_cases (self : t) (w : world) :
  exists removed w',
    _verify_frp_removal self w = (Val removed, w') /\
    (removed = true ->
     exists r, device (env w) (log w ++ [frp_query]) = Completes r /\
               reports_empty r = true).
Proof.
  unfold _verify_frp_removal, try_except, bind, raise, ret.
  destruct (execute_command_cases self "fastboot getvar frp" w)
    as (b & rest & w' & E & _ & _ & Hout).
  rewrite E. unfold Dict.get_default. cbn [Dict.get]. cbn [String.eqb Ascii.eqb Bool.eqb].
  destruct (Dict.get rest "stdout") as [out|] eqn:Hget.
  - destruct (Hout out eq_refl) as (r & Hr & ->).
    eexists _, _. split; [reflexivity|]. intros H. exists r. split; [exact Hr|exact H].
  - eexists _, _. split; [reflexivity|]. discriminate.
Qed.

Lemma execute_command_success (self : t) (cmd : string) (rest : dict) (w w' : world) :
  _execute_command self cmd w = (Val (("success", VBool true) :: rest), w') ->
  PyStr.contains "fastboot" cmd = true -> which (env w) "fastboot" = true.
Proof.
  unfold _execute_command, _adb_exists, _fastboot_exists, Sys.on_path, try_except,
    bind, Sys.subprocess_run, ret.
  intros H Hfb. rewrite Hfb in H.
  repeat (case_match; simplify_eq/=);
    match goal with
    | Hw : negb (which _ "fastboot") = false |- _ => apply negb_false_iff in Hw; exact Hw
    end.
Qed.

Lemma command_loop_completes (self : t) (commands : list string) (w w' : world) :
  command_loop self commands w = (Val (Next tt), w') ->
  forall cmd, In cmd commands -> PyStr.contains "fastboot" cmd = true ->
              which (env w) "fastboot" = true.
Proof.
  revert w. induction commands as [|c rest IH]; intros w H cmd Hin Hfb; [destruct Hin|].
  cbn [command_loop] in H. unfold bind, lift in H.
  destruct (execute_command_cases self c w) as (b & fields & w1 & E & Henv & _).
  rewrite E in H.
  change (Dict.index (("success", VBool b) :: fields) "success")
    with (@Val pyval (VBool b)) in H.
  destruct b; cbn [truthy negb] in H; [|discriminate].
  destruct Hin as [->|Hin].
  - apply (execute_command_success self cmd fields w w1 E Hfb).
  - rewrite <- Henv. apply (IH w1 H cmd Hin Hfb).
Qed.

Lemma frp_sequence_erases_first (chipset : option string) (commands : list string) :
  commands_for (frp_commands initial) chipset = Some commands ->
  In "fastboot erase frp" commands.
Proof.
  unfold commands_for. destruct chipset as [c|]; [|discriminate].
  destruct (PyStr.is_empty c); [discriminate|].
  unfold initial, frp_commands. cbn [Dict.get].
  repeat match goal with
         | |- context [String.eqb ?k c] => destruct (String.eqb k c)
         end;
    intros [= <-]; try (left; reflexivity).
Qed.

Lemma verify_frp_removal_queries (self : t) (w : world) :
  which (env w) "fastboot" = true ->
  log (snd (_verify_frp_removal self w)) = (log w ++ [frp_query])%list.
Proof.
  intros Hw.
  unfold _verify_frp_removal, _execute_command, _adb_exists, _fastboot_exists,
    Sys.on_path, try_except, bind, Sys.subprocess_run, raise, ret.
  change (PyStr.contains "adb" "fastboot getvar frp") with false.
  change (PyStr.contains "fastboot" "fastboot getvar frp") with true.
  change (PyStr.split "fastboot getvar frp") with frp_query.
  cbn [negb]. cbv beta iota. rewrite Hw. cbn [negb]. cbv beta iota.
  cbn [log set_log set_fs env].
  destruct (device (env w) (log w ++ [frp_query])) as [[rc out err]|e];
    repeat (case_match; simplify_eq/=); reflexivity.
Qed.

Lemma handle_frp_unfold (self : t) (d : device_info) (w : world) :
  handle_frp self d w =
  match _verify_frp_safety self d w with
  | (Val safe, w1) =>
      if negb safe then (Val frp_unsafe, w1)
      else
        match commands_for (frp_commands self) (Dict.get d "chipset") with
        | None =>
            (Val [("status", VStr "error");
                  ("message", VStr "Unsupported chipset for FRP removal")], w1)
        | Some commands =>
            match command_loop self commands w1 with
            | (Val (Return result), w2) => (Val result, w2)
            | (Val (Next _), w2) =>
                match _verify_frp_removal self w2 with
                | (Val removed, w3) =>
                    (Val (if negb removed then frp_verification_failed
                          else frp_removed), w3)
                | (Exc e, w3) =>
                    (Val [("status", VStr "error");
                          ("message", VStr "FRP removal failed");
                          ("error", VStr (exn_msg e))], w3)
                end
            | (Exc e, w2) =>
                (Val [("status", VStr "error");
                      ("message", VStr "FRP removal failed");
                      ("error", VStr (exn_msg e))], w2)
            end
        end
  | (Exc e, w1) =>
      (Val [("status", VStr "error");
            ("message", VStr "FRP removal failed");
            ("error", VStr (exn_msg e))], w1)
  end.
Proof.
  unfold handle_frp, try_except, bind, ret. cbv zeta.
  destruct (_verify_frp_safety self d w) as [[safe|e] w1]; [|reflexivity].
  destruct (negb safe); [reflexivity|].
  destruct (commands_for _ _) as [commands|]; [|reflexivity].
  destruct (command_loop self commands w1) as [[[r|u]|e] w2]; try reflexivity.
  destruct (_verify_frp_removal self w2) as [[removed|e] w3]; [|reflexivity].
  destruct (negb removed); reflexivity.
Qed.

(** C7. (1) If [handle_frp] runs any fastboot command, and so any
    erase, then at its pre-check the device state read Fastboot and
    the battery level was at least 20; the general safety gate plays
    no part in this. (2) It returns "FRP removed successfully" only
    if the FRP variable was queried again and the answer reports
    empty. (3) Once the pre-check has passed and the chipset's
    command sequence has completed, the FRP variable is queried, as
    the one further command, and the result is the success when the
    answer reports empty and the verification error otherwise. *)
Theorem handle_frp_guarded (d : device_info) (w : world) :
  (forall c,
      In c (new_commands w (snd (handle_frp initial d w))) ->
      head c = Some "fastboot" ->
      frp_precheck_passes w) /\
  (fst (handle_frp initial d w) = Val frp_removed ->
   exists earlier r,
     device (env w) ((log w ++ earlier) ++ [frp_query]) = Completes r /\
     reports_empty r = true) /\
  (forall w1 commands w2,
      _verify_frp_safety initial d w = (Val true, w1) ->
      commands_for (frp_commands initial) (Dict.get d "chipset") = Some commands ->
      command_loop initial commands w1 = (Val (Next tt), w2) ->
      exists removed w3,
        _verify_frp_removal initial w2 = (Val removed, w3) /\
        log w3 = (log w2 ++ [frp_query])%list /\
        handle_frp initial d w
          = (Val (if removed then frp_removed else frp_verification_failed), w3) /\
        (removed = true ->
         exists r, device (env w2) (log w2 ++ [frp_query]) = Completes r /\
                   reports_empty r = true)).
Proof.
  rewrite handle_frp_unfold.
  destruct (verify_frp_safety_cases initial d w)
    as (safe & w1 & tr & E & Henv & Hl & Hadb & Hpass).
  rewrite E. split; [|split].
  - intros c Hin Hhead. destruct safe; [auto|]. cbn [negb snd] in Hin.
    unfold new_commands in Hin. rewrite Hl, drop_app_length in Hin.
    rewrite Forall_forall in Hadb. apply list_elem_of_In, Hadb in Hin.
    congruence.
  - destruct safe; cbn [negb fst]; [|discriminate].
    destruct (commands_for _ _) as [commands|]; [|discriminate].
    destruct (command_loop_cases initial commands w1)
      as (w2 & Henv2 & [tr2 Hl2] & [E2|[rest E2]]); rewrite E2; [|discriminate].
    destruct (verify_frp_removal_cases initial w2) as (removed & w3 & E3 & Hrem).
    rewrite E3. destruct removed; cbn [negb fst]; [|discriminate].
    intros _. destruct (Hrem eq_refl) as (r & Hr & Hempty).
    exists (tr ++ tr2)%list, r. split; [|exact Hempty].
    rewrite Henv2, Henv, Hl2, Hl in Hr. rewrite app_assoc. exact Hr.
  - intros w1' commands w2 Heq Hc Hloop.
    injection Heq as Hsafe Hw. subst safe w1'. cbn [negb].
    rewrite Hc, Hloop.
    destruct (verify_frp_removal_cases initial w2) as (removed & w3 & E3 & Hrem).
    rewrite E3. exists removed, w3. split; [reflexivity|].
    split.
    { pose proof (verify_frp_removal_queries initial w2) as Hq.
      rewrite E3 in Hq. apply Hq.
      destruct (command_loop_cases initial commands w1) as (w2' & Henv2 & _ & Hcase).
      rewrite Hloop in Hcase.
      assert (w2' = w2) as -> by (destruct Hcase as [H|[? H]]; congruence).
      rewrite Henv2.
      apply (command_loop_completes initial commands w1 w2 Hloop "fastboot erase frp").
      - apply (frp_sequence_erases_first _ _ Hc).
      - reflexivity. }
    split; [destruct removed; reflexivity|exact Hrem].
Qed.

Lemma handle_frp_guarded_witness :
  frp_precheck_passes Scenario.in_fastboot /\
  (exists earlier r,
      device (env Scenario.in_fastboot)
        ((log Scenario.in_fastboot ++ earlier) ++ [frp_query]) = Completes r /\
      reports_empty r = true) /\
  (exists removed w3,
      _verify_frp_removal initial
        (snd (command_loop initial frp_sequence_config
                (snd (_verify_frp_safety initial Scenario.device_x
                        Scenario.in_fastboot))))
        = (Val removed, w3) /\
      log w3 =
        (log (snd (command_loop initial frp_sequence_config
                     (snd (_verify_frp_safety initial Scenario.device_x
                             Scenario.in_fastboot)))) ++ [frp_query])%list /\
      handle_frp initial Scenario.device_x Scenario.in_fastboot
        = (Val (if removed then frp_removed else frp_verification_failed), w3) /\
      (removed = true ->
       exists r,
         device
           (env (snd (command_loop initial frp_sequence_config
                        (snd (_verify_frp_safety initial Scenario.device_x
                                Scenario.in_fastboot)))))
           (log (snd (command_loop initial frp_sequence_config
                        (snd (_verify_frp_safety initial Scenario.device_x
                                Scenario.in_fastboot)))) ++ [frp_query])
           = Completes r /\
         reports_empty r = true)).
Proof.
  destruct (handle_frp_guarded Scenario.device_x Scenario.in_fastboot)
    as (Hguard & Hsuccess & Hafter).
  split; [|split].
  - apply (Hguard ["fastboot"; "erase"; "frp"]).
    + vm_compute. right. right. left. reflexivity.
    + reflexivity.
  - apply Hsuccess. vm_compute. reflexivity.
  - apply (Hafter (snd (_verify_frp_safety initial Scenario.device_x
                          Scenario.in_fastboot))
             frp_sequence_config).
    + vm_compute. reflexivity.
    + reflexivity.
    + vm_compute. reflexivity.
Defined.

End DeviceManager.


(** ** More on backup and restore *)

Section BackupRestoreMore.

Import MTKSafetySystem.

Lemma info_not_image (backup_path partition : string) :
  info_path backup_path <> image_path backup_path partition.
Proof.
  intros H. apply (f_equal PyStr.last_char) in H.
  unfold info_path, image_path in H.
  rewrite !last_char_path_join in H.
  - rewrite last_char_append in H by discriminate. discriminate.
  - destruct partition; discriminate.
  - discriminate.
Qed.

Lemma backup_partition_effect (self : t) (d : device_info)
    (partition backup_path : string) (w : world) :
  forall r w',
    _backup_partition self d partition backup_path w = (Val r, w') ->
    (forall path, fs w' !! path = fs w !! path \/ fs w' !! path = Some DataFile) /\
    (Dict.get r "success" = Some (VBool true) ->
     fs w' !! image_path backup_path partition = Some DataFile).
Proof.
  unfold _backup_partition, try_except, bind, Sys.subprocess_run, ret.
  cbv zeta. fold (image_path backup_path partition).
  intros r w' H.
  repeat (case_match; simplify_eq/=);
    (split;
     [intros path;
      first [ left; reflexivity
            | destruct (decide (image_path backup_path partition = path)) as [<-|Hne];
              [right; apply lookup_insert_eq
              |left; apply lookup_insert_ne; exact Hne] ]
     |intros Hs; try discriminate Hs; apply lookup_insert_eq]).
Qed.

Lemma backup_loop_effect (self : t) (d : device_info) (backup_path : string)
    (partitions : list string) (acc : dict) (w : world) :
  forall results w',
    backup_loop self d backup_path partitions acc w = (Val (Next results), w') ->
    (forall path, fs w' !! path = fs w !! path \/ fs w' !! path = Some DataFile) /\
    (forall q, In q partitions -> fs w' !! image_path backup_path q = Some DataFile).
Proof.
  revert acc w. induction partitions as [|p rest IH]; intros acc w results w' H.
  { simpl in H. injection H as <- <-. split; [auto|intros q []]. }
  cbn [backup_loop] in H. unfold bind, lift in H.
  destruct (backup_partition_cases self d p backup_path w)
    as (w1 & _ & _ & _ & _ & [E|[err E]]); rewrite E in H; simpl in H;
    [|discriminate].
  destruct (backup_partition_effect self d p backup_path w _ _ E) as [Hany Himg].
  destruct (IH _ _ _ _ H) as [Hany' Himg'].
  split.
  - intros path. destruct (Hany' path) as [Hp|Hp]; [|auto].
    rewrite Hp. apply Hany.
  - intros q [<-|Hq]; [|apply Himg', Hq].
    destruct (Hany' (image_path backup_path p)) as [Hp|Hp]; [|exact Hp].
    rewrite Hp. apply Himg. reflexivity.
Qed.

Lemma backup_preamble_manifest (self : t) (d : device_info) (w : world) :
  forall backup_path w1,
    backup_preamble self d w = (Val backup_path, w1) ->
    exists timestamp, fs w1 !! info_path backup_path = Some (manifest_of self timestamp d).
Proof.
  unfold backup_preamble, _get_backup_path, _create_backup_info, bind, Sys.now,
    Sys.makedirs, Sys.write_json, ret, manifest_of.
  cbv zeta. intros bp w1 H.
  repeat (case_match; simplify_eq/=); eexists; apply lookup_insert_eq.
Qed.

Lemma create_verification_file_frame (self : t) (backup_path : string)
    (results : dict) (w w' : world) :
  _create_verification_file self backup_path results w = (Val tt, w') ->
  is_Some (fs w' !! verification_path backup_path) /\
  (forall path, path <> verification_path backup_path -> fs w' !! path = fs w !! path).
Proof.
  unfold _create_verification_file, bind, Sys.now, lift, Sys.write_json, ret.
  cbv zeta. fold (verification_path backup_path). intros H.
  repeat (case_match; simplify_eq/=);
    (split; [eexists; apply lookup_insert_eq
            |intros path Hp; apply lookup_insert_ne; congruence]).
Qed.

(** X1. Round trip of a backup: when [create_backup] returns status
    "success", integrity verification of the path it reports passes in
    the world it leaves, and the path is the one made of the model and
    the clock. *)
Theorem create_backup_round_trip (d : device_info) (w : world) (r : dict) (w' : world) :
  create_backup initial d w = (Val r, w') ->
  Dict.get r "status" = Some (VStr "success") ->
  Dict.get r "backup_path" = Some (VStr (backup_path_of initial d w)) /\
  _verify_backup_integrity initial (backup_path_of initial d w) w' = (Val true, w').
Proof.
  intros H Hs. rewrite create_backup_unfold in H.
  destruct (backup_preamble_cases initial d w) as (w1 & _ & _ & _ & Hpre).
  destruct Hpre as [Hpre|[e Hpre]]; rewrite Hpre in H.
  2:{ destruct (handle_backup_error_total initial e w1) as (r' & w'' & E & _ & _ & Hst).
      rewrite E in H. injection H as <- <-. rewrite Hst in Hs. discriminate. }
  destruct (backup_preamble_manifest initial d w _ _ Hpre) as [ts Hinfo].
  set (bp := backup_path_of initial d w) in *.
  destruct (backup_loop_cases initial d bp (critical_partitions initial) [] w1
              critical_partitions_nodup (fun _ _ H => H))
    as (w2 & _ & _ & Hfs2 & [[E _]|(a & q & b & err & _ & E & _)]);
    rewrite E in H.
  2:{ injection H as <- <-. discriminate. }
  destruct (backup_loop_effect initial d bp _ _ _ _ _ E) as [_ Himg].
  destruct (_create_verification_file initial bp _ w2) as [[[]|e] w3] eqn:E3.
  2:{ destruct (handle_backup_error_total initial e w3) as (r' & w'' & E' & _ & _ & Hst).
      rewrite E' in H. injection H as <- <-. rewrite Hst in Hs. discriminate. }
  injection H as <- <-. split; [reflexivity|].
  destruct (create_verification_file_frame initial bp _ w2 w3 E3) as [Hver Hframe].
  rewrite verify_backup_integrity_spec. f_equal. f_equal.
  assert (fs w3 !! info_path bp = Some (manifest_of initial ts d)) as Hinfo3.
  { rewrite Hframe by (apply not_eq_sym, verification_not_info).
    rewrite Hfs2; [exact Hinfo|]. intros q' _. apply info_not_image. }
  assert (manifest_items w3 bp = Val (map VStr (critical_partitions initial))) as Hitems.
  { unfold manifest_items. rewrite Hinfo3. reflexivity. }
  unfold restorable, present. rewrite Hitems.
  rewrite !bool_decide_eq_true_2 by eauto.
  cbn [andb]. apply forallb_forall. intros item Hin.
  apply in_map_iff in Hin as (q' & <- & Hq').
  unfold image_present, present. cbn [py_format].
  apply bool_decide_eq_true_2.
  rewrite Hframe by (apply not_eq_sym, verification_not_image).
  rewrite (Himg q' Hq'). eauto.
Qed.

Lemma create_backup_round_trip_witness :
  Dict.get
    [("status", VStr "success");
     ("backup_path", VStr Scenario.backup_x);
     ("results", VDict (recorded Scenario.backup_x (critical_partitions initial)))]
    "backup_path"
    = Some (VStr (backup_path_of initial Scenario.device_x Scenario.bare)) /\
  _verify_backup_integrity initial (backup_path_of initial Scenario.device_x Scenario.bare)
    (snd (create_backup initial Scenario.device_x Scenario.bare))
    = (Val true, snd (create_backup initial Scenario.device_x Scenario.bare)).
Proof.
  apply (create_backup_round_trip Scenario.device_x Scenario.bare).
  - vm_compute. reflexivity.
  - reflexivity.
Defined.

(** X2. Integrity verification decides restorability and only reads:
    it returns true exactly when the manifest and the verification
    record exist, the manifest's partition list can be read, and the
    image of every listed partition exists; it never raises and leaves
    the world as it was. *)
Theorem verify_backup_integrity_exact (self : t) (backup_path : string) (w : world) :
  _verify_backup_integrity self backup_path w = (Val (restorable w backup_path), w) /\
  (restorable w backup_path = true <->
   is_Some (fs w !! info_path backup_path) /\
   is_Some (fs w !! verification_path backup_path) /\
   exists items,
     manifest_items w backup_path = Val items /\
     forall item, In item items ->
       exists name, py_format item = Val name /\
                    is_Some (fs w !! image_path backup_path name)).
Proof.
  split; [apply verify_backup_integrity_spec|].
  unfold restorable, present. rewrite !andb_true_iff, !bool_decide_eq_true.
  split.
  - intros [[Hi Hv] Hitems]. split; [exact Hi|]. split; [exact Hv|].
    destruct (manifest_items w backup_path) as [items|e]; [|discriminate].
    exists items. split; [reflexivity|]. intros item Hin.
    rewrite forallb_forall in Hitems. specialize (Hitems item Hin).
    unfold image_present, present in Hitems.
    destruct (py_format item) as [name|e]; [|discriminate].
    exists name. split; [reflexivity|]. apply bool_decide_eq_true in Hitems. exact Hitems.
  - intros (Hi & Hv & items & -> & Hall). split; [split; assumption|].
    apply forallb_forall. intros item Hin.
    destruct (Hall item Hin) as (name & Hname & Himg).
    unfold image_present, present. rewrite Hname. apply bool_decide_eq_true. exact Himg.
Qed.

Lemma restore_partition_success (self : t) (d : device_info)
    (partition backup_path : string) (w w' : world) :
  _restore_partition self d partition backup_path w = (Val [("success", VBool true)], w') ->
  log w' = (log w ++ restore_commands backup_path partition)%list /\
  is_Some (fs w !! image_path backup_path partition).
Proof.
  unfold _restore_partition, try_except, bind, Sys.path_exists, Sys.subprocess_run, ret,
    restore_commands.
  cbv zeta. fold (image_path backup_path partition). intros H.
  repeat (case_match; simplify_eq/=).
  split.
  - rewrite <- !app_assoc. reflexivity.
  - match goal with
    | Hp : negb (bool_decide _) = false |- _ =>
        apply negb_false_iff, bool_decide_eq_true in Hp; exact Hp
    end.
Qed.

Lemma restore_loop_success (self : t) (d : device_info) (backup_path : string)
    (partitions : list string) (acc : dict) (w : world) :
  forall results w',
    restore_loop self d backup_path partitions acc w = (Val (Next results), w') ->
    log w' = (log w ++ flat_map (restore_commands backup_path) partitions)%list /\
    (forall q, In q partitions -> is_Some (fs w !! image_path backup_path q)).
Proof.
  revert acc w. induction partitions as [|p rest IH]; intros acc w results w' H.
  { simpl in H. injection H as <- <-. simpl. rewrite app_nil_r. split; [auto|intros q []]. }
  cbn [restore_loop] in H. unfold bind, lift in H.
  destruct (restore_partition_cases self d p backup_path w)
    as (w1 & Hfs & _ & [E|[err E]]); rewrite E in H; simpl in H; [|discriminate].
  destruct (restore_partition_success self d p backup_path w w1 E) as [Hl Hp].
  destruct (IH _ _ _ _ H) as [Hl' Hq']. split.
  - rewrite Hl', Hl. cbn [flat_map]. rewrite <- app_assoc. reflexivity.
  - intros q [<-|Hq]; [exact Hp|]. rewrite <- Hfs. apply Hq', Hq.
Qed.

(** X3. [restore_backup] never raises and never changes a local file:
    it returns a result whose status is "success" or "error", and the
    file system after it is the one before it. *)
Theorem restore_backup_keeps_files
    (self : t) (backup_path : string) (d : device_info) (w : world) :
  exists r w',
    restore_backup self backup_path d w = (Val r, w') /\
    fs w' = fs w /\ env w' = env w /\
    (Dict.get r "status" = Some (VStr "success") \/
     Dict.get r "status" = Some (VStr "error")).
Proof.
  destruct (restorable w backup_path) eqn:Hr.
  - rewrite (restore_backup_intact self backup_path d w Hr).
    destruct (restore_loop_cases self d backup_path (critical_partitions self) [] w)
      as (w' & Hfs & Henv & [[acc E]|(q & err & _ & E)]); rewrite E;
      eexists _, _; (split; [reflexivity|]); auto.
  - exists integrity_error, w. unfold restore_backup, try_except, bind.
    rewrite verify_backup_integrity_spec, Hr. auto.
Qed.

(** X4. A restore that reports success has restored everything: the
    backup was restorable, every critical partition had its image, and
    the commands run are the push, the dd and the removal of the
    temporary file for each critical partition, in canonical order. *)
Theorem restore_backup_success
    (backup_path : string) (d : device_info) (w : world) (r : dict) (w' : world) :
  restore_backup initial backup_path d w = (Val r, w') ->
  Dict.get r "status" = Some (VStr "success") ->
  restorable w backup_path = true /\
  (forall q, In q (critical_partitions initial) ->
             is_Some (fs w !! image_path backup_path q)) /\
  new_commands w w'
    = flat_map (restore_commands backup_path) (critical_partitions initial).
Proof.
  intros H Hs. destruct (restorable w backup_path) eqn:Hr.
  2:{ unfold restore_backup, try_except, bind in H.
      rewrite verify_backup_integrity_spec, Hr in H. simpl in H.
      injection H as <- <-. discriminate. }
  split; [reflexivity|].
  rewrite (restore_backup_intact initial backup_path d w Hr) in H.
  destruct (restore_loop initial d backup_path (critical_partitions initial) [] w)
    as [[[r'|results]|e] w1] eqn:E.
  - destruct (restore_loop_cases initial d backup_path (critical_partitions initial) [] w)
      as (w2 & _ & _ & [[acc E']|(q & err & _ & E')]); rewrite E in E'; [discriminate|].
    injection E' as -> ->. injection H as <- <-. discriminate.
  - injection H as <- <-.
    destruct (restore_loop_success initial d backup_path _ _ _ _ _ E) as [Hl Hq].
    split; [exact Hq|]. unfold new_commands. rewrite Hl. apply drop_app_length.
  - injection H as <- <-. discriminate.
Qed.

Lemma restore_backup_success_witness :
  restorable (snd (create_backup initial Scenario.device_x Scenario.bare))
    Scenario.backup_x = true /\
  (forall q, In q (critical_partitions initial) ->
     is_Some (fs (snd (create_backup initial Scenario.device_x Scenario.bare))
                !! image_path Scenario.backup_x q)) /\
  new_commands (snd (create_backup initial Scenario.device_x Scenario.bare))
    (snd (restore_backup initial Scenario.backup_x Scenario.device_x
            (snd (create_backup initial Scenario.device_x Scenario.bare))))
    = flat_map (restore_commands Scenario.backup_x) (critical_partitions initial).
Proof.
  apply (restore_backup_success Scenario.backup_x Scenario.device_x
           (snd (create_backup initial Scenario.device_x Scenario.bare))
           [("status", VStr "success");
            ("message", VStr "Backup restored successfully");
            ("results",
              VDict (map (fun q => (q, VDict [("success", VBool true)]))
                       (critical_partitions initial)))]).
  - vm_compute. reflexivity.
  - reflexivity.
Defined.




End BackupRestoreMore.


(** ** More on the safety gate *)

Section SafetyGateMore.

Import MTKSafetySystem.

Lemma str_in_In (x : string) (l : list string) : str_in x l = true <-> In x l.
Proof.
  unfold str_in. rewrite existsb_exists. split.
  - intros (y & Hy & E). apply String.eqb_eq in E. subst. exact Hy.
  - intros H. exists x. split; [exact H|apply String.eqb_refl].
Qed.

Lemma first_missing_none (partitions available : list string) :
  first_missing partitions available = None <->
  forall q, In q partitions -> In q available.
Proof.
  induction partitions as [|p rest IH]; simpl; [tauto|].
  destruct (str_in p available) eqn:E; simpl.
  - apply str_in_In in E. rewrite IH. split; [intros H q [<-|Hq]; auto|auto].
  - split; [discriminate|]. intros H.
    assert (str_in p available = true) by (apply str_in_In, H; auto). congruence.
Qed.

Lemma first_missing_some (partitions available : list string) (q : string) :
  first_missing partitions available = Some q <->
  exists pre post,
    partitions = (pre ++ q :: post)%list /\
    (forall p, In p pre -> In p available) /\ ~ In q available.
Proof.
  revert q. induction partitions as [|p rest IH]; intros q; simpl.
  { split; [discriminate|]. intros (pre & post & H & _). destruct pre; discriminate. }
  destruct (str_in p available) eqn:E; simpl.
  - apply str_in_In in E. rewrite IH. split.
    + intros (pre & post & -> & Hpre & Hq). exists (p :: pre), post.
      split; [reflexivity|]. split; [intros x [<-|Hx]; auto|exact Hq].
    + intros (pre & post & H & Hpre & Hq). destruct pre as [|x pre].
      * injection H as -> ->. contradiction.
      * injection H as -> ->. exists pre, post. split; [reflexivity|].
        split; [intros y Hy; apply Hpre; right; exact Hy|exact Hq].
  - assert (~ In p available) as Hp.
    { intros H. apply str_in_In in H. congruence. }
    split.
    + intros [= <-]. exists [], rest.
      split; [reflexivity|]. split; [intros x []|exact Hp].
    + intros (pre & post & H & Hpre & Hq). destruct pre as [|x pre].
      * injection H as -> ->. reflexivity.
      * injection H as -> ->. exfalso. apply Hp, Hpre. left. reflexivity.
Qed.

Ltac stage_passes :=
  eexists _, _; split; [reflexivity|]; split; [reflexivity|]; split; [reflexivity|];
  left; split; [reflexivity|].

Ltac stage_refuses :=
  eexists _, _; split; [reflexivity|]; split; [reflexivity|]; split; [reflexivity|];
  right; split; [reflexivity|].

Lemma check_battery_decides :
  stage_decides (_check_battery initial) battery_command (fun _ => battery_condition).
Proof.
  intros d w. unfold _check_battery, try_except, bind, Sys.subprocess_run, lift, ret,
    battery_condition.
  fold battery_command. cbn [log set_log env].
  destruct (device (env w) (log w ++ [battery_command])) as [r|e].
  2:{ stage_refuses. intros (r & level & H & _). discriminate. }
  cbn [stdout].
  destruct (PyStr.to_int (PyStr.strip (stdout r))) as [level|e] eqn:Hlevel.
  2:{ stage_refuses. intros (r' & level & [= <-] & H & _). congruence. }
  destruct (Z.ltb_spec level 20).
  - stage_refuses. intros (r' & level' & [= <-] & H' & Hge).
    rewrite Hlevel in H'. injection H' as <-. lia.
  - stage_passes. eauto.
Qed.

Lemma check_connection_decides :
  stage_decides (_check_connection initial) devices_command connection_condition.
Proof.
  intros d w. unfold _check_connection, try_except, bind, Sys.subprocess_run, raise, ret,
    connection_condition.
  fold devices_command. cbn [log set_log env].
  destruct (device (env w) (log w ++ [devices_command])) as [r|e].
  2:{ stage_refuses. intros (r & serial & H & _). discriminate. }
  cbn [stdout].
  destruct (Dict.get d "serial") as [serial|] eqn:Hserial.
  2:{ stage_refuses. intros (r' & serial & _ & H & _). discriminate. }
  destruct (PyStr.contains serial (stdout r)) eqn:Hin; cbn [negb].
  - stage_passes. eauto.
  - stage_refuses. intros (r' & serial' & [= <-] & [= <-] & H). congruence.
Qed.

Lemma verify_device_state_decides :
  stage_decides (_verify_device_state initial) state_query state_condition.
Proof.
  intros d w. unfold _verify_device_state, try_except, bind, Sys.subprocess_run, ret,
    state_condition.
  fold state_query. cbv zeta. cbn [log set_log env].
  destruct (device (env w) (log w ++ [state_query])) as [r|e].
  2:{ stage_refuses. intros (r & H & _). discriminate. }
  cbn [stdout].
  destruct (String.eqb_spec (PyStr.strip (stdout r))
              (Dict.get_default d "expected_state" "device")) as [Heq|Hne]; cbn [negb].
  - stage_passes. eauto.
  - stage_refuses. intros (r' & [= <-] & H). contradiction.
Qed.

Lemma check_critical_partitions_decides :
  stage_decides (_check_critical_partitions initial) listing_command
    (fun _ => partitions_condition initial).
Proof.
  intros d w. unfold _check_critical_partitions, try_except, bind, Sys.subprocess_run,
    ret, partitions_condition.
  fold listing_command. cbv zeta. cbn [log set_log env].
  destruct (device (env w) (log w ++ [listing_command])) as [r|e].
  2:{ stage_refuses. intros (r & H & _). discriminate. }
  cbn [returncode stdout].
  destruct (Z.eqb_spec (returncode r) 0) as [Hrc|Hrc]; cbn [negb].
  2:{ stage_refuses. intros (r' & [= <-] & H & _). contradiction. }
  destruct (first_missing (critical_partitions initial) (PyStr.split (stdout r)))
    as [q|] eqn:Hm.
  - stage_refuses. intros (r' & [= <-] & _ & Hall).
    apply first_missing_none in Hall. congruence.
  - stage_passes. exists r. split; [reflexivity|]. split; [exact Hrc|].
    apply first_missing_none, Hm.
Qed.

Lemma required_space_initial (d : device_info) :
  _calculate_required_space initial d = Val 2520.
Proof. vm_compute. reflexivity. Qed.

Lemma convert_to_mb_returns (self : t) (size_str : string) :
  exists mb, _convert_to_mb self size_str = Val mb.
Proof.
  unfold _convert_to_mb, otry.
  match goal with |- context [match ?b with Val _ => _ | Exc _ => _ end] =>
    destruct b end; eauto.
Qed.

Lemma check_backup_availability_decides :
  stage_decides (_check_backup_availability initial) storage_command
    (fun _ => storage_condition initial).
Proof.
  intros d w.
  unfold _check_backup_availability, try_except, bind, Sys.subprocess_run, lift, ret,
    Sys.logging_error, storage_condition.
  cbv zeta. fold storage_command. cbn [log set_log env].
  destruct (device (env w) (log w ++ [storage_command])) as [r|e].
  2:{ stage_refuses.
      intros (r' & h' & row' & rows' & g0 & g1 & g2 & av' & rest' & mb' &
              Er & Hrc' & Hl' & Hp' & Hc' & Hge').
      discriminate. }
  cbn [returncode stdout].
  destruct (Z.eqb_spec (returncode r) 0) as [Hrc|Hrc]; cbn [negb].
  2:{ stage_refuses.
      intros (r' & h' & row' & rows' & g0 & g1 & g2 & av' & rest' & mb' &
              Er & Hrc' & Hl' & Hp' & Hc' & Hge').
      injection Er as <-. contradiction. }
  destruct (PyStr.split_on "010" (PyStr.strip (stdout r)))
    as [|header [|row rows]] eqn:Hlines;
    try (stage_refuses;
         intros (r' & h' & row' & rows' & g0 & g1 & g2 & av' & rest' & mb' &
                 Er & Hrc' & Hl' & Hp' & Hc' & Hge');
         injection Er as <-; congruence).
  destruct (PyStr.split row) as [|f0 [|f1 [|f2 [|available rest]]]] eqn:Hparts;
    try (stage_refuses;
         intros (r' & h' & row' & rows' & g0 & g1 & g2 & av' & rest' & mb' &
                 Er & Hrc' & Hl' & Hp' & Hc' & Hge');
         injection Er as <-; rewrite Hlines in Hl'; injection Hl' as <- <- <-;
         congruence).
  destruct (convert_to_mb_returns initial available) as [mb Hmb].
  rewrite Hmb, required_space_initial.
  destruct (Z.ltb_spec mb 2520).
  - stage_refuses.
    intros (r' & h' & row' & rows' & g0 & g1 & g2 & av' & rest' & mb' &
            Er & Hrc' & Hl' & Hp' & Hc' & Hge').
    injection Er as <-. rewrite Hlines in Hl'. injection Hl' as <- <- <-.
    rewrite Hparts in Hp'. injection Hp' as <- <- <- <- <-.
    rewrite Hmb in Hc'. injection Hc' as <-. lia.
  - stage_passes. exists r, header, row, rows, f0, f1, f2, available, rest, mb. auto 10.
Qed.

Lemma gate_decides (d : device_info) (w : world) :
  exists r w',
    check_safety initial d w = (Val r, w') /\
    env w' = env w /\
    ((r = all_passed /\ gate_holds d w) \/
     (stage_fails r = true /\ ~ gate_holds d w)).
Proof.
  rewrite check_safety_refines. unfold gate_stages, gate_holds, gate_answer.
  cbn [first_failure firstn gate_commands]. unfold bind, ret.
  destruct (check_battery_decides d w) as (r1 & w1 & E1 & Henv1 & Hl1 & [[F1 C1]|[F1 N1]]);
    rewrite E1, F1.
  2:{ exists r1, w1. split; [reflexivity|]. split; [exact Henv1|].
      right. split; [exact F1|]. intros (H & _). exact (N1 H). }
  destruct (check_connection_decides d w1)
    as (r2 & w2 & E2 & Henv2 & Hl2 & [[F2 C2]|[F2 N2]]);
    rewrite E2, F2; rewrite Henv1, Hl1, <- app_assoc in *.
  2:{ exists r2, w2. split; [reflexivity|]. split; [congruence|].
      right. split; [exact F2|]. intros (_ & H & _). exact (N2 H). }
  destruct (verify_device_state_decides d w2)
    as (r3 & w3 & E3 & Henv3 & Hl3 & [[F3 C3]|[F3 N3]]);
    rewrite E3, F3; rewrite Henv2, Hl2, <- app_assoc in *.
  2:{ exists r3, w3. split; [reflexivity|]. split; [congruence|].
      right. split; [exact F3|]. intros (_ & _ & H & _). exact (N3 H). }
  destruct (check_critical_partitions_decides d w3)
    as (r4 & w4 & E4 & Henv4 & Hl4 & [[F4 C4]|[F4 N4]]);
    rewrite E4, F4; rewrite Henv3, Hl3, <- app_assoc in *.
  2:{ exists r4, w4. split; [reflexivity|]. split; [congruence|].
      right. split; [exact F4|]. intros (_ & _ & _ & H & _). exact (N4 H). }
  destruct (check_backup_availability_decides d w4)
    as (r5 & w5 & E5 & Henv5 & Hl5 & [[F5 C5]|[F5 N5]]);
    rewrite E5, F5; rewrite Henv4, Hl4, <- app_assoc in *.
  2:{ exists r5, w5. split; [reflexivity|]. split; [congruence|].
      right. split; [exact F5|]. intros (_ & _ & _ & _ & H). exact (N5 H). }
  exists all_passed, w5. split; [reflexivity|]. split; [congruence|].
  left. split; [reflexivity|]. auto.
Qed.

(** X6. The gate is sound and complete for its five conditions.
    [check_safety] returns "All safety checks passed" exactly when the
    battery reads at least 20, the serial is in the device list, the
    state equals the expected one, every critical partition is listed
    and the free space is at least 2520 MB, each read off the answer to
    the stage's own command; otherwise its result has safe false. *)
Theorem check_safety_sound_complete (d : device_info) (w : world) :
  exists r w',
    check_safety initial d w = (Val r, w') /\
    env w' = env w /\
    ((r = all_passed /\ gate_holds d w) \/
     (stage_fails r = true /\ ~ gate_holds d w)).
Proof.
  exact (gate_decides d w).
Qed.

(** X7. The partition check names the first missing partition: when
    the listing succeeds, every critical partition before [q] in the
    canonical order is listed and [q] is not, the result is
    "Critical partition not found: q". *)
Theorem critical_partition_first_missing
    (d : device_info) (w : world) (r : completed) (pre post : list string) (q : string) :
  device (env w) (log w ++ [listing_command]) = Completes r ->
  returncode r = 0 ->
  critical_partitions initial = (pre ++ q :: post)%list ->
  (forall p, In p pre -> In p (PyStr.split (stdout r))) ->
  ~ In q (PyStr.split (stdout r)) ->
  fst (_check_critical_partitions initial d w)
    = Val (unsafe ("Critical partition not found: " ++ q)).
Proof.
  intros Hdev Hrc Hcrit Hpre Hq.
  unfold _check_critical_partitions, try_except, bind, Sys.subprocess_run, ret.
  fold listing_command. cbv zeta. cbn [log set_log env].
  rewrite Hdev. cbn [returncode stdout]. rewrite Hrc. cbn [Z.eqb negb].
  assert (first_missing (critical_partitions initial) (PyStr.split (stdout r)) = Some q)
    as ->.
  { apply first_missing_some. eauto. }
  reflexivity.
Qed.

Lemma critical_partition_first_missing_witness :
  fst (_check_critical_partitions initial Scenario.device_x Scenario.few_partitions)
    = Val (unsafe ("Critical partition not found: " ++ "persist")).
Proof.
  apply (critical_partition_first_missing Scenario.device_x Scenario.few_partitions
           (Completed 0 "nvram boot" "") ["nvram"; "boot"]
           ["security"; "userdata"; "system"] "persist").
  - reflexivity.
  - reflexivity.
  - reflexivity.
  - intros p [<-|[<-|[]]]; vm_compute; auto.
  - vm_compute. intros [H|[H|[]]]; discriminate.
Defined.

Lemma check_recovery_possible_exact (self : t) (w : world) :
  exists b w',
    _check_recovery_possible self w = (Val b, w') /\
    fs w' = fs w /\ env w' = env w /\
    ((device_listed w /\
      new_commands w w' = [devices_command; reboot_recovery] /\
      (b = true <-> reboot_accepted w)) \/
     (~ device_listed w /\ new_commands w w' = [devices_command] /\ b = false)).
Proof.
  unfold _check_recovery_possible, try_except, bind, Sys.subprocess_run, ret,
    device_listed, reboot_accepted, new_commands, set_fs, set_log.
  fold devices_command reboot_recovery. cbv zeta. cbn [log env fs].
  destruct (device (env w) (log w ++ [devices_command])) as [r1|e1] eqn:E1.
  2:{ eexists _, _. split; [reflexivity|]. split; [reflexivity|]. split; [reflexivity|].
      right. split; [intros (r & Hr & _); discriminate|].
      split; [|reflexivity]. cbn [log]. apply drop_app_length. }
  cbn [log env fs].
  destruct (PyStr.contains "device" (stdout r1)) eqn:Hc; cbn [negb].
  2:{ eexists _, _. split; [reflexivity|]. split; [reflexivity|]. split; [reflexivity|].
      right. split; [intros (r & Hr & Hr'); congruence|].
      split; [|reflexivity]. cbn [log]. apply drop_app_length. }
  cbn [log env fs]. rewrite <- app_assoc. cbn [app].
  destruct (device (env w) (log w ++ [devices_command; reboot_recovery])) as [r2|e2] eqn:E2.
  - eexists _, _. split; [reflexivity|]. split; [reflexivity|]. split; [reflexivity|].
    left. split; [eauto|]. split; [cbn [log]; apply drop_app_length|].
    split.
    + intros H. exists r2. split; [reflexivity|]. apply Z.eqb_eq, H.
    + intros (r & Hr & Hrc). injection Hr as <-. apply Z.eqb_eq, Hrc.
  - eexists _, _. split; [reflexivity|]. split; [reflexivity|]. split; [reflexivity|].
    left. split; [eauto|]. split; [cbn [log]; apply drop_app_length|].
    split; [discriminate|]. intros (r & Hr & _). discriminate.
Qed.

(** X8. Reporting a fault reboots the device. [handle_error] never
    raises and changes no local file; it lists the devices and, exactly
    when the list mentions the word "device", also issues
    [adb reboot recovery]. Its result says recovery is possible exactly
    when that reboot was issued and exited with code 0. *)
Theorem handle_error_probes_recovery (self : t) (e : exn) (w : world) :
  exists b w',
    handle_error self e w = (Val (error_result e b), w') /\
    fs w' = fs w /\ env w' = env w /\
    ((device_listed w /\
      new_commands w w' = [devices_command; reboot_recovery] /\
      (b = true <-> reboot_accepted w)) \/
     (~ device_listed w /\ new_commands w w' = [devices_command] /\ b = false)).
Proof.
  destruct (check_recovery_possible_exact self w) as (b & w' & E & H).
  exists b, w'. split; [|exact H].
  unfold handle_error, bind, Sys.logging_error, ret. rewrite E. reflexivity.
Qed.

(** X9. The header of the device list is enough for the reboot: when
    the answer to [adb devices] begins with "List of devices attached",
    as it does with no device attached, [_handle_backup_error] still
    issues [adb reboot recovery]. *)
Theorem backup_error_reboots_on_header
    (self : t) (e : exn) (w : world) (r : completed) (rest : string) :
  device (env w) (log w ++ [devices_command]) = Completes r ->
  stdout r = "List of devices attached" ++ rest ->
  new_commands w (snd (_handle_backup_error self e w))
    = [devices_command; reboot_recovery].
Proof.
  intros Hdev Hout.
  destruct (check_recovery_possible_exact self w)
    as (b & w' & E & _ & _ & [(_ & Hlog & _)|(Hno & _)]).
  - unfold _handle_backup_error, bind, Sys.logging_error, ret, Sys.now. rewrite E.
    exact Hlog.
  - exfalso. apply Hno. exists r. split; [exact Hdev|]. rewrite Hout. reflexivity.
Qed.

Lemma backup_error_reboots_on_header_witness :
  new_commands Scenario.nothing_attached
    (snd (_handle_backup_error initial (Exception "OSError" "disk full") Scenario.nothing_attached))
    = [devices_command; reboot_recovery].
Proof.
  apply (backup_error_reboots_on_header initial (Exception "OSError" "disk full")
           Scenario.nothing_attached
           (Completed 0 ("List of devices attached" ++ String "010" "") "")
           (String "010" "")); reflexivity.
Defined.

End SafetyGateMore.

(** ** The device manager: verification and command sequences *)

Section DeviceManagerMore.

Import MTKDeviceManager.

Lemma verify_device_effect (self : t) (d : device_info) (w : world) :
  exists r w',
    verify_device self d w = (Val r, w') /\
    fs w' = fs w /\ env w' = env w /\
    current_report w' = current_report w /\ ticks w' = ticks w /\
    (log w' = log w \/ log w' = (log w ++ [devices_command])%list) /\
    ((r = [("verified", VBool true);
           ("message", VStr "Device verified successfully");
           ("device_info", Dict.of_info d)] /\
      current_device w' = Some d /\ device_verifiable self d w) \/
     (Dict.get r "verified" = Some (VBool false) /\
      current_device w' = current_device w /\ ~ device_verifiable self d w)).
Proof.
  unfold verify_device, _verify_connection, _adb_exists, Sys.on_path, try_except, bind,
    Sys.subprocess_run, Sys.logging_error, lift, raise, ret, device_verifiable,
    set_fs, set_log, set_current_device.
  fold devices_command. cbv zeta. cbn [log env fs].
  destruct (_verify_chipset self (Dict.get d "chipset")) eqn:Hchip; cbn [negb].
  2:{ eexists _, _. split; [reflexivity|]. split; [reflexivity|]. split; [reflexivity|].
      split; [reflexivity|]. split; [reflexivity|]. split; [auto|].
      right. split; [reflexivity|]. split; [reflexivity|].
      intros ((c & Hc & Hin) & _). unfold _verify_chipset in Hchip. rewrite Hc in Hchip.
      apply str_in_In in Hin. congruence. }
  assert (exists c, Dict.get d "chipset" = Some c /\ In c (supported_chipsets self))
    as Hsup.
  { unfold _verify_chipset in Hchip. destruct (Dict.get d "chipset") as [c|]; [|discriminate].
    exists c. split; [reflexivity|]. apply str_in_In, Hchip. }
  destruct (which (env w) "adb") eqn:Hadb; cbn [negb]; cbv beta iota.
  2:{ eexists _, _. split; [reflexivity|]. split; [reflexivity|]. split; [reflexivity|].
      split; [reflexivity|]. split; [reflexivity|]. split; [auto|].
      right. split; [reflexivity|]. split; [reflexivity|].
      intros (_ & H & _). discriminate. }
  destruct (device (env w) (log w ++ [devices_command])) as [r|e] eqn:Hdev;
    cbn [log env fs]; cbv beta iota.
  2:{ destruct (is_timeout e);
        (eexists _, _; split; [reflexivity|]; split; [reflexivity|]; split; [reflexivity|];
         split; [reflexivity|]; split; [reflexivity|]; split; [auto|];
         right; split; [reflexivity|]; split; [reflexivity|];
         intros (_ & _ & r & serial & H & _); discriminate). }
  destruct (returncode r =? 0) eqn:Hrc; cbn [negb]; cbv beta iota.
  2:{ eexists _, _. split; [reflexivity|]. split; [reflexivity|]. split; [reflexivity|].
      split; [reflexivity|]. split; [reflexivity|]. split; [auto|].
      right. split; [reflexivity|]. split; [reflexivity|].
      intros (_ & _ & r' & serial & H & Hz & _). injection H as <-.
      rewrite Hz in Hrc. discriminate. }
  apply Z.eqb_eq in Hrc.
  destruct (Dict.get d "serial") as [serial|] eqn:Hserial; cbv beta iota.
  2:{ cbn [is_timeout exn_class TypeError String.eqb Ascii.eqb Bool.eqb].
      cbv beta iota.
      eexists _, _. split; [reflexivity|]. split; [reflexivity|]. split; [reflexivity|].
      split; [reflexivity|]. split; [reflexivity|]. split; [auto|].
      right. split; [reflexivity|]. split; [reflexivity|].
      intros (_ & _ & r' & serial & _ & _ & H & _). discriminate. }
  destruct (PyStr.contains serial (stdout r)) eqn:Hcont; cbn [negb]; cbv beta iota.
  - eexists _, _. split; [reflexivity|]. split; [reflexivity|]. split; [reflexivity|].
      split; [reflexivity|]. split; [reflexivity|]. split; [auto|].
    left. split; [reflexivity|]. split; [reflexivity|].
    split; [exact Hsup|]. split; [reflexivity|]. exists r, serial. auto.
  - eexists _, _. split; [reflexivity|]. split; [reflexivity|]. split; [reflexivity|].
      split; [reflexivity|]. split; [reflexivity|]. split; [auto|].
    right. split; [reflexivity|]. split; [reflexivity|].
    intros (_ & _ & r' & serial' & H & _ & Hs & Hc). injection H as <-.
    injection Hs as <-. congruence.
Qed.

(** X10. [verify_device] decides whether the device can be verified.
    It never raises and changes no file; it answers verified true, and
    records the device as the current one, exactly when the chipset is
    supported, adb is on the path and the device list, obtained with
    exit code 0, contains the serial. Otherwise it answers verified
    false and the current device stays as it was. *)
Theorem verify_device_exact (self : t) (d : device_info) (w : world) :
  exists r w',
    verify_device self d w = (Val r, w') /\
    fs w' = fs w /\ env w' = env w /\
    ((Dict.get r "verified" = Some (VBool true) /\
      current_device w' = Some d /\ device_verifiable self d w) \/
     (Dict.get r "verified" = Some (VBool false) /\
      current_device w' = current_device w /\ ~ device_verifiable self d w)).
Proof.
  destruct (verify_device_effect self d w)
    as (r & w' & E & Hfs & Henv & _ & _ & _ & [(-> & Hcur & Hv)|(Hr & Hcur & Hv)]);
    eexists _, w'; (split; [exact E|]); (split; [exact Hfs|]); (split; [exact Henv|]).
  - left. split; [reflexivity|]. auto.
  - right. auto.
Qed.

Lemma execute_command_effect (self : t) (cmd : string) (w : world) :
  exists r w',
    _execute_command self cmd w = (Val r, w') /\
    env w' = env w /\
    Dict.get r "status" = None /\
    ((tool_missing cmd w /\ w' = w /\ Dict.get r "success" = Some (VBool false)) \/
     (~ tool_missing cmd w /\ log w' = (log w ++ [PyStr.split cmd])%list /\
      ((exists out, command_succeeds cmd w out /\
                    r = [("success", VBool true); ("stdout", VStr (PyStr.strip out))]) \/
       (Dict.get r "success" = Some (VBool false) /\
        ~ exists out, command_succeeds cmd w out)))).
Proof.
  unfold _execute_command, _adb_exists, _fastboot_exists, Sys.on_path, try_except, bind,
    Sys.subprocess_run, ret, tool_missing, command_succeeds.
  cbv zeta.
  destruct (PyStr.contains "adb" cmd) eqn:Ha;
    [destruct (which (env w) "adb") eqn:Hwa|]; cbn [negb]; cbv beta iota.
  2:{ eexists _, _. split; [reflexivity|]. split; [reflexivity|]. split; [reflexivity|].
      left. split; [left; auto|]. split; reflexivity. }
  all: destruct (PyStr.contains "fastboot" cmd) eqn:Hf;
    [destruct (which (env w) "fastboot") eqn:Hwf|]; cbn [negb]; cbv beta iota.
  all: try (eexists _, _; (split; [reflexivity|]); (split; [reflexivity|]);
            (split; [reflexivity|]);
            left; (split; [right; auto|]); split; reflexivity).
  all: assert (~ ((true = true /\ true = false) \/ (true = true /\ true = false)))
         as N1 by (intros [[_ H]|[_ H]]; discriminate);
       assert (~ ((true = true /\ true = false) \/ (false = true /\ which (env w) "fastboot" = false)))
         as N2 by (intros [[_ H]|[H _]]; discriminate);
       assert (~ ((false = true /\ which (env w) "adb" = false) \/ (true = true /\ true = false)))
         as N3 by (intros [[H _]|[_ H]]; discriminate);
       assert (~ ((false = true /\ which (env w) "adb" = false) \/
                  (false = true /\ which (env w) "fastboot" = false)))
         as N4 by (intros [[H _]|[H _]]; discriminate).
  all: unfold set_fs, set_log; cbn [log env fs];
    destruct (device (env w) (log w ++ [PyStr.split cmd])) as [c|e] eqn:Hdev;
    cbn [log env fs]; cbv beta iota.
  all: try (destruct (is_timeout e);
            eexists _, _; (split; [reflexivity|]); (split; [reflexivity|]);
            (split; [reflexivity|]);
            right; (split; [assumption|]); (split; [reflexivity|]);
            right; (split; [reflexivity|]); intros (out & c & H & _); discriminate).
  all: destruct (returncode c =? 0) eqn:Hrc; cbn [negb]; cbv beta iota;
    eexists _, _; (split; [reflexivity|]); (split; [reflexivity|]);
    (split; [reflexivity|]);
    right; (split; [assumption|]); (split; [reflexivity|]).
  all: try (left; exists (stdout c); (split; [|reflexivity]);
            exists c; (split; [reflexivity|]); split; [apply Z.eqb_eq, Hrc|reflexivity]).
  all: right; (split; [reflexivity|]);
    intros (out & c' & H & Hz & _); injection H as <-; rewrite Hz in Hrc; discriminate.
Qed.

Lemma command_loop_effect (self : t) (commands : list string) (w : world) :
  exists w',
    env w' = env w /\
    ((command_loop self commands w = (Val (Next tt), w') /\
      log w' = (log w ++ map PyStr.split commands)%list) \/
     (exists pre cmd post r w1 tr,
        commands = (pre ++ cmd :: post)%list /\
        command_loop self commands w = (Val (Return r), w') /\
        _execute_command self cmd w1 = (Val r, w') /\
        env w1 = env w /\
        log w1 = (log w ++ map PyStr.split pre)%list /\
        Dict.get r "success" = Some (VBool false) /\
        Dict.get r "status" = None /\
        log w' = (log w1 ++ tr)%list /\
        (tr = [] \/ tr = [PyStr.split cmd]))).
Proof.
  revert w. induction commands as [|cmd rest IH]; intros w.
  { exists w. split; [reflexivity|]. left. split; [reflexivity|].
    symmetry. apply app_nil_r. }
  cbn [command_loop]. unfold bind, lift.
  destruct (execute_command_effect self cmd w)
    as (r & w1 & E & Henv & Hstatus &
        [(_ & -> & Hfail)|(_ & Hlog & [(out & _ & ->)|(Hfail & _)])]);
    rewrite E.
  - unfold Dict.index. rewrite Hfail. cbn [truthy negb].
    exists w. split; [reflexivity|]. right.
    exists [], cmd, rest, r, w, []. cbn [app map].
    rewrite !app_nil_r. repeat (split; [reflexivity || assumption|]). left. reflexivity.
  - change (Dict.index [("success", VBool true); ("stdout", VStr (PyStr.strip out))]
              "success") with (@Val pyval (VBool true)).
    cbn [truthy negb].
    destruct (IH w1) as (w' & Henv' & [[E' Hlog']|
      (pre & c & post & r & w2 & tr & -> & E' & Ec & Henv2 & Hl2 & Hf & Hs & Hl' & Htr)]).
    + exists w'. split; [congruence|]. left. split; [exact E'|].
      rewrite Hlog', Hlog, <- app_assoc. reflexivity.
    + exists w'. split; [congruence|]. right.
      exists (cmd :: pre), c, post, r, w2, tr.
      split; [reflexivity|]. split; [exact E'|]. split; [exact Ec|].
      split; [congruence|]. split.
      { rewrite Hl2, Hlog, <- app_assoc. reflexivity. }
      auto.
  - unfold Dict.index. rewrite Hfail. cbn [truthy negb].
    exists w1. split; [exact Henv|]. right.
    exists [], cmd, rest, r, w, [PyStr.split cmd]. cbn [app map].
    rewrite !app_nil_r. repeat (split; [reflexivity || assumption|]). right. reflexivity.
Qed.

(** X11. [_execute_command] never raises. When a tool its text
    mentions is not on the path it runs nothing and leaves the world
    as it was; otherwise it runs the one command [cmd.split()]. Its
    result has success true, with the stripped output, exactly when
    the command was run and exited with code 0. *)
Theorem execute_command_exact (self : t) (cmd : string) (w : world) :
  exists r w',
    _execute_command self cmd w = (Val r, w') /\
    env w' = env w /\
    Dict.get r "status" = None /\
    ((tool_missing cmd w /\ w' = w /\ Dict.get r "success" = Some (VBool false)) \/
     (~ tool_missing cmd w /\ log w' = (log w ++ [PyStr.split cmd])%list /\
      ((exists out, command_succeeds cmd w out /\
                    r = [("success", VBool true); ("stdout", VStr (PyStr.strip out))]) \/
       (Dict.get r "success" = Some (VBool false) /\
        ~ exists out, command_succeeds cmd w out)))).
Proof.
  exact (execute_command_effect self cmd w).
Qed.


(** X13. What [handle_meta_mode] does. It never raises and always
    asks the device state first. With no sequence for the chipset it
    answers "Unsupported chipset for Meta mode" and runs nothing else.
    Otherwise it runs the sequence: if a command does not succeed, that
    command's result is returned and nothing more is run; if all
    succeed it asks the state again and answers "Failed to enter Meta
    mode". *)
Theorem handle_meta_mode_trace (self : t) (d : device_info) (w : world) :
  exists r w',
    handle_meta_mode self d w = (Val r, w') /\
    env w' = env w /\
    match commands_for (meta_commands self) (Dict.get d "chipset") with
    | None => r = meta_unsupported /\ new_commands w w' = [state_query]
    | Some commands =>
        (r = meta_entry_failed /\
         new_commands w w'
           = (state_query :: map PyStr.split commands ++ [state_query])%list) \/
        (command_failure r /\
         exists run, new_commands w w' = state_query :: run /\
                     stopped_at commands run)
    end.
Proof.
  unfold handle_meta_mode, try_except, bind, ret. cbv zeta.
  destruct (get_device_state_cases self w) as (s & w1 & E & Hs & Henv & Hl & _).
  rewrite E.
  assert (DeviceState_eqb s META = false) as ->
    by (destruct s; try reflexivity; congruence).
  destruct (commands_for _ _) as [commands|].
  2:{ eexists _, _. split; [reflexivity|]. split; [exact Henv|].
      split; [reflexivity|]. unfold new_commands. rewrite Hl. apply drop_app_length. }
  destruct (command_loop_effect self commands w1) as (w2 & Henv2 & [[E2 Hl2]|
    (pre & cmd & post & r & w1' & tr & -> & E2 & _ & _ & Hl1 & Hf & Hst & Hl' & Htr)]);
    rewrite E2.
  - destruct (get_device_state_cases self w2) as (s2 & w3 & E3 & Hs2 & Henv3 & Hl3 & _).
    rewrite E3.
    assert (DeviceState_eqb s2 META = false) as ->
      by (destruct s2; try reflexivity; congruence).
    cbn [negb]. eexists _, _. split; [reflexivity|]. split; [congruence|].
    left. split; [reflexivity|].
    unfold new_commands. rewrite Hl3, Hl2, Hl, <- !app_assoc. apply drop_app_length.
  - eexists _, _. split; [reflexivity|]. split; [congruence|].
    right. split; [split; assumption|].
    exists (map PyStr.split pre ++ tr)%list. split.
    + unfold new_commands. rewrite Hl', Hl1, Hl, <- !app_assoc. apply drop_app_length.
    + exists pre, cmd, post, tr. auto.
Qed.

(** X14. What [handle_frp] can answer. It never raises, and its result
    is the success, or has status "error", or is the result of a
    command of the chipset's sequence that did not succeed: that one
    has no status at all, and no command after it was run. Before the
    sequence only adb queries are run. *)
Theorem handle_frp_result_shape (self : t) (d : device_info) (w : world) :
  exists r w',
    handle_frp self d w = (Val r, w') /\
    env w' = env w /\
    (r = frp_removed \/
     Dict.get r "status" = Some (VStr "error") \/
     (command_failure r /\
      exists commands before run,
        commands_for (frp_commands self) (Dict.get d "chipset") = Some commands /\
        new_commands w w' = (before ++ run)%list /\
        Forall (fun c => head c = Some "adb") before /\
        stopped_at commands run)).
Proof.
  rewrite handle_frp_unfold.
  destruct (verify_frp_safety_cases self d w)
    as (safe & w1 & tr & E & Henv & Hl & Hadb & _).
  rewrite E. destruct safe; cbn [negb].
  2:{ eexists _, _. split; [reflexivity|]. split; [exact Henv|].
      right. left. reflexivity. }
  destruct (commands_for _ _) as [commands|] eqn:Hc.
  2:{ eexists _, _. split; [reflexivity|]. split; [exact Henv|].
      right. left. reflexivity. }
  destruct (command_loop_effect self commands w1) as (w2 & Henv2 & [[E2 Hl2]|
    (pre & cmd & post & r & w1' & tr' & -> & E2 & _ & _ & Hl1 & Hf & Hst & Hl' & Htr)]);
    rewrite E2.
  - unfold _verify_frp_removal, try_except, bind, raise, ret.
    destruct (execute_command_effect self "fastboot getvar frp" w2)
      as (r & w3 & E3 & Henv3 & _).
    rewrite E3.
    destruct (Dict.get_default r "stdout" (VStr "")) as [| | |out| |];
      try (eexists _, _; split; [reflexivity|]; split; [congruence|];
           right; left; reflexivity).
    destruct (PyStr.contains "empty" (PyStr.lower out)); cbn [negb];
      eexists _, _; (split; [reflexivity|]); (split; [congruence|]).
    + left. reflexivity.
    + right. left. reflexivity.
  - eexists _, _. split; [reflexivity|]. split; [congruence|].
    right. right. split; [split; assumption|].
    exists (pre ++ cmd :: post)%list, tr, (map PyStr.split pre ++ tr')%list.
    split; [reflexivity|]. split.
    { unfold new_commands. rewrite Hl', Hl1, Hl, <- !app_assoc. apply drop_app_length. }
    split; [exact Hadb|]. exists pre, cmd, post, tr'. auto.
Qed.

(** X15. The three tables agree: a chipset passes [_verify_chipset]
    exactly when it has a Meta sequence, and exactly when it has an FRP
    sequence. A device that has been verified is never answered
    "Unsupported chipset" by either handler. *)
Theorem supported_chipset_has_sequences (chipset : option string) :
  (_verify_chipset initial chipset = true <->
   is_Some (commands_for (meta_commands initial) chipset)) /\
  (_verify_chipset initial chipset = true <->
   is_Some (commands_for (frp_commands initial) chipset)).
Proof.
  unfold _verify_chipset, commands_for.
  destruct chipset as [c|].
  2:{ split; split; intros H; try discriminate; destruct H; discriminate. }
  unfold initial, supported_chipsets, meta_commands, frp_commands, str_in.
  cbn [existsb Dict.get].
  rewrite !(String.eqb_sym c).
  destruct (PyStr.is_empty c) eqn:Hempty.
  { destruct c; [|discriminate]. cbn.
    split; split; intros H; try discriminate; destruct H; discriminate. }
  repeat match goal with
         | |- context [String.eqb ?k c] => destruct (String.eqb k c)
         end;
    cbn [orb]; split; split; intros H; eauto; try discriminate;
    destruct H; discriminate.
Qed.

Lemma verify_connection_effect (self : t) (d : device_info) (w : world) :
  exists c w',
    _verify_connection self d w = (Val c, w') /\
    same_state w w' /\
    ((c = [("connected", VBool true)] /\
      which (env w) "adb" = true /\
      exists r serial,
        device (env w) (log w ++ [devices_command]) = Completes r /\
        returncode r = 0 /\
        Dict.get d "serial" = Some serial /\
        PyStr.contains serial (stdout r) = true) \/
     (Dict.get c "connected" = Some (VBool false) /\
      ~ (which (env w) "adb" = true /\
         exists r serial,
           device (env w) (log w ++ [devices_command]) = Completes r /\
           returncode r = 0 /\
           Dict.get d "serial" = Some serial /\
           PyStr.contains serial (stdout r) = true))).
Proof.
  unfold _verify_connection, _adb_exists, Sys.on_path, try_except, bind,
    Sys.subprocess_run, raise, ret, same_state, set_fs, set_log.
  fold devices_command. cbv zeta. cbn [log env fs].
  destruct (which (env w) "adb") eqn:Hadb; cbn [negb]; cbv beta iota.
  2:{ eexists _, _. split; [reflexivity|]. split; [auto 10|].
      right. split; [reflexivity|]. intros (H & _). discriminate. }
  destruct (device (env w) (log w ++ [devices_command])) as [r|e] eqn:Hdev;
    cbn [log env fs]; cbv beta iota.
  2:{ destruct (is_timeout e);
        (eexists _, _; split; [reflexivity|]; split; [cbn; auto 10|];
         right; split; [reflexivity|];
         intros (_ & r & serial & H & _); discriminate). }
  destruct (returncode r =? 0) eqn:Hrc; cbn [negb]; cbv beta iota.
  2:{ eexists _, _. split; [reflexivity|]. split; [cbn; auto 10|].
      right. split; [reflexivity|].
      intros (_ & r' & serial & H & Hz & _). injection H as <-.
      rewrite Hz in Hrc. discriminate. }
  apply Z.eqb_eq in Hrc.
  destruct (Dict.get d "serial") as [serial|] eqn:Hserial; cbv beta iota.
  2:{ cbn [is_timeout exn_class TypeError String.eqb Ascii.eqb Bool.eqb].
      cbv beta iota.
      eexists _, _. split; [reflexivity|]. split; [cbn; auto 10|].
      right. split; [reflexivity|].
      intros (_ & r' & serial & _ & _ & H & _). discriminate. }
  destruct (PyStr.contains serial (stdout r)) eqn:Hcont; cbn [negb]; cbv beta iota.
  - eexists _, _. split; [reflexivity|]. split; [cbn; auto 10|].
    left. split; [reflexivity|]. split; [reflexivity|]. exists r, serial. auto.
  - eexists _, _. split; [reflexivity|]. split; [cbn; auto 10|].
    right. split; [reflexivity|].
    intros (_ & r' & serial' & H & _ & Hs & Hc). injection H as <-.
    injection Hs as <-. congruence.
Qed.

(** X29. The self-test agrees with the verification. [self_test]
    never raises, changes nothing but the list of commands run, and
    reports all_ok true exactly when [verify_device] would verify the
    device: the chipset is supported, adb is on the path and the device
    list, obtained with exit code 0, contains the serial. Whether
    fastboot is on the path is reported and plays no part in all_ok. *)
Theorem self_test_agrees_with_verification (self : t) (d : device_info) (w : world) :
  exists r w',
    self_test self d w = (Val r, w') /\
    same_state w w' /\
    Dict.get r "fastboot_exists" = Some (VBool (which (env w) "fastboot")) /\
    (Dict.get r "all_ok" = Some (VBool true) <-> device_verifiable self d w).
Proof.
  unfold self_test, _adb_exists, _fastboot_exists, Sys.on_path, bind, ret,
    device_verifiable.
  cbv zeta.
  destruct (verify_connection_effect self d w) as (c & w' & E & Hk & Hc).
  rewrite E. eexists _, _. split; [reflexivity|]. split; [exact Hk|].
  split; [reflexivity|].
  cbn [Dict.set Dict.get List.filter forallb fst snd str_in existsb negb orb andb
       String.eqb Ascii.eqb Bool.eqb].
  assert (_verify_chipset self (Dict.get d "chipset") = true <->
          exists ch, Dict.get d "chipset" = Some ch /\ In ch (supported_chipsets self))
    as Hchip.
  { unfold _verify_chipset. destruct (Dict.get d "chipset") as [ch|].
    - rewrite str_in_In. split; [eauto|]. intros (ch' & [= <-] & H). exact H.
    - split; [discriminate|]. intros (ch' & H & _). discriminate. }
  destruct (_verify_chipset self (Dict.get d "chipset")); cbn [check_passes andb].
  - destruct Hc as [(-> & Hadb & Hdev)|(Hconn & Hno)].
    + cbn. split; [|reflexivity]. intros _. split; [apply Hchip; reflexivity|]. auto.
    + unfold Dict.get_default. rewrite Hconn. cbn [truthy andb]. split; [discriminate|].
      intros (_ & Hadb & Hdev). exfalso. apply Hno. auto.
  - split; [discriminate|]. intros (H & _). apply Hchip in H. discriminate.
Qed.

End DeviceManagerMore.

(** ** The report manager *)

Section ReportsMore.

Import MTKReportManager.

Lemma get_report_path_frame (current : dict) (w : world) :
  snd (_get_report_path current w) = set_ticks (S (ticks w)) w.
Proof.
  unfold _get_report_path, bind, Sys.now, lift, ret.
  repeat (case_match; simplify_eq/=); reflexivity.
Qed.

Lemma finalize_report_effect (operation_result : dict) (w : world) :
  exists r w',
    finalize_report operation_result w = (Val r, w') /\
    log w' = log w /\ env w' = env w /\ current_device w' = current_device w /\
    (current_report w' = None \/ current_report w' = Some []) /\
    (Dict.get r "status" = Some (VStr "success") \/
     Dict.get r "status" = Some (VStr "error")).
Proof.
  unfold finalize_report, bind, get_current_report.
  destruct (current_report w) as [[|entry current]|] eqn:Hcur.
  - eexists _, _. split; [reflexivity|]. rewrite Hcur. auto 10.
  - cbv zeta.
    generalize (Dict.set
                  (Dict.set (entry :: current) "status"
                     (Dict.get_default operation_result "status" (VStr "unknown")))
                  "result" (VDict operation_result)).
    intros cur. unfold try_finally, try_except, bind, put_current_report.
    pose proof (get_report_path_frame cur (set_current_report (Some cur) w)) as Hp.
    destruct (_get_report_path cur (set_current_report (Some cur) w)) as [[path|e] w1].
    2:{ cbn [snd] in Hp. subst w1. eexists _, _. split; [reflexivity|]. auto 10. }
    cbn [snd] in Hp. subst w1.
    unfold _save_json_report, _generate_pdf_report, Sys.write_json, Sys.logging_error, ret.
    repeat (case_match; simplify_eq/=);
      eexists _, _; (split; [reflexivity|]); auto 10.
  - eexists _, _. split; [reflexivity|]. rewrite Hcur. auto 10.
Qed.

(** X16. [finalize_report] closes the report whatever happens. It
    never raises, runs no command and answers with status "success" or
    "error"; after it no report is active, so that a further call
    answers "No active report" and changes nothing. *)
Theorem finalize_report_closes (operation_result : dict) (w : world) :
  exists r w',
    finalize_report operation_result w = (Val r, w') /\
    log w' = log w /\ env w' = env w /\
    (Dict.get r "status" = Some (VStr "success") \/
     Dict.get r "status" = Some (VStr "error")) /\
    forall again, finalize_report again w' = (Val no_active_report, w').
Proof.
  destruct (finalize_report_effect operation_result w)
    as (r & w' & E & Hlog & Henv & _ & Hcur & Hr).
  exists r, w'. split; [exact E|]. split; [exact Hlog|]. split; [exact Henv|].
  split; [exact Hr|]. intros again.
  unfold finalize_report, bind, get_current_report.
  destruct Hcur as [-> | ->]; reflexivity.
Qed.

Lemma get_of_info (d : device_info) (k : string) :
  Dict.get (map (fun kv => (fst kv, VStr (snd kv))) d) k = option_map VStr (Dict.get d k).
Proof.
  induction d as [|[k' v] d IH]; [reflexivity|].
  cbn [map Dict.get fst snd]. destruct (String.eqb k' k); [reflexivity|exact IH].
Qed.

Lemma get_report_path_closed (op : string) (d : device_info) (t : instant)
    (result : dict) (w : world) :
  _get_report_path (closed_report op d t result) w
    = (Val (report_base op d (opened_at w)), set_ticks (S (ticks w)) w).
Proof.
  unfold _get_report_path, bind, Sys.now, lift, ret, closed_report, report_base, opened_at.
  change (Dict.index _ "operation_type") with (@Val pyval (VStr op)).
  change (Dict.index _ "device_info") with (@Val pyval (Dict.of_info d)).
  cbv beta iota. unfold py_get, Dict.of_info, Dict.get_default.
  rewrite get_of_info. destruct (Dict.get d "model"); reflexivity.
Qed.






(** X30. The self-test of the report manager leaves its dummy report
    active. [self_test] never raises and runs no command; whatever it
    finds, the report of the operation "self_test" is the current
    report afterwards. It reports all_ok true exactly when the reports
    directory exists, [fpdf] can be imported and neither path of the
    dummy report is taken by a directory. *)
Theorem self_test_leaves_report_active (w : world) :
  exists r w' dummy,
    self_test w = (Val r, w') /\
    log w' = log w /\ env w' = env w /\
    current_report w' = Some dummy /\
    Dict.get dummy "operation_type" = Some (VStr "self_test") /\
    (Dict.get r "all_ok" = Some (VBool true) <->
     is_Some (fs w !! reports_dir) /\
     fpdf_importable (env w) = true /\
     fs w !! (report_base "self_test" self_test_device (closed_at w) ++ ".json")
       <> Some Directory /\
     fs w !! (report_base "self_test" self_test_device (closed_at w) ++ ".pdf")
       <> Some Directory).
Proof.
  unfold self_test, _fpdf_available, Sys.path_exists, try_except, bind, Sys.now,
    put_current_report, ret.
  cbv zeta.
  change [("timestamp", VStr (isoformat (clock (env w) (ticks w))));
          ("operation_type", VStr "self_test");
          ("device_info", Dict.of_info self_test_device);
          ("steps", VList []);
          ("status", VStr "success");
          ("result", VDict [("status", VStr "success"); ("message", VStr "Self test")])]
    with (closed_report "self_test" self_test_device (opened_at w)
            [("status", VStr "success"); ("message", VStr "Self test")]).
  rewrite get_report_path_closed.
  unfold _save_json_report, _generate_pdf_report, Sys.write_json, opened_at, closed_at,
    set_current_report, set_ticks, set_fs.
  cbn [fs env log ticks current_report].
  assert (report_base "self_test" self_test_device (clock (env w) (S (ticks w))) ++ ".json"
          <> report_base "self_test" self_test_device (clock (env w) (S (ticks w))) ++ ".pdf")
    as Hne.
  { intros H. apply append_cancel in H. discriminate. }
  set (base := report_base "self_test" self_test_device (clock (env w) (S (ticks w)))) in *.
  repeat (first [case_bool_decide | case_match]; simplify_map_eq).
  all: cbn [fs env log ticks current_report].
  all: eexists _, _, _; (split; [reflexivity|]); (split; [reflexivity|]);
    (split; [reflexivity|]); (split; [reflexivity|]); (split; [reflexivity|]).
  all: try match goal with
           | H1 : ?b = true, H2 : negb ?b = true |- _ =>
               exfalso; rewrite H1 in H2; discriminate H2
           end.
  all: split;
    [ intros Hall;
      first [ vm_compute in Hall; discriminate Hall
            | repeat split; first [assumption | reflexivity | congruence] ]
    | intros (Hd & Hf & Hj & Hp);
      first [ reflexivity | contradiction | discriminate
            | exfalso; apply Hj; reflexivity
            | exfalso; apply Hp; reflexivity
            | exfalso; congruence ] ].
Qed.

End ReportsMore.

(** ** The orchestrator: what the two checks let through *)

Section OrchestratorMore.

Import MTKSafetySystem MTKDeviceManager MTKReportManager MTKTool.

Lemma same_state_refl (w : world) : same_state w w.
Proof. repeat split. Qed.

Lemma same_state_trans (w1 w2 w3 : world) :
  same_state w1 w2 -> same_state w2 w3 -> same_state w1 w3.
Proof.
  intros (? & ? & ? & ? & ?) (? & ? & ? & ? & ?). repeat split; congruence.
Qed.

Lemma keeps_ret {A} (a : A) : keeps (ret a).
Proof. intros w. apply same_state_refl. Qed.

Lemma keeps_raise {A} (e : exn) : keeps (@raise A e).
Proof. intros w. apply same_state_refl. Qed.

Lemma keeps_lift {A} (o : outcome A) : keeps (lift o).
Proof. intros w. apply same_state_refl. Qed.

Lemma keeps_bind {A B} (m : M A) (k : A -> M B) :
  keeps m -> (forall a, keeps (k a)) -> keeps (bind m k).
Proof.
  intros Hm Hk w. unfold bind. specialize (Hm w).
  destruct (m w) as [[a|e] w1]; cbn [snd] in *; [|exact Hm].
  apply (same_state_trans _ _ _ Hm), Hk.
Qed.

Lemma keeps_try_except {A} (m : M A) (h : exn -> M A) :
  keeps m -> (forall e, keeps (h e)) -> keeps (try_except m h).
Proof.
  intros Hm Hh w. unfold try_except. specialize (Hm w).
  destruct (m w) as [[a|e] w1]; cbn [snd] in *; [exact Hm|].
  apply (same_state_trans _ _ _ Hm), Hh.
Qed.

Lemma keeps_subprocess_run (argv : list string) :
  (forall r f, Sys.pulled argv r f = f) -> keeps (Sys.subprocess_run argv).
Proof.
  intros Hp w. unfold Sys.subprocess_run, set_fs, set_log. cbn [log env fs].
  destruct (device _ _); cbn [snd]; repeat split. cbn [fs]. apply Hp.
Qed.

Ltac keeps_step :=
  first [ apply keeps_try_except; [|intros ?]
        | apply keeps_bind; [|intros ?]
        | apply keeps_ret | apply keeps_raise | apply keeps_lift
        | apply keeps_subprocess_run; reflexivity
        | case_match ].

Lemma keeps_check_battery (d : device_info) : keeps (_check_battery MTKSafetySystem.initial d).
Proof. unfold _check_battery. repeat keeps_step. Qed.

Lemma keeps_check_connection (d : device_info) : keeps (_check_connection MTKSafetySystem.initial d).
Proof. unfold _check_connection. repeat keeps_step. Qed.

Lemma keeps_verify_device_state (d : device_info) :
  keeps (_verify_device_state MTKSafetySystem.initial d).
Proof. unfold _verify_device_state. cbv zeta. repeat keeps_step. Qed.

Lemma keeps_check_critical_partitions (d : device_info) :
  keeps (_check_critical_partitions MTKSafetySystem.initial d).
Proof. unfold _check_critical_partitions. cbv zeta. repeat keeps_step. Qed.

Lemma keeps_check_backup_availability (d : device_info) :
  keeps (_check_backup_availability MTKSafetySystem.initial d).
Proof.
  unfold _check_backup_availability, Sys.logging_error. cbv zeta. repeat keeps_step.
Qed.

Lemma keeps_first_failure (stages : list (device_info -> M dict)) (d : device_info) :
  Forall (fun stage => keeps (stage d)) stages -> keeps (first_failure stages d).
Proof.
  induction 1 as [|stage stages Hs _ IH]; cbn [first_failure]; [apply keeps_ret|].
  apply keeps_bind; [exact Hs|]. intros r. destruct (stage_fails r); [apply keeps_ret|exact IH].
Qed.

Lemma keeps_check_safety (d : device_info) : keeps (check_safety MTKSafetySystem.initial d).
Proof.
  intros w. rewrite check_safety_refines. revert w.
  apply keeps_first_failure. unfold gate_stages.
  repeat (apply List.Forall_cons; [|]); [..|apply List.Forall_nil].
  - apply keeps_check_battery.
  - apply keeps_check_connection.
  - apply keeps_verify_device_state.
  - apply keeps_check_critical_partitions.
  - apply keeps_check_backup_availability.
Qed.

Lemma check_safety_effect (d : device_info) (w : world) :
  exists r w' n,
    check_safety MTKSafetySystem.initial d w = (Val r, w') /\
    same_state w w' /\
    log w' = (log w ++ firstn n gate_commands)%list /\
    ((r = all_passed /\ n = length gate_commands /\ gate_holds d w) \/
     (stage_fails r = true /\ ~ gate_holds d w)).
Proof.
  destruct (gate_decides d w) as (r & w' & E & _ & Hcases).
  destruct (first_failure_runs _ _ gate_stages_run d w)
    as (r' & w1 & n & E1 & _ & Hl & _ & Hn).
  rewrite <- check_safety_refines, E in E1. injection E1 as <- <-.
  pose proof (keeps_check_safety d w) as Hk. rewrite E in Hk. cbn [snd] in Hk.
  exists r, w', n. split; [exact E|]. split; [exact Hk|]. split; [exact Hl|].
  destruct Hcases as [[-> Hg]|[F Hg]]; [left|right; auto].
  split; [reflexivity|]. split; [|exact Hg].
  destruct Hn as [[F _]|[_ Hn]]; [discriminate F|exact Hn].
Qed.

(** X19. No operation gets past a check that refuses. For every
    operation type, when the gate's conditions do not all hold, or the
    device cannot be verified after the gate, [start_operation] returns
    the refusing check's result, with safe false or verified false. It
    has run nothing but the gate's probes and at most the device list:
    no report is opened, no device recorded, no file touched. *)
Theorem start_operation_refused (operation_type : string) (d : device_info) (w : world) :
  ~ checks_pass d w ->
  exists r w' n tr,
    start_operation MTKTool.initial operation_type d w = (Val r, w') /\
    refusal r /\
    same_state w w' /\
    new_commands w w' = (firstn n gate_commands ++ tr)%list /\
    (tr = [] \/ tr = [devices_command]).
Proof.
  intros Hno. rewrite start_operation_unfold.
  change (safety_system MTKTool.initial) with MTKSafetySystem.initial.
  change (device_manager MTKTool.initial) with MTKDeviceManager.initial.
  unfold checks_pass in Hno.
  destruct (check_safety_effect d w) as (r & w1 & n & E & Hk & Hl & [(-> & _ & Hg)|[F _]]);
    rewrite E in *; cbn [snd] in Hno.
  2:{ rewrite (stage_fails_safe r F). cbn [truthy negb].
      exists r, w1, n, []. split; [reflexivity|]. split; [left; exact F|].
      split; [exact Hk|]. split; [|left; reflexivity].
      unfold new_commands. rewrite Hl, app_nil_r. apply drop_app_length. }
  change (Dict.index all_passed "safe") with (@Val pyval (VBool true)).
  cbn [truthy negb].
  destruct (verify_device_effect MTKDeviceManager.initial d w1)
    as (dc & w2 & E2 & Hfs & Henv & Hrep & Hticks & Hlog &
        [(_ & _ & Hv)|(V & Hdev & _)]).
  { exfalso. apply Hno. split; assumption. }
  rewrite E2. unfold Dict.index. rewrite V. cbn [truthy negb].
  assert (same_state w w2) as Hk2.
  { apply (same_state_trans _ _ _ Hk). repeat split; assumption. }
  destruct Hlog as [Hlog|Hlog].
  - exists dc, w2, n, []. split; [reflexivity|]. split; [right; exact V|].
    split; [exact Hk2|]. split; [|left; reflexivity].
    unfold new_commands. rewrite Hlog, Hl, app_nil_r. apply drop_app_length.
  - exists dc, w2, n, [devices_command]. split; [reflexivity|]. split; [right; exact V|].
    split; [exact Hk2|]. split; [|right; reflexivity].
    unfold new_commands. rewrite Hlog, Hl, <- app_assoc. apply drop_app_length.
Qed.

Lemma start_operation_refused_witness :
  exists r w' n tr,
    start_operation MTKTool.initial "backup" Scenario.device_x Scenario.low_battery
      = (Val r, w') /\
    refusal r /\
    same_state Scenario.low_battery w' /\
    new_commands Scenario.low_battery w' = (firstn n gate_commands ++ tr)%list /\
    (tr = [] \/ tr = [devices_command]).
Proof.
  apply (start_operation_refused "backup" Scenario.device_x Scenario.low_battery).
  intros [[(r & level & H1 & H2 & H3) _] _].
  vm_compute in H1. injection H1 as <-.
  vm_compute in H2. injection H2 as <-. lia.
Defined.

(** X20. [start_operation] never raises: for every operation type,
    device description and state of the world it returns a result. *)
Theorem start_operation_never_raises
    (operation_type : string) (d : device_info) (w : world) :
  exists r w', start_operation MTKTool.initial operation_type d w = (Val r, w').
Proof.
  rewrite start_operation_unfold.
  change (safety_system MTKTool.initial) with MTKSafetySystem.initial.
  change (device_manager MTKTool.initial) with MTKDeviceManager.initial.
  destruct (check_safety_effect d w) as (r & w1 & n & E & _ & _ & [(-> & _)|[F _]]);
    rewrite E.
  2:{ rewrite (stage_fails_safe r F). cbn [truthy negb]. eauto. }
  change (Dict.index all_passed "safe") with (@Val pyval (VBool true)).
  cbn [truthy negb].
  destruct (verify_device_effect MTKDeviceManager.initial d w1)
    as (dc & w2 & E2 & _ & _ & _ & _ & _ & [(-> & _)|(V & _)]); rewrite E2.
  2:{ unfold Dict.index. rewrite V. cbn [truthy negb]. eauto. }
  change (Dict.index _ "verified") with (@Val pyval (VBool true)).
  cbn [truthy negb].
  destruct (start_operation_report_total operation_type d w2) as (w3 & E3 & _).
  rewrite E3.
  destruct (_execute_operation MTKTool.initial operation_type d w3) as [[result|e] w4].
  - destruct (finalize_report_effect result w4) as (fr & w5 & E5 & _). rewrite E5. eauto.
  - destruct (handle_error_total MTKSafetySystem.initial e w4) as (b & w5 & tr & E5 & _).
    rewrite E5. eauto.
Qed.

(** X21. The handler's result is the operation's result. When both
    checks pass and the operation type names a handler that takes the
    device description alone, [start_operation] returns exactly what
    the handler returned; what [finalize_report] answers, success or
    error, is dropped. Nothing is run after the handler and no report
    stays active. *)
Theorem start_operation_returns_handler_result
    (operation_type : string) (d : device_info) (w : world)
    (safety_check : dict) (w1 : world) (device_check : dict) (w2 : world)
    (handler : device_info -> M dict) (r : dict) (w4 : world) :
  check_safety (safety_system MTKTool.initial) d w = (Val safety_check, w1) ->
  Dict.get safety_check "safe" = Some (VBool true) ->
  verify_device (device_manager MTKTool.initial) d w1 = (Val device_check, w2) ->
  Dict.get device_check "verified" = Some (VBool true) ->
  Dict.get (operations MTKTool.initial) operation_type = Some (Unary handler) ->
  handler d (snd (start_operation_report operation_type d w2)) = (Val r, w4) ->
  exists w5,
    start_operation MTKTool.initial operation_type d w = (Val r, w5) /\
    log w5 = log w4 /\ env w5 = env w4 /\
    (current_report w5 = None \/ current_report w5 = Some []).
Proof.
  intros E1 S E2 V Hop Hh.
  rewrite start_operation_unfold, E1. unfold Dict.index. rewrite S. cbn [truthy negb].
  rewrite E2, V. cbn [truthy negb].
  destruct (start_operation_report_total operation_type d w2) as (w3 & E3 & _).
  rewrite E3 in *. cbn [snd] in Hh.
  unfold _execute_operation. rewrite Hop. cbn [call1]. rewrite Hh.
  destruct (finalize_report_effect r w4) as (fr & w5 & E5 & Hl & Henv & _ & Hcur & _).
  rewrite E5. exists w5. auto.
Qed.

Lemma start_operation_returns_handler_result_witness :
  exists w5,
    start_operation MTKTool.initial "meta_mode" Scenario.device_x Scenario.ready
      = (Val meta_entry_failed, w5) /\
    log w5
      = log (snd (handle_meta_mode MTKDeviceManager.initial Scenario.device_x
                    (snd (start_operation_report "meta_mode" Scenario.device_x
                            (snd (verify_device MTKDeviceManager.initial Scenario.device_x
                                    (snd (check_safety MTKSafetySystem.initial
                                            Scenario.device_x Scenario.ready)))))))) /\
    env w5
      = env (snd (handle_meta_mode MTKDeviceManager.initial Scenario.device_x
                    (snd (start_operation_report "meta_mode" Scenario.device_x
                            (snd (verify_device MTKDeviceManager.initial Scenario.device_x
                                    (snd (check_safety MTKSafetySystem.initial
                                            Scenario.device_x Scenario.ready)))))))) /\
    (current_report w5 = None \/ current_report w5 = Some []).
Proof.
  apply (start_operation_returns_handler_result "meta_mode" Scenario.device_x
           Scenario.ready all_passed
           (snd (check_safety MTKSafetySystem.initial Scenario.device_x Scenario.ready))
           [("verified", VBool true);
            ("message", VStr "Device verified successfully");
            ("device_info", Dict.of_info Scenario.device_x)]
           (snd (verify_device MTKDeviceManager.initial Scenario.device_x
                   (snd (check_safety MTKSafetySystem.initial
                           Scenario.device_x Scenario.ready))))
           (handle_meta_mode MTKDeviceManager.initial)).
  - vm_compute. reflexivity.
  - reflexivity.
  - vm_compute. reflexivity.
  - reflexivity.
  - reflexivity.
  - vm_compute. reflexivity.
Defined.

End OrchestratorMore.

(** ** The restore manager *)

Section RestoreManager.

Import MTKRestoreManager.

Lemma get_filter_keys {V} (g : string -> bool) (l : list (string * V)) (k : string) :
  Dict.get (List.filter (fun kv => g (fst kv)) l) k
    = if g k then Dict.get l k else None.
Proof.
  induction l as [|[k' v'] l IH]; [destruct (g k); reflexivity|].
  cbn [List.filter fst]. destruct (g k') eqn:Hk'; cbn [Dict.get]; rewrite IH.
  - destruct (String.eqb_spec k' k) as [<-|_]; [rewrite Hk'|]; reflexivity.
  - destruct (g k) eqn:Hk; [|reflexivity].
    destruct (String.eqb_spec k' k) as [<-|_]; [congruence|reflexivity].
Qed.

Lemma check_available_restores_effect (self : t) (backup_path : string) (w : world) :
  exists available,
    _check_available_restores self backup_path w = (Val available, w) /\
    (In "1" available <-> is_Some (fs w !! (backup_path ++ "/network"))) /\
    (In "2" available <-> is_Some (fs w !! (backup_path ++ "/partition"))) /\
    (In "3" available <-> In "1" available /\ In "2" available) /\
    In "4" available.
Proof.
  unfold _check_available_restores, bind, ret, Sys.path_exists. cbv zeta.
  cbn [all_exist]. unfold bind, ret, Sys.path_exists.
  change ("/" ++ "network") with "/network".
  change ("/" ++ "partition") with "/partition".
  repeat (case_bool_decide; cbv beta iota);
    (eexists; split; [reflexivity|]); cbn [app In];
    intuition (try discriminate; try congruence).
Qed.

(** X22. The menu of restore options follows the files. With the
    backups root configured, [show_restore_options] reads only: it
    offers "1" exactly when the backup has a [network] entry, "2"
    exactly when it has a [partition] entry, "3" exactly when it offers
    both, and "4" always; each option keeps its description. *)
Theorem show_restore_options_follows_files
    (self : t) (backup_id root : string) (w : world) :
  Dict.get (paths (tool_manager self)) "backups" = Some root ->
  exists menu,
    show_restore_options self backup_id w = (Val menu, w) /\
    (offered menu "1" <-> is_Some (fs w !! (backup_dir root backup_id ++ "/network"))) /\
    (offered menu "2" <-> is_Some (fs w !! (backup_dir root backup_id ++ "/partition"))) /\
    (offered menu "3" <-> offered menu "1" /\ offered menu "2") /\
    Dict.get menu "4" = Some "Check before restore" /\
    (forall k v, Dict.get menu k = Some v -> Dict.get options k = Some v).
Proof.
  intros Hroot.
  unfold show_restore_options, backups_root, bind, lift, ret, offered.
  rewrite Hroot. cbv zeta. fold (backup_dir root backup_id).
  destruct (check_available_restores_effect self (backup_dir root backup_id) w)
    as (available & E & H1 & H2 & H3 & H4).
  rewrite E. eexists. split; [reflexivity|].
  rewrite !(get_filter_keys (fun k => str_in k available)).
  assert (forall k, In k available -> str_in k available = true) as Hin
    by (intros k; apply str_in_In).
  assert (forall k, str_in k available = true -> In k available) as Hni
    by (intros k; apply str_in_In).
  assert (forall k v, is_Some (if str_in k available then Some v else @None string)
                      <-> In k available) as Hiff.
  { intros k v. destruct (str_in k available) eqn:Hk; split; intros Hx.
    - apply Hni, Hk.
    - unfold is_Some. eexists. reflexivity.
    - destruct Hx as [? Hx]. discriminate.
    - apply Hin in Hx. congruence. }
  change (Dict.get options "1") with (Some "Restore network files only").
  change (Dict.get options "2") with (Some "Restore partition only").
  change (Dict.get options "3") with (Some "Full restore").
  change (Dict.get options "4") with (Some "Check before restore").
  rewrite !Hiff. split; [exact H1|]. split; [exact H2|]. split; [exact H3|].
  split; [rewrite (Hin _ H4); reflexivity|].
  intros k v. rewrite (get_filter_keys (fun k => str_in k available)).
  destruct (str_in k available); [auto|discriminate].
Qed.

Lemma show_restore_options_follows_files_witness :
  exists menu,
    show_restore_options Scenario.restorer "X" Scenario.empty_backup
      = (Val menu, Scenario.empty_backup) /\
    (offered menu "1"
     <-> is_Some (fs Scenario.empty_backup
                    !! (backup_dir "./MTK_TOOL/BACKUPS" "X" ++ "/network"))) /\
    (offered menu "2"
     <-> is_Some (fs Scenario.empty_backup
                    !! (backup_dir "./MTK_TOOL/BACKUPS" "X" ++ "/partition"))) /\
    (offered menu "3" <-> offered menu "1" /\ offered menu "2") /\
    Dict.get menu "4" = Some "Check before restore" /\
    (forall k v, Dict.get menu k = Some v -> Dict.get options k = Some v).
Proof.
  apply (show_restore_options_follows_files Scenario.restorer "X" "./MTK_TOOL/BACKUPS"
           Scenario.empty_backup).
  reflexivity.
Defined.

(** X23. [execute_restore] restores nothing. With the backups root
    configured it never raises, runs no command and changes no file.
    A backup that is not there gives "Backup ... not found" whatever
    the option; for a backup that is there each of the options "1" to
    "4" answers status "success" with the time of the call, whether or
    not the menu offers it, and any other option is invalid. *)
Theorem execute_restore_placeholder
    (self : t) (backup_id option root : string) (d : device_info) (w : world) :
  Dict.get (paths (tool_manager self)) "backups" = Some root ->
  exists r w',
    execute_restore self backup_id option d w = (Val r, w') /\
    log w' = log w /\ fs w' = fs w /\ env w' = env w /\
    match fs w !! backup_dir root backup_id with
    | None => r = backup_not_found backup_id /\ w' = w
    | Some _ =>
        (In option restore_choices /\
         Dict.get r "status" = Some (VStr "success") /\
         Dict.get r "timestamp" = Some (VStr (isoformat (opened_at w)))) \/
        (~ In option restore_choices /\ r = invalid_option /\ w' = w)
    end.
Proof.
  intros Hroot.
  unfold execute_restore, backups_root, bind, lift, ret, Sys.path_exists.
  rewrite Hroot. cbv zeta. fold (backup_dir root backup_id).
  destruct (fs w !! backup_dir root backup_id) as [n|] eqn:E.
  2:{ rewrite bool_decide_eq_false_2 by (intros [? ?]; discriminate). cbn [negb].
      eexists _, _. split; [reflexivity|]. auto. }
  rewrite bool_decide_eq_true_2 by eauto. cbn [negb].
  unfold restore_choices, opened_at.
  destruct (String.eqb_spec option "1") as [->|N1].
  { eexists _, _. split; [reflexivity|]. repeat (split; [reflexivity|]).
    left. cbn. auto. }
  destruct (String.eqb_spec option "2") as [->|N2].
  { eexists _, _. split; [reflexivity|]. repeat (split; [reflexivity|]).
    left. cbn. auto. }
  destruct (String.eqb_spec option "3") as [->|N3].
  { eexists _, _. split; [reflexivity|]. repeat (split; [reflexivity|]).
    left. cbn. auto. }
  destruct (String.eqb_spec option "4") as [->|N4].
  { eexists _, _. split; [reflexivity|]. repeat (split; [reflexivity|]).
    left. cbn. auto 6. }
  eexists _, _. split; [reflexivity|]. repeat (split; [reflexivity|]).
  right. split; [|auto]. cbn. intros [H|[H|[H|[H|[]]]]]; congruence.
Qed.

Lemma execute_restore_placeholder_witness :
  exists r w',
    execute_restore Scenario.restorer "X" "3" Scenario.device_x Scenario.empty_backup
      = (Val r, w') /\
    log w' = log Scenario.empty_backup /\ fs w' = fs Scenario.empty_backup /\
    env w' = env Scenario.empty_backup /\
    match fs Scenario.empty_backup !! backup_dir "./MTK_TOOL/BACKUPS" "X" with
    | None => r = backup_not_found "X" /\ w' = Scenario.empty_backup
    | Some _ =>
        (In "3" restore_choices /\
         Dict.get r "status" = Some (VStr "success") /\
         Dict.get r "timestamp"
           = Some (VStr (isoformat (opened_at Scenario.empty_backup)))) \/
        (~ In "3" restore_choices /\ r = invalid_option /\ w' = Scenario.empty_backup)
    end.
Proof.
  apply (execute_restore_placeholder Scenario.restorer "X" "3" "./MTK_TOOL/BACKUPS"
           Scenario.device_x Scenario.empty_backup).
  reflexivity.
Defined.

End RestoreManager.

(** ** The update manager *)

Section UpdateManager.

Import MTKUpdateManager.

(** X24. The protection database is never updated. Online or not,
    [update_protection_db] answers status "error" and leaves the world
    as it was: offline for want of a connection, online because the
    fetch of new data returns nothing. *)
Theorem update_protection_db_never_updates (self : t) (online : bool) (w : world) :
  update_protection_db self online w
    = (Val (update_error (if online then "Failed to fetch protection data"
                          else "No internet connection")), w).
Proof. destruct online; reflexivity. Qed.

(** X25. [check_for_updates] only reads and never raises. It reports
    an update exactly when the connection succeeds and the update
    record is a JSON object whose current version (by default "1.0.0")
    is a string that sorts below "1.0.0". *)
Theorem check_for_updates_exact (self : t) (online : bool) (w : world) :
  exists r,
    check_for_updates self online w = (Val r, w) /\
    (Dict.get r "update_available" = Some (VBool true) \/
     Dict.get r "update_available" = Some (VBool false)) /\
    (Dict.get r "update_available" = Some (VBool true)
     <-> online = true /\ outdated self w).
Proof.
  unfold check_for_updates, _internet_available, _get_current_version,
    _fetch_latest_version, try_except, bind, lift, ret, Sys.read_json,
    Sys.logging_error, outdated.
  destruct online; cbn [negb].
  2:{ eexists. split; [reflexivity|]. split; [right; reflexivity|].
      split; [discriminate|]. intros [H _]. discriminate. }
  destruct (fs w !! last_update_file self) as [[|doc|]|];
    try (eexists; split; [reflexivity|]; split; [right; reflexivity|];
         split; [discriminate|]; intros [_ (info & version & H & _)]; discriminate).
  destruct doc as [| | | | |info];
    try (eexists; split; [reflexivity|]; split; [right; reflexivity|];
         split; [discriminate|]; intros [_ (info & version & H & _)]; discriminate).
  cbn [py_get]. cbv beta iota.
  destruct (Dict.get_default info "current_version" (VStr "1.0.0")) as [| | |version| |] eqn:Hv;
    cbn [str_gt]; cbv beta iota;
    try (eexists; split; [reflexivity|]; split; [right; reflexivity|];
         split; [discriminate|];
         intros [_ (info' & version' & H & Hv' & _)]; injection H as <-; congruence).
  destruct (str_lt version "1.0.0") eqn:Hlt.
  - eexists. split; [reflexivity|]. split; [left; reflexivity|].
    split; [|reflexivity]. intros _. split; [reflexivity|]. eauto.
  - eexists. split; [reflexivity|]. split; [right; reflexivity|].
    split; [discriminate|].
    intros [_ (info' & version' & H & Hv' & Hlt')]. injection H as <-.
    rewrite Hv in Hv'. injection Hv' as <-. congruence.
Qed.

(** X26. [get_protection_info] looks the model up among the top-level
    keys of the database. It only reads and never raises; it answers
    success, with the object found, exactly when the database is a
    JSON object that holds under the key [device_model] an object that
    counts as true, and status "error" otherwise. *)
Theorem get_protection_info_exact (self : t) (device_model : string) (w : world) :
  exists r,
    get_protection_info self device_model w = (Val r, w) /\
    ((exists v, db_entry self w device_model v /\
                r = [("status", VStr "success"); ("protection_info", v)]) \/
     (Dict.get r "status" = Some (VStr "error") /\
      ~ exists v, db_entry self w device_model v)).
Proof.
  unfold get_protection_info, try_except, bind, lift, ret, Sys.read_json, db_entry.
  destruct (fs w !! protection_db_file self) as [[|doc|]|];
    try (eexists; split; [reflexivity|]; right; split; [reflexivity|];
         intros (v & db & H & _); discriminate).
  destruct doc as [| | | | |db];
    try (eexists; split; [reflexivity|]; right; split; [reflexivity|];
         intros (v & db & H & _); discriminate).
  cbn [py_get]. cbv beta iota. unfold Dict.get_default.
  destruct (Dict.get db device_model) as [v|] eqn:Hget.
  - destruct (truthy v) eqn:Hv; cbn [negb].
    + eexists. split; [reflexivity|]. left. exists v. split; [|reflexivity].
      exists db. auto.
    + eexists. split; [reflexivity|]. right. split; [reflexivity|].
      intros (v' & db' & H & Hg & Ht). injection H as <-. congruence.
  - cbn [truthy negb]. eexists. split; [reflexivity|]. right. split; [reflexivity|].
    intros (v' & db' & H & Hg & Ht). injection H as <-. congruence.
Qed.

Lemma initialize_database_effect (self : t) (w w1 : world) :
  database_path self <> protection_db_file self ->
  database_path self <> last_update_file self ->
  protection_db_file self <> last_update_file self ->
  _initialize_database self w = (Val tt, w1) ->
  log w1 = log w /\ env w1 = env w /\
  fs w1 !! database_path self = Some Directory /\
  (forall p, is_Some (fs w !! p) -> fs w1 !! p = fs w !! p) /\
  (fs w !! protection_db_file self = None ->
   fs w1 !! protection_db_file self = Some (JsonFile (default_db (opened_at w)))) /\
  (fs w !! protection_db_file self = None ->
   fs w !! last_update_file self = None ->
   exists t1 t2,
     fs w1 !! last_update_file self
       = Some (JsonFile (VDict [("last_check", VStr (isoformat t1));
                                ("last_update", VStr (isoformat t2));
                                ("current_version", VStr "1.0.0")]))) /\
  is_Some (fs w1 !! protection_db_file self) /\
  is_Some (fs w1 !! last_update_file self) /\
  _initialize_database self w1 = (Val tt, w1).
Proof.
  intros Hdp Hdl Hpl.
  unfold _initialize_database, _create_default_db, _create_update_info, bind, ret,
    Sys.makedirs, Sys.path_exists, Sys.write_json, Sys.now, default_db, opened_at,
    set_fs, set_ticks.
  cbv zeta. intros H.
  assert (protection_db_file self <> database_path self) as Hpd by congruence.
  assert (last_update_file self <> database_path self) as Hld by congruence.
  assert (last_update_file self <> protection_db_file self) as Hlp by congruence.
  repeat (first [case_bool_decide | case_match];
          repeat match goal with
                 | H : ~ is_Some _ |- _ => apply eq_None_not_Some in H
                 | H : is_Some (_ !! _) |- _ => destruct H as [? H]
                 end;
          simplify_map_eq).
  all: cbn [fs log env ticks].
  all: repeat (split;
               [first [ reflexivity
                      | solve [unfold is_Some; eauto]
                      | solve [intros; discriminate]
                      | solve [intros; eexists _, _; reflexivity]
                      | solve [intros; simplify_map_eq; eauto]
                      | solve [intros p [y Hp];
                               repeat (rewrite lookup_insert_ne by congruence);
                               reflexivity] ]|]).
  all: reflexivity.
Qed.

Lemma initial_paths_distinct :
  database_path initial <> protection_db_file initial /\
  database_path initial <> last_update_file initial /\
  protection_db_file initial <> last_update_file initial.
Proof.
  repeat split; intros H; vm_compute in H; discriminate H.
Qed.

(** X27. Initialising the database creates what is missing and
    nothing else. When [_initialize_database] returns, the database
    directory, the protection database and the update record exist,
    every file that was there before is as it was, no command has been
    run, and initialising again changes nothing. *)
Theorem initialize_database_idempotent (w w1 : world) :
  _initialize_database initial w = (Val tt, w1) ->
  fs w1 !! database_path initial = Some Directory /\
  is_Some (fs w1 !! protection_db_file initial) /\
  is_Some (fs w1 !! last_update_file initial) /\
  (forall p, is_Some (fs w !! p) -> fs w1 !! p = fs w !! p) /\
  log w1 = log w /\
  _initialize_database initial w1 = (Val tt, w1).
Proof.
  intros H. destruct initial_paths_distinct as (Hdp & Hdl & Hpl).
  destruct (initialize_database_effect initial w w1 Hdp Hdl Hpl H)
    as (Hlog & _ & Hd & Hkeep & _ & _ & Hp & Hl & Hagain).
  auto 10.
Qed.

Lemma initialize_database_idempotent_witness :
  fs (snd (_initialize_database initial Scenario.bare)) !! database_path initial
    = Some Directory /\
  is_Some (fs (snd (_initialize_database initial Scenario.bare))
             !! protection_db_file initial) /\
  is_Some (fs (snd (_initialize_database initial Scenario.bare))
             !! last_update_file initial) /\
  (forall p, is_Some (fs Scenario.bare !! p) ->
             fs (snd (_initialize_database initial Scenario.bare)) !! p
               = fs Scenario.bare !! p) /\
  log (snd (_initialize_database initial Scenario.bare)) = log Scenario.bare /\
  _initialize_database initial (snd (_initialize_database initial Scenario.bare))
    = (Val tt, snd (_initialize_database initial Scenario.bare)).
Proof.
  apply (initialize_database_idempotent Scenario.bare).
  vm_compute. reflexivity.
Defined.

(** X28. What a fresh database answers. After an initialisation that
    created both files, [get_protection_info] finds the key
    "database_version", and answers success with "1.0.0" as the
    protection info of that model; for every model other than
    "database_version" and "last_updated" it answers "Device not found
    in database". [check_for_updates] reports no update, the current
    version being "1.0.0", when the connection succeeds. *)
Theorem fresh_database_answers (w w1 : world) :
  fs w !! protection_db_file initial = None ->
  fs w !! last_update_file initial = None ->
  _initialize_database initial w = (Val tt, w1) ->
  get_protection_info initial "database_version" w1
    = (Val [("status", VStr "success"); ("protection_info", VStr "1.0.0")], w1) /\
  (forall model,
      model <> "database_version" -> model <> "last_updated" ->
      get_protection_info initial model w1 = (Val device_not_found, w1)) /\
  check_for_updates initial true w1
    = (Val [("update_available", VBool false); ("current_version", VStr "1.0.0")], w1).
Proof.
  intros Hp Hl H. destruct initial_paths_distinct as (Hdp & Hdl & Hpl).
  destruct (initialize_database_effect initial w w1 Hdp Hdl Hpl H)
    as (_ & _ & _ & _ & Hdb & Hrec & _).
  specialize (Hdb Hp). destruct (Hrec Hp Hl) as (t1 & t2 & Hinfo).
  split; [|split].
  - unfold get_protection_info, try_except, bind, lift, ret, Sys.read_json.
    rewrite Hdb. reflexivity.
  - intros model N1 N2.
    unfold get_protection_info, try_except, bind, lift, ret, Sys.read_json.
    rewrite Hdb. unfold default_db, py_get, Dict.get_default. cbn [Dict.get].
    destruct (String.eqb_spec "database_version" model) as [E|_]; [congruence|].
    destruct (String.eqb_spec "last_updated" model) as [E|_]; [congruence|].
    destruct (String.eqb "devices" model); reflexivity.
  - unfold check_for_updates, _internet_available, _get_current_version,
      _fetch_latest_version, try_except, bind, lift, ret, Sys.read_json.
    cbn [negb]. rewrite Hinfo. reflexivity.
Qed.

Lemma fresh_database_answers_witness :
  get_protection_info initial "database_version"
    (snd (_initialize_database initial Scenario.bare))
    = (Val [("status", VStr "success"); ("protection_info", VStr "1.0.0")],
       snd (_initialize_database initial Scenario.bare)) /\
  (forall model,
      model <> "database_version" -> model <> "last_updated" ->
      get_protection_info initial model (snd (_initialize_database initial Scenario.bare))
        = (Val device_not_found, snd (_initialize_database initial Scenario.bare))) /\
  check_for_updates initial true (snd (_initialize_database initial Scenario.bare))
    = (Val [("update_available", VBool false); ("current_version", VStr "1.0.0")],
       snd (_initialize_database initial Scenario.bare)).
Proof.
  apply (fresh_database_answers Scenario.bare).
  - vm_compute. reflexivity.
  - vm_compute. reflexivity.
  - vm_compute. reflexivity.
Defined.

End UpdateManager.
